(** * binance-volume-alert: a shallow embedding of the three programs

    The repository holds three variants of one program:
    - the console monitor (a bare polling loop that prints alerts),
    - the single-session Telegram bot (one global [monitoring] flag),
    - the multi-session Telegram bot (a [sync.Map] from chat id to flag,
      persisted in [monitoring_status.json]).

    All three share [getMarketCapRank] and [getBinanceVolume] verbatim.

    Go's [float64] is Rocq's primitive binary64 [float]; a panic is an
    explicit result; the network, the clock and the other goroutines are an
    oracle indexed by logical time; every effect of a goroutine is recorded
    as an event, in order. *)

From Stdlib Require Import Floats ZArith Ascii String List DecimalString DecimalZ DecimalPos.
From stdpp Require Import gmap strings list sorting.

Set Warnings "-register-all".

Local Open Scope Z_scope.
Local Open Scope string_scope.
Local Open Scope list_scope.

(** ** Values *)

(** A JSON document, which is also the dynamic value an [interface{}] holds
    after [json.Unmarshal] (numbers are [float64] there).  In a document a
    number literal outside the range of [float64] (such as [1e999]) is the
    [JNumber] of an infinity: no decoded value holds one, for
    [json.Unmarshal] reports such a literal as an error. *)
Inductive JSON :=
| JNull
| JBool (b : bool)
| JNumber (f : float)
| JString (s : string)
| JArray (xs : list JSON)
| JObject (kvs : list (string * JSON)).

(** Every number literal of the document, at any depth, has a [float64]
    value: [strconv.ParseFloat] accepts it when [json.Unmarshal] converts it
    for an [interface{}]. *)
Fixpoint inFloat64 (j : JSON) : bool :=
  match j with
  | JNumber f => PrimFloat.is_finite f
  | JArray xs => forallb inFloat64 xs
  | JObject kvs => forallb (fun kv => inFloat64 kv.2) kvs
  | _ => true
  end.

(** [type BinanceKline []interface{}] *)
Abbreviation BinanceKline := (list JSON).

(** [type CoinGeckoResponse struct { Symbol string }] *)
Record CoinGeckoResponse := { Symbol : string }.

(** [type VolumeData struct { PrevVolume, CurrVolume, Ratio float64 }] *)
Record VolumeData := {
  PrevVolume : float;
  CurrVolume : float;
  Ratio : float
}.

(** Errors of the Go libraries, opaque to the program. *)
Inductive LibError :=
| NetError (what : string)
| IOError (what : string)
| NotExist
| JSONSyntaxError
| JSONTypeError.

(** [fmt.Errorf(format, err)] or [fmt.Errorf(format)]. *)
Record error := Errorf { format : string; cause : option LibError }.

(** What [strconv.ParseFloat(s, 64)] hands back: the nearest float, or a
    syntax error (value 0), or a range error (value +Inf or -Inf). *)
Inductive ParseResult :=
| ParseOk (f : float)
| ErrSyntax
| ErrRange (negative : bool).

(** The first component of [strconv.ParseFloat]'s result, the only one the
    program keeps ([prevVolume, _ := ...]). *)
Definition parsed (r : ParseResult) : float :=
  match r with
  | ParseOk f => f
  | ErrSyntax => 0%float
  | ErrRange false => infinity
  | ErrRange true => neg_infinity
  end.

(** ** Outputs *)

Inductive Message :=
| MsgWelcome
| MsgStarted
| MsgStopped
| MsgAlreadyRunning
| MsgNotRunning
| MsgStatus (running : bool)
| MsgAlert (symbol : string) (data : VolumeData).

Inductive LogEntry :=
| LogStarting
| LogRankError (err : error)
| LogVolumeError (symbol : string) (err : error)
| LogCheckCompleted (chat : option Z)
| LogAlertSendError (err : LibError)
| LogSaveError (err : LibError)
| LogReadError (err : LibError)
| LogUnmarshalError (err : LibError).

(** One effect of a goroutine. *)
Inductive Event :=
| EvLoad (chat : Z) (v : option bool)
| EvStore (chat : Z) (v : bool)
| EvRange
| EvReadFlag (v : bool)
| EvSetFlag (v : bool)
| EvSetChat (chat : Z)
| EvReadChat (chat : Z)
| EvHttpGet (url : string)
| EvLog (entry : LogEntry)
| EvPrint (entry : LogEntry)
| EvSleep (ms : Z)
| EvSend (chat : Z) (m : Message)
| EvPrintAlert (symbol : string) (data : VolumeData)
| EvReadFile (name : string)
| EvWriteFile (name : string) (data : JSON)
| EvGo (chat : option Z).

(** ** The environment *)

(** The result of [ioutil.ReadAll(resp.Body)]: a read error, or the body,
    given as the JSON value its text denotes ([None]: the text is not
    JSON). *)
Inductive BodyRead :=
| ReadFail (e : LibError)
| ReadOk (doc : option JSON).

Record Response := { StatusCode : Z; Body : BodyRead }.

(** Library functions the programs call and the answers of the outside
    world.  The [nat] argument is the logical time of the call. *)
Record Env := {
  ParseFloat : string -> ParseResult;
  ToUpper : string -> string;
  Unmarshal_coins : JSON -> LibError + list CoinGeckoResponse;
  http_Get : nat -> string -> LibError + Response;
  bot_Send : nat -> option LibError;
  WriteFile_err : nat -> option LibError;
  (** what a write that fails leaves behind: nothing, the file is untouched
      (it could not be opened); or a file that was truncated on opening and
      then holds the whole data ([true]: the error came at the close) or
      less, which is no JSON ([false]) *)
  WriteFile_leaves : nat -> option bool;
  ReadFile_err : nat -> option LibError;
  (** writes of the other goroutines since this goroutine's last access *)
  flag_writes : nat -> list bool;
  chat_writes : nat -> list Z;
  map_stores : nat -> list (Z * bool);
  (** the panic, if any, of a monitoring goroutine that by this time has
      ended the process *)
  goroutine_panic : nat -> option string
}.

(** ** The monad: globals, logical clock, emitted events, panics *)

Record World (G : Type) := mkWorld { globals : G; clock : nat }.
Arguments mkWorld {G} _ _.
Arguments globals {G} _.
Arguments clock {G} _.

Inductive Result (A : Type) :=
| Done (a : A)
| Panicked (msg : string).
Arguments Done {A} _.
Arguments Panicked {A} _.

Definition M (G A : Type) : Type := World G -> Result A * World G * list Event.

Definition ret {G A} (a : A) : M G A := fun w => (Done a, w, []).

Definition bind {G A B} (m : M G A) (f : A -> M G B) : M G B :=
  fun w =>
    match m w with
    | (Done a, w1, e1) =>
        match f a w1 with
        | (r, w2, e2) => (r, w2, e1 ++ e2)
        end
    | (Panicked msg, w1, e1) => (Panicked msg, w1, e1)
    end.

Definition panic {G A} (msg : string) : M G A := fun w => (Panicked msg, w, []).

(** Emit one event; the clock advances. *)
Definition emit {G} (e : Event) : M G unit :=
  fun w => (Done tt, mkWorld (globals w) (S (clock w)), [e]).

Definition now {G} : M G nat := fun w => (Done (clock w), w, []).
Definition getG {G} : M G G := fun w => (Done (globals w), w, []).
Definition putG {G} (g : G) : M G unit := fun w => (Done tt, mkWorld g (clock w), []).

#[global] Instance M_ret {G} : MRet (M G) := @ret G.
#[global] Instance M_bind {G} : MBind (M G) := fun A B f m => bind m f.

Definition result_of {G A} (x : Result A * World G * list Event) : Result A := x.1.1.
Definition world_of {G A} (x : Result A * World G * list Event) : World G := x.1.2.
Definition events_of {G A} (x : Result A * World G * list Event) : list Event := x.2.

(** ** Primitive effects shared by the three programs *)

Section Fetchers.
Context {G : Type} (env : Env).

(** [http.Get(url)] followed, where the program does so, by
    [ioutil.ReadAll(resp.Body)]. *)
Definition httpGet (url : string) : M G (LibError + Response) :=
  t ← now;
  emit (EvHttpGet url);;
  mret (http_Get env t url).

Definition logPrintf (entry : LogEntry) : M G unit := emit (EvLog entry).
Definition fmtPrintf (entry : LogEntry) : M G unit := emit (EvPrint entry).
Definition timeSleep (ms : Z) : M G unit := emit (EvSleep ms).

(** [bot.Send(msg)]: the message goes out; the answer is an error or not. *)
Definition botSend (chat : Z) (m : Message) : M G (option LibError) :=
  t ← now;
  emit (EvSend chat m);;
  mret (bot_Send env t).

(** [l[i]]: a run-time panic when [i] is out of range. *)
Definition index {A} (l : list A) (i : nat) : M G A :=
  match l !! i with
  | Some x => mret x
  | None => panic "index out of range"
  end.

(** [v.(string)]: a run-time panic when [v] holds no string. *)
Definition assertString (v : JSON) : M G string :=
  match v with
  | JString s => mret s
  | _ => panic "interface conversion: interface {} is not string"
  end.

(** [json.Unmarshal] at type [BinanceKline]: an array, or [null]. *)
Definition Unmarshal_kline (j : JSON) : option BinanceKline :=
  match j with
  | JNull => Some []
  | JArray xs => Some xs
  | _ => None
  end.

(** [json.Unmarshal(body, &klines)] at type [[]BinanceKline].  A row that
    is no array, and a number literal outside [float64] anywhere in a row,
    are errors the decoder saves while it goes on; [json.Unmarshal] returns
    the error at the end, and the program then drops what was decoded. *)
Definition Unmarshal_klines (body : option JSON) : LibError + list BinanceKline :=
  match body with
  | None => inl JSONSyntaxError
  | Some JNull => inr []
  | Some (JArray rows) =>
      match mapM Unmarshal_kline rows with
      | Some klines =>
          if forallb inFloat64 rows then inr klines else inl JSONTypeError
      | None => inl JSONTypeError
      end
  | Some _ => inl JSONTypeError
  end.

Definition rankURL : string :=
  "https://api.coingecko.com/api/v3/coins/markets?vs_currency=usd&order=market_cap_desc&per_page=100&page=1&sparkline=false".

Definition klinesURL (symbol : string) : string :=
  "https://api.binance.com/api/v3/klines?symbol=" +:+ symbol +:+ "&interval=1h&limit=2".

Definition getMarketCapRank : M G (list string * option error) :=
  r ← httpGet rankURL;
  match r with
  | inl e => mret ([], Some (Errorf "failed to get market cap rank: %v" (Some e)))
  | inr resp =>
      match Body resp with
      | ReadFail e => mret ([], Some (Errorf "failed to read response body: %v" (Some e)))
      | ReadOk body =>
          match from_option (Unmarshal_coins env) (inl JSONSyntaxError) body with
          | inl e => mret ([], Some (Errorf "failed to unmarshal response: %v" (Some e)))
          | inr coins =>
              mret (map (fun coin => ToUpper env (Symbol coin) +:+ "USDT") coins, None)
          end
      end
  end.

(** The second half of [getBinanceVolume], from [if len(klines) < 2] on. *)
Definition volumeOfKlines (klines : list BinanceKline)
    : M G (option VolumeData * option error) :=
  if Nat.ltb (length klines) 2
  then mret (None, Some (Errorf "insufficient kline data" None))
  else
    k0 ← index klines 0;
    v0 ← index k0 5;
    s0 ← assertString v0;
    let prevVolume := parsed (ParseFloat env s0) in
    k1 ← index klines 1;
    v1 ← index k1 5;
    s1 ← assertString v1;
    let currVolume := parsed (ParseFloat env s1) in
    if PrimFloat.eqb prevVolume 0 then mret (None, None) else
    let ratio := PrimFloat.div currVolume prevVolume in
    mret (Some {| PrevVolume := prevVolume;
                  CurrVolume := currVolume;
                  Ratio := ratio |}, None).

Definition getBinanceVolume (symbol : string) : M G (option VolumeData * option error) :=
  r ← httpGet (klinesURL symbol);
  match r with
  | inl e => mret (None, Some (Errorf "failed to get kline data: %v" (Some e)))
  | inr resp =>
      if Z.eqb (StatusCode resp) 400 then mret (None, None) else
      match Body resp with
      | ReadFail e => mret (None, Some (Errorf "failed to read response body: %v" (Some e)))
      | ReadOk body =>
          match Unmarshal_klines body with
          | inl e => mret (None, Some (Errorf "failed to unmarshal klines: %v" (Some e)))
          | inr klines => volumeOfKlines klines
          end
      end
  end.

End Fetchers.

(** How a monitoring loop ends within the cycles it is given: it returned,
    or it is still running when the fuel (a number of outer cycles) is
    spent. *)
Inductive LoopEnd := Returned | Running.

(** What one pass of the inner loop body does to the inner loop. *)
Inductive Ctl := Next | Return.

(** An update from the Telegram channel. *)
Record ChatMessage := { ChatID : Z; IsCommand : bool; Command : string }.
Record Update := { UpdMessage : option ChatMessage }.

(** ** Goroutines and the process *)

Definition startsGoroutine (e : Event) : bool :=
  match e with EvGo _ => true | _ => false end.

(** [m], telling also whether it started a goroutine. *)
Definition spawning {G A} (m : M G A) : M G (A * bool) :=
  fun w =>
    match m w with
    | (Done a, w1, e1) => (Done (a, existsb startsGoroutine e1), w1, e1)
    | (Panicked msg, w1, e1) => (Panicked msg, w1, e1)
    end.

(** What the Go runtime does to the goroutine of [main] when another
    goroutine panics and nothing recovers: the process ends, whatever [main]
    was doing.  No goroutine of these programs recovers.  The goroutine of
    [main] spends its time waiting for the next update; the check stands
    there: if a goroutine has been started and one has panicked by now, the
    run ends with that panic. *)
Definition processAlive {G} (env : Env) (started : bool) : M G unit :=
  t ← now;
  match goroutine_panic env t with
  | Some msg => if (started : bool) then panic msg else mret tt
  | None => mret tt
  end.

(** [for update := range updates { body }], in the goroutine of [main]. *)
Fixpoint rangeUpdates {G} (env : Env) (body : Update -> M G unit) (started : bool)
    (updates : list Update) : M G unit :=
  match updates with
  | [] => mret tt
  | update :: rest =>
      processAlive env started;;
      '(_, s) ← spawning (body update);
      rangeUpdates env body (started || s) rest
  end.

(** ** strconv.FormatInt / strconv.ParseInt, as encoding/json uses them for
       the keys of a [map[int64]bool] *)

Definition FormatInt (z : Z) : string := NilZero.string_of_int (Z.to_int z).

Definition int64_range (z : Z) : Prop := - 2 ^ 63 <= z < 2 ^ 63.

Definition in_int64 (z : Z) : bool := Z.leb (- 2 ^ 63) z && Z.ltb z (2 ^ 63).

(** [strconv.ParseInt(s, 10, 64)]: an optional sign, then one or more
    decimal digits, the value within int64. *)
Definition ParseInt (s : string) : option Z :=
  let '(neg, digits) :=
    match s with
    | String c r =>
        if Ascii.eqb c "+" then (false, r)
        else if Ascii.eqb c "-" then (true, r)
        else (false, s)
    | EmptyString => (false, s)
    end in
  match digits with
  | EmptyString => None
  | _ =>
      match NilEmpty.uint_of_string digits with
      | Some u =>
          let n := Z.of_uint u in
          let v := if neg then Z.opp n else n in
          if in_int64 v then Some v else None
      | None => None
      end
  end.

(** ** The multi-session bot *)

Module Multi.

Record Globals := {
  monitoringStatus : gmap Z bool;
  files : gmap string (option JSON)
}.

Definition statusFile : string := "monitoring_status.json".

Definition key_le (a b : string * JSON) : Prop := String.leb a.1 b.1 = true.

#[global] Instance key_le_dec a b : Decision (key_le a b).
Proof. unfold key_le. apply _. Defined.

(** [json.Marshal(statusMap)]: an object whose keys are the chat ids in
    decimal, sorted as strings. *)
Definition Marshal_statusMap (statusMap : gmap Z bool) : JSON :=
  JObject (merge_sort key_le
             ((fun kv : Z * bool => (FormatInt kv.1, JBool kv.2)) <$> map_to_list statusMap)).

(** One member of the object, decoded at key type [int64] and value type
    [bool] ([null] leaves the zero value). *)
Definition Unmarshal_entry (kv : string * JSON) : option (Z * bool) :=
  match ParseInt kv.1, kv.2 with
  | Some k, JBool b => Some (k, b)
  | Some k, JNull => Some (k, false)
  | _, _ => None
  end.

(** [json.Unmarshal(data, &statusMap)]; a later member overwrites an
    earlier one with the same key. *)
Definition Unmarshal_statusMap (data : option JSON) : LibError + gmap Z bool :=
  match data with
  | None => inl JSONSyntaxError
  | Some JNull => inr ∅
  | Some (JObject kvs) =>
      match mapM Unmarshal_entry kvs with
      | Some entries =>
          inr (fold_left (fun m (kv : Z * bool) => <[kv.1 := kv.2]> m) entries ∅)
      | None => inl JSONTypeError
      end
  | Some _ => inl JSONTypeError
  end.

Section Program.
Context (env : Env).

(** The stores the other goroutines made since this goroutine last
    looked at the map become visible. *)
Definition applyStores (l : list (Z * bool)) (m : gmap Z bool) : gmap Z bool :=
  fold_left (fun m (kv : Z * bool) => <[kv.1 := kv.2]> m) l m.

Definition sync : M Globals unit :=
  t ← now;
  g ← getG;
  putG {| monitoringStatus := applyStores (map_stores env t) (monitoringStatus g);
          files := files g |}.

(** The map as this goroutine sees it at its next access. *)
Definition seen (w : World Globals) : gmap Z bool :=
  applyStores (map_stores env (clock w)) (monitoringStatus (globals w)).

(** The world at that access, before the access counts as an event. *)
Definition synced (w : World Globals) : World Globals :=
  mkWorld {| monitoringStatus := seen w; files := files (globals w) |} (clock w).

(** [monitoringStatus.Load(chatID)] *)
Definition Load (chatID : Z) : M Globals (option bool) :=
  sync;;
  g ← getG;
  let v := monitoringStatus g !! chatID in
  emit (EvLoad chatID v);;
  mret v.

(** [monitoringStatus.Store(chatID, status)] *)
Definition Store (chatID : Z) (status : bool) : M Globals unit :=
  g ← getG;
  putG {| monitoringStatus := <[chatID := status]> (monitoringStatus g);
          files := files g |};;
  emit (EvStore chatID status).

(** [monitoringStatus.Range(...)], copying into a fresh map. *)
Definition Range : M Globals (gmap Z bool) :=
  sync;;
  g ← getG;
  emit EvRange;;
  mret (monitoringStatus g).

(** [monitoring.(bool)] on the result of a [Load]. *)
Definition assertBool (v : option bool) : M Globals bool :=
  match v with
  | Some b => mret b
  | None => panic "interface conversion: interface {} is nil, not bool"
  end.

(** [ioutil.WriteFile(name, data, 0644)]: the file is opened with
    [O_WRONLY|O_CREATE|O_TRUNC], written and closed.  A write that fails
    leaves the file as the failing step left it: untouched when it could
    not be opened, truncated (empty or cut short: no JSON) or complete when
    the error came later. *)
Definition WriteFile (name : string) (data : JSON) : M Globals (option LibError) :=
  t ← now;
  emit (EvWriteFile name data);;
  match WriteFile_err env t with
  | Some e =>
      g ← getG;
      putG {| monitoringStatus := monitoringStatus g;
              files := match WriteFile_leaves env t with
                       | None => files g
                       | Some whole =>
                           <[name := if (whole : bool) then Some data else None]> (files g)
                       end |};;
      mret (Some e)
  | None =>
      g ← getG;
      putG {| monitoringStatus := monitoringStatus g;
              files := <[name := Some data]> (files g) |};;
      mret None
  end.

(** [ioutil.ReadFile(name)] *)
Definition ReadFile (name : string) : M Globals (LibError + option JSON) :=
  t ← now;
  emit (EvReadFile name);;
  g ← getG;
  match files g !! name with
  | None => mret (inl NotExist)
  | Some content =>
      match ReadFile_err env t with
      | Some e => mret (inl e)
      | None => mret (inr content)
      end
  end.

(** [os.IsNotExist(err)] *)
Definition IsNotExist (e : LibError) : bool :=
  match e with NotExist => true | _ => false end.

(** [go startMonitoring(chatID)]: the new goroutine runs on its own. *)
Definition goStartMonitoring (chatID : Z) : M Globals unit := emit (EvGo (Some chatID)).

Definition sendAlert (chatID : Z) (symbol : string) (data : VolumeData) : M Globals unit :=
  r ← botSend env chatID (MsgAlert symbol data);
  match r with
  | Some e => logPrintf (LogAlertSendError e)
  | None => mret tt
  end.

(** [json.Marshal] of a [map[int64]bool] cannot fail, so the branch that
    logs a marshalling error has no counterpart here. *)
Definition saveMonitoringStatus : M Globals unit :=
  statusMap ← Range;
  let data := Marshal_statusMap statusMap in
  r ← WriteFile statusFile data;
  match r with
  | Some e => logPrintf (LogSaveError e)
  | None => mret tt
  end.

(** The body of [for chatID, status := range statusMap]; Go leaves the
    order of a map range unspecified, the model takes the order of
    [map_to_list]. *)
Fixpoint resume (entries : list (Z * bool)) : M Globals unit :=
  match entries with
  | [] => mret tt
  | (chatID, status) :: rest =>
      Store chatID status;;
      (if status then goStartMonitoring chatID else mret tt);;
      resume rest
  end.

Definition loadMonitoringStatus : M Globals unit :=
  r ← ReadFile statusFile;
  match r with
  | inl e => if negb (IsNotExist e) then logPrintf (LogReadError e) else mret tt
  | inr data =>
      match Unmarshal_statusMap data with
      | inl e => logPrintf (LogUnmarshalError e)
      | inr statusMap => resume (map_to_list statusMap)
      end
  end.

(** One pass of [for _, symbol := range symbols]. *)
Definition checkSymbol (chatID : Z) (symbol : string) : M Globals Ctl :=
  monitoring ← Load chatID;
  b ← assertBool monitoring;
  if negb b then mret Return else
  '(volumeData, err) ← getBinanceVolume env symbol;
  match err with
  | Some e => logPrintf (LogVolumeError symbol e);; mret Next
  | None =>
      match volumeData with
      | Some data =>
          if PrimFloat.ltb 5 (Ratio data)
          then sendAlert chatID symbol data
          else mret tt
      | None => mret tt
      end;;
      timeSleep 100;;
      mret Next
  end.

Fixpoint forSymbols (chatID : Z) (symbols : list string) : M Globals Ctl :=
  match symbols with
  | [] => mret Next
  | symbol :: rest =>
      c ← checkSymbol chatID symbol;
      match c with
      | Return => mret Return
      | Next => forSymbols chatID rest
      end
  end.

(** The [for { ... }] of [startMonitoring], run for at most [fuel]
    outer cycles. *)
Fixpoint monitorLoop (fuel : nat) (chatID : Z) : M Globals LoopEnd :=
  match fuel with
  | O => mret Running
  | S n =>
      monitoring ← Load chatID;
      b ← assertBool monitoring;
      if negb b then mret Returned else
      '(symbols, err) ← getMarketCapRank env;
      match err with
      | Some e =>
          logPrintf (LogRankError e);;
          timeSleep 300000;;
          monitorLoop n chatID
      | None =>
          c ← forSymbols chatID symbols;
          match c with
          | Return => mret Returned
          | Next =>
              logPrintf (LogCheckCompleted (Some chatID));;
              timeSleep 300000;;
              monitorLoop n chatID
          end
      end
  end.

Definition startMonitoring (fuel : nat) (chatID : Z) : M Globals LoopEnd :=
  Store chatID true;;
  saveMonitoringStatus;;
  botSend env chatID MsgStarted;;
  monitorLoop fuel chatID.

Definition stopMonitoring (chatID : Z) : M Globals unit :=
  Store chatID false;;
  saveMonitoringStatus;;
  botSend env chatID MsgStopped;;
  mret tt.

(** [monitoring != nil && monitoring.(bool)] *)
Definition isMonitoring (monitoring : option bool) : bool :=
  match monitoring with
  | Some b => b
  | None => false
  end.

(** The body of [for update := range updates]. *)
Definition handleUpdate (update : Update) : M Globals unit :=
  match UpdMessage update with
  | None => mret tt
  | Some msg =>
      let chatID := ChatID msg in
      if negb (IsCommand msg) then mret tt else
      if String.eqb (Command msg) "start" then
        botSend env chatID MsgWelcome;; mret tt
      else if String.eqb (Command msg) "monitor" then
        monitoring ← Load chatID;
        if negb (isMonitoring monitoring)
        then goStartMonitoring chatID
        else botSend env chatID MsgAlreadyRunning;; mret tt
      else if String.eqb (Command msg) "stop" then
        monitoring ← Load chatID;
        if isMonitoring monitoring
        then stopMonitoring chatID
        else botSend env chatID MsgNotRunning;; mret tt
      else if String.eqb (Command msg) "status" then
        monitoring ← Load chatID;
        botSend env chatID (MsgStatus (isMonitoring monitoring));; mret tt
      else mret tt
  end.

Fixpoint handleCommands (updates : list Update) : M Globals unit :=
  match updates with
  | [] => mret tt
  | update :: rest => handleUpdate update;; handleCommands rest
  end.

(** [main] is the process: it logs, resumes the sessions of the status
    file and then runs the loop of [handleCommands] for as long as the
    process lives, which is until the updates end or a goroutine that was
    started (by the resumption or by a [/monitor]) panics. *)
Definition main (updates : list Update) : M Globals unit :=
  logPrintf LogStarting;;
  '(_, started) ← spawning loadMonitoringStatus;
  rangeUpdates env handleUpdate started updates.

End Program.

End Multi.

(** ** The single-session bot *)

Module Single.

(** [var ( chatID int64; monitoring bool = false )] *)
Record Globals := { chatID : Z; monitoring : bool }.

Section Program.
Context (env : Env).

(** The writes the other goroutines made to the two globals since this
    goroutine last looked become visible; the last write wins. *)
Definition sync : M Globals unit :=
  t ← now;
  g ← getG;
  putG {| chatID := from_option id (chatID g) (last (chat_writes env t));
          monitoring := from_option id (monitoring g) (last (flag_writes env t)) |}.

(** The globals as this goroutine sees them at its next access. *)
Definition synced (w : World Globals) : World Globals :=
  mkWorld {| chatID := from_option id (chatID (globals w)) (last (chat_writes env (clock w)));
             monitoring := from_option id (monitoring (globals w))
                             (last (flag_writes env (clock w))) |}
          (clock w).

Definition seenFlag (w : World Globals) : bool := monitoring (globals (synced w)).
Definition seenChat (w : World Globals) : Z := chatID (globals (synced w)).

(** A read of [monitoring]. *)
Definition readMonitoring : M Globals bool :=
  sync;;
  g ← getG;
  emit (EvReadFlag (monitoring g));;
  mret (monitoring g).

(** [monitoring = b] *)
Definition setMonitoring (b : bool) : M Globals unit :=
  g ← getG;
  putG {| chatID := chatID g; monitoring := b |};;
  emit (EvSetFlag b).

(** A read of [chatID]. *)
Definition readChatID : M Globals Z :=
  sync;;
  g ← getG;
  emit (EvReadChat (chatID g));;
  mret (chatID g).

(** [chatID = c] *)
Definition setChatID (c : Z) : M Globals unit :=
  g ← getG;
  putG {| chatID := c; monitoring := monitoring g |};;
  emit (EvSetChat c).

(** [go startMonitoring()] *)
Definition goStartMonitoring : M Globals unit := emit (EvGo None).

Definition sendAlert (symbol : string) (data : VolumeData) : M Globals unit :=
  c ← readChatID;
  r ← botSend env c (MsgAlert symbol data);
  match r with
  | Some e => logPrintf (LogAlertSendError e)
  | None => mret tt
  end.

(** One pass of [for _, symbol := range symbols]. *)
Definition checkSymbol (symbol : string) : M Globals Ctl :=
  b ← readMonitoring;
  if negb b then mret Return else
  '(volumeData, err) ← getBinanceVolume env symbol;
  match err with
  | Some e => logPrintf (LogVolumeError symbol e);; mret Next
  | None =>
      match volumeData with
      | Some data =>
          if PrimFloat.ltb 5 (Ratio data)
          then sendAlert symbol data
          else mret tt
      | None => mret tt
      end;;
      timeSleep 100;;
      mret Next
  end.

Fixpoint forSymbols (symbols : list string) : M Globals Ctl :=
  match symbols with
  | [] => mret Next
  | symbol :: rest =>
      c ← checkSymbol symbol;
      match c with
      | Return => mret Return
      | Next => forSymbols rest
      end
  end.

(** The [for monitoring { ... }] of [startMonitoring], run for at most
    [fuel] outer cycles. *)
Fixpoint monitorLoop (fuel : nat) : M Globals LoopEnd :=
  match fuel with
  | O => mret Running
  | S n =>
      b ← readMonitoring;
      if negb b then mret Returned else
      '(symbols, err) ← getMarketCapRank env;
      match err with
      | Some e =>
          logPrintf (LogRankError e);;
          timeSleep 300000;;
          monitorLoop n
      | None =>
          c ← forSymbols symbols;
          match c with
          | Return => mret Returned
          | Next =>
              logPrintf (LogCheckCompleted None);;
              timeSleep 300000;;
              monitorLoop n
          end
      end
  end.

Definition startMonitoring (fuel : nat) : M Globals LoopEnd :=
  setMonitoring true;;
  c ← readChatID;
  botSend env c MsgStarted;;
  monitorLoop fuel.

Definition stopMonitoring : M Globals unit :=
  setMonitoring false;;
  c ← readChatID;
  botSend env c MsgStopped;;
  mret tt.

(** The body of [for update := range updates]. *)
Definition handleUpdate (update : Update) : M Globals unit :=
  match UpdMessage update with
  | None => mret tt
  | Some msg =>
      setChatID (ChatID msg);;
      if negb (IsCommand msg) then mret tt else
      if String.eqb (Command msg) "start" then
        c ← readChatID;
        botSend env c MsgWelcome;; mret tt
      else if String.eqb (Command msg) "monitor" then
        b ← readMonitoring;
        if negb b
        then goStartMonitoring
        else c ← readChatID; botSend env c MsgAlreadyRunning;; mret tt
      else if String.eqb (Command msg) "stop" then
        b ← readMonitoring;
        if (b : bool)
        then stopMonitoring
        else c ← readChatID; botSend env c MsgNotRunning;; mret tt
      else if String.eqb (Command msg) "status" then
        b ← readMonitoring;
        c ← readChatID;
        botSend env c (MsgStatus b);; mret tt
      else mret tt
  end.

Fixpoint handleCommands (updates : list Update) : M Globals unit :=
  match updates with
  | [] => mret tt
  | update :: rest => handleUpdate update;; handleCommands rest
  end.

(** [main] is the process: it logs and then runs the loop of
    [handleCommands] for as long as the process lives, which is until the
    updates end or the goroutine that a [/monitor] started panics. *)
Definition main (updates : list Update) : M Globals unit :=
  logPrintf LogStarting;;
  rangeUpdates env handleUpdate false updates.

End Program.

End Single.

(** ** The console monitor *)

Module Console.

Section Program.
Context (env : Env).

Definition alert (symbol : string) (data : VolumeData) : M unit unit :=
  emit (EvPrintAlert symbol data).

(** One pass of [for _, symbol := range symbols]. *)
Definition checkSymbol (symbol : string) : M unit Ctl :=
  '(volumeData, err) ← getBinanceVolume env symbol;
  match err with
  | Some e => fmtPrintf (LogVolumeError symbol e);; mret Next
  | None =>
      match volumeData with
      | Some data =>
          if PrimFloat.ltb 5 (Ratio data)
          then alert symbol data
          else mret tt
      | None => mret tt
      end;;
      timeSleep 100;;
      mret Next
  end.

Fixpoint forSymbols (symbols : list string) : M unit Ctl :=
  match symbols with
  | [] => mret Next
  | symbol :: rest =>
      c ← checkSymbol symbol;
      match c with
      | Return => mret Return
      | Next => forSymbols rest
      end
  end.

(** The [for { ... }] of [main], run for at most [fuel] outer cycles. *)
Fixpoint mainLoop (fuel : nat) : M unit LoopEnd :=
  match fuel with
  | O => mret Running
  | S n =>
      '(symbols, err) ← getMarketCapRank env;
      match err with
      | Some e =>
          fmtPrintf (LogRankError e);;
          timeSleep 300000;;
          mainLoop n
      | None =>
          c ← forSymbols symbols;
          match c with
          | Return => mret Returned
          | Next =>
              fmtPrintf (LogCheckCompleted None);;
              timeSleep 300000;;
              mainLoop n
          end
      end
  end.

Definition main (fuel : nat) : M unit LoopEnd :=
  fmtPrintf LogStarting;;
  mainLoop fuel.

End Program.

End Console.

(** * The vocabulary of the properties *)

(** [evs] happened first, then the run [x]. *)
Definition after {G A} (evs : list Event) (x : Result A * World G * list Event)
    : Result A * World G * list Event :=
  (x.1.1, x.1.2, evs ++ x.2).

(** The world one event later, globals untouched. *)
Definition tick {G} (w : World G) : World G := mkWorld (globals w) (S (clock w)).

(** The kline request for [symbol], issued in world [w], is answered with
    status [status] and a body that reads as [body]. *)
Definition answered {G} (env : Env) (w : World G) (symbol : string) (status : Z)
    (body : BodyRead) : Prop :=
  http_Get env (clock w) (klinesURL symbol) = inr {| StatusCode := status; Body := body |}.

(** ... with a status other than 400 and a body that decodes to [klines]. *)
Definition decodesTo {G} (env : Env) (w : World G) (symbol : string)
    (klines : list BinanceKline) : Prop :=
  exists status body,
    answered env w symbol status (ReadOk body) /\ status <> 400 /\
    Unmarshal_klines body = inr klines.

(** The volume field of record [i] is the string [s]. *)
Definition volumeField (klines : list BinanceKline) (i : nat) (s : string) : Prop :=
  exists k, klines !! i = Some k /\ k !! 5%nat = Some (JString s).

(** [volumeData != nil && volumeData.Ratio > 5] *)
Definition exceeds (volumeData : option VolumeData) : bool :=
  match volumeData with
  | Some data => PrimFloat.ltb 5 (Ratio data)
  | None => false
  end.

Definition alertOf (e : Event) : option (string * VolumeData) :=
  match e with
  | EvSend _ (MsgAlert symbol data) => Some (symbol, data)
  | EvPrintAlert symbol data => Some (symbol, data)
  | _ => None
  end.

(** The alerts a trace holds, in order. *)
Fixpoint alertsOf (evs : list Event) : list (string * VolumeData) :=
  match evs with
  | [] => []
  | e :: rest =>
      match alertOf e with
      | Some a => a :: alertsOf rest
      | None => alertsOf rest
      end
  end.

(** What [log.Printf] adds when [bot.Send] fails. *)
Definition sendFailure (r : option LibError) : list Event :=
  match r with
  | Some e => [EvLog (LogAlertSendError e)]
  | None => []
  end.

(** The alerts a pass owes for the result [r] of its fetch. *)
Definition alertsFor (symbol : string) (r : Result (option VolumeData * option error))
    : list (string * VolumeData) :=
  match r with
  | Done (Some data, None) =>
      if PrimFloat.ltb 5 (Ratio data) then [(symbol, data)] else []
  | _ => []
  end.

(** The alerts of [evs] are the one for [(symbol, data)] when the ratio is
    above 5 and none otherwise; none, in particular, at exactly 5. *)
Definition alertsIffAbove5 (symbol : string) (data : VolumeData) (evs : list Event) : Prop :=
  (In (symbol, data) (alertsOf evs) <-> PrimFloat.ltb 5 (Ratio data) = true) /\
  alertsOf evs = (if PrimFloat.ltb 5 (Ratio data) then [(symbol, data)] else []) /\
  (PrimFloat.eqb (Ratio data) 5 = true -> alertsOf evs = []).

(** The snapshot fetch fails at every time. *)
Definition rankAlwaysFails (env : Env) : Prop :=
  forall t, exists e, http_Get env t rankURL = inl e.

(** The update that carries command [cmd] from chat [chat]. *)
Definition command (chat : Z) (cmd : string) : Update :=
  {| UpdMessage := Some {| ChatID := chat; IsCommand := true; Command := cmd |} |}.

Definition isSpawn (e : Event) : bool :=
  match e with EvGo _ => true | _ => false end.

Definition isWrite (e : Event) : bool :=
  match e with EvWriteFile _ _ => true | _ => false end.

(** The goroutines a trace starts, and the files it writes. *)
Definition spawnsOf (evs : list Event) : list Event := filter (fun e => isSpawn e = true) evs.

Definition writesOf (evs : list Event) : list Event := filter (fun e => isWrite e = true) evs.

(** The part an event plays in a monitoring loop: a flag read that lets the
    loop go on, a flag read that ends it, a network request, another output
    of the loop, or an event that is not the loop's. *)
Inductive Kind := KGo | KHalt | KRequest | KQuiet | KAlien.

Definition kindMulti (chatID : Z) (e : Event) : Kind :=
  match e with
  | EvLoad c v =>
      if Z.eqb c chatID
      then match v with Some true => KGo | _ => KHalt end
      else KAlien
  | EvHttpGet _ => KRequest
  | EvLog _ | EvSleep _ | EvSend _ _ => KQuiet
  | _ => KAlien
  end.

Definition kindSingle (e : Event) : Kind :=
  match e with
  | EvReadFlag true => KGo
  | EvReadFlag false => KHalt
  | EvHttpGet _ => KRequest
  | EvLog _ | EvSleep _ | EvSend _ _ | EvReadChat _ => KQuiet
  | _ => KAlien
  end.

(** A trace is guarded when each request comes right after a flag read that
    said "running" ([armed] tells whether the event before the trace was
    one), nothing follows a flag read that ended the loop, and every event
    is the loop's. *)
Fixpoint guarded (kind : Event -> Kind) (armed : bool) (evs : list Event) : bool :=
  match evs with
  | [] => true
  | e :: rest =>
      match kind e with
      | KGo => guarded kind true rest
      | KHalt => match rest with [] => true | _ => false end
      | KRequest => armed && guarded kind false rest
      | KQuiet => guarded kind false rest
      | KAlien => false
      end
  end.

Definition haltFree (kind : Event -> Kind) (evs : list Event) : Prop :=
  forall e, In e evs -> kind e <> KHalt.

(** In the trace [evs] every network request comes right after the event
    [go]. *)
Definition checkedBeforeEachRequest (go : Event) (evs : list Event) : Prop :=
  forall pre url post,
    evs = pre ++ EvHttpGet url :: post -> exists pre', pre = pre' ++ [go].

(** In the trace of the run [x] nothing follows the event [stop], and a run
    whose trace holds it returned [returned]. *)
Definition endsAt {G R} (stop : Event) (returned : R)
    (x : Result R * World G * list Event) : Prop :=
  forall pre post,
    events_of x = pre ++ stop :: post -> post = [] /\ result_of x = Done returned.

(** The invariant of a run of a loop (or of a part of one): its trace is
    guarded; if the loop goes on, no flag read ended it; if the trace holds
    the flag read [stop], the run returned. *)
Definition goodRun {G R} (kind : Event -> Kind) (stop : Event) (continuing returned : R)
    (x : Result R * World G * list Event) : Prop :=
  guarded kind false (events_of x) = true /\
  (result_of x = Done continuing -> haltFree kind (events_of x)) /\
  (In stop (events_of x) -> result_of x = Done returned).

(** The chats for which a trace starts a monitoring loop, in order. *)
Fixpoint spawnedChats (evs : list Event) : list Z :=
  match evs with
  | [] => []
  | EvGo (Some c) :: rest => c :: spawnedChats rest
  | _ :: rest => spawnedChats rest
  end.

(** The chats a list of entries enables, in order. *)
Fixpoint enabledChats (entries : list (Z * bool)) : list Z :=
  match entries with
  | [] => []
  | (c, true) :: rest => c :: enabledChats rest
  | (_, false) :: rest => enabledChats rest
  end.

#[global] Instance int64_range_dec z : Decision (int64_range z).
Proof. unfold int64_range. apply _. Defined.

(** One store of the resumption loop, as a function on maps. *)
Definition insertEntry (m : gmap Z bool) (kv : Z * bool) : gmap Z bool :=
  <[kv.1 := kv.2]> m.

(** ** Specifications of computations *)

(** From globals that satisfy [I], the computation [m] ends in globals that
    satisfy [I], emits only events that satisfy [E], and either returns a
    value that satisfies [Q] or panics with a message that satisfies [P]. *)
Definition triple {G A} (I : G -> Prop) (E : Event -> Prop) (m : M G A)
    (Q : A -> Prop) (P : string -> Prop) : Prop :=
  forall w : World G,
    I (globals w) ->
    I (globals (world_of (m w))) /\
    Forall E (events_of (m w)) /\
    match result_of (m w) with
    | Done a => Q a
    | Panicked msg => P msg
    end.

(** The two panics of [getBinanceVolume]: a kline record with fewer than six
    fields, and a volume field that holds no string. *)
Definition klinePanic (msg : string) : Prop :=
  msg = "index out of range" \/
  msg = "interface conversion: interface {} is not string".

(** Every kline response the environment gives that the fetcher goes on to
    read has a string in the volume field of its first two records. *)
Definition wellFormedKlines (env : Env) : Prop :=
  forall t url status body klines,
    http_Get env t url = inr {| StatusCode := status; Body := ReadOk body |} ->
    status <> 400 ->
    Unmarshal_klines body = inr klines ->
    (2 <= length klines)%nat ->
    exists s0 s1, volumeField klines 0 s0 /\ volumeField klines 1 s1.

(** The volume field of record [i], when the record has one. *)
Definition volumeCell (klines : list BinanceKline) (i : nat) : option JSON :=
  klines !! i ≫= fun k => k !! 5%nat.

(** No other goroutine touches the map, or the flag. *)
Definition storesQuiet (env : Env) : Prop := forall t, map_stores env t = [].
Definition flagsQuiet (env : Env) : Prop := forall t, flag_writes env t = [].

(** The session has a flag in the map; and it is "running" if no other
    goroutine touches the map. *)
Definition flagKept (env : Env) (chatID : Z) (g : Multi.Globals) : Prop :=
  is_Some (Multi.monitoringStatus g !! chatID) /\
  (storesQuiet env -> Multi.monitoringStatus g !! chatID = Some true).

(** The flag is "running" if no other goroutine touches it. *)
Definition flagOn (env : Env) (g : Single.Globals) : Prop :=
  flagsQuiet env -> Single.monitoring g = true.

(** The event is not a load of the session's flag that found none. *)
Definition notNilLoad (chatID : Z) (e : Event) : Prop := e <> EvLoad chatID None.

(** What the goroutine of session [chatID] may do: load the session's own
    flag, and find one; store "running" for the session; copy the map and
    write the status file; send to the session's chat; request, log and
    sleep.  It reads no file, starts no goroutine and touches no other
    session. *)
Definition sessionEvent (chatID : Z) (e : Event) : Prop :=
  match e with
  | EvLoad c v => c = chatID /\ v <> None
  | EvStore c b => c = chatID /\ b = true
  | EvSend c _ => c = chatID
  | EvWriteFile name _ => name = Multi.statusFile
  | EvRange | EvHttpGet _ | EvLog _ | EvSleep _ => True
  | _ => False
  end.

(** The computation never panics, from any world. *)
Definition safe {G A} (m : M G A) : Prop :=
  triple (fun _ => True) (fun _ => True) m (fun _ => True) (fun _ => False).

(** Every send of the event, and every read of the chat id, is for the chat
    [c]. *)
Definition addressedTo (c : Z) (e : Event) : Prop :=
  match e with
  | EvSend c' _ => c' = c
  | EvReadChat c' => c' = c
  | _ => True
  end.

(** No other goroutine writes the chat id. *)
Definition chatQuiet (env : Env) : Prop := forall t, chat_writes env t = [].

(** The invariant of the loop of session [chatID]: the session keeps its
    flag, and the files are [F]. *)
Definition sessionInv (env : Env) (chatID : Z) (F : gmap string (option JSON))
    (g : Multi.Globals) : Prop :=
  flagKept env chatID g /\ Multi.files g = F.



(** The URLs a trace requests, in order. *)
Definition requestOf (e : Event) : option string :=
  match e with EvHttpGet url => Some url | _ => None end.

Definition requestsOf (evs : list Event) : list string := omap requestOf evs.

(** What one pass over [symbol] shows: one request for the symbol's klines
    (or none, and then the inner loop does not go on), and at most one
    alert, for that symbol. *)
Definition stepShape {G} (symbol : string) (x : Result Ctl * World G * list Event) : Prop :=
  (requestsOf (events_of x) = [klinesURL symbol] \/
   (requestsOf (events_of x) = [] /\ result_of x <> Done Next)) /\
  ((alertsOf (events_of x)).*1 = [] \/ (alertsOf (events_of x)).*1 = [symbol]).

(** What the inner loop over [symbols] shows: it requests the klines of the
    symbols in their order, one request each, up to where it stops, and of
    all of them when it runs to the end; the symbols it alerts for are a
    subsequence of [symbols]. *)
Definition passShape {G} (symbols : list string) (x : Result Ctl * World G * list Event)
    : Prop :=
  requestsOf (events_of x) `prefix_of` (klinesURL <$> symbols) /\
  (result_of x = Done Next -> requestsOf (events_of x) = klinesURL <$> symbols) /\
  (alertsOf (events_of x)).*1 `sublist_of` symbols.

(** ** The pace of the requests to the ranking API *)

(** One event, seen by an observer who remembers whether the loop has slept
    five minutes since its last request to the ranking API: a request to
    that API before such a sleep is a violation ([None]). *)
Definition pace (rested : bool) (e : Event) : option bool :=
  match e with
  | EvSleep ms => Some (rested || Z.leb 300000 ms)
  | EvHttpGet url =>
      if String.eqb url rankURL
      then (if rested then Some false else None)
      else Some rested
  | _ => Some rested
  end.

Fixpoint pacedFrom (rested : bool) (evs : list Event) : option bool :=
  match evs with
  | [] => Some rested
  | e :: rest =>
      match pace rested e with
      | Some r => pacedFrom r rest
      | None => None
      end
  end.

(** An event that leaves the observer as it is. *)
Definition inert (e : Event) : Prop :=
  match e with
  | EvHttpGet url => url <> rankURL
  | EvSleep ms => ms < 300000
  | _ => True
  end.

(** Started with an observer that satisfies [pre], the computation commits
    no violation and, when it returns [a], leaves an observer that
    satisfies [post a]. *)
Definition keepsPace {G A} (pre : bool -> Prop) (m : M G A) (post : A -> bool -> Prop)
    : Prop :=
  forall (w : World G) (b : bool),
    pre b ->
    exists b', pacedFrom b (events_of (m w)) = Some b' /\
               match result_of (m w) with
               | Done a => post a b'
               | Panicked _ => True
               end.

(** Two answers to a request that differ at most in the HTTP status code. *)
Definition sameButStatus (r1 r2 : LibError + Response) : Prop :=
  match r1, r2 with
  | inl e1, inl e2 => e1 = e2
  | inr a, inr b => Body a = Body b
  | _, _ => False
  end.

(** The answer is not a response with status 400. *)
Definition not400 (r : LibError + Response) : Prop :=
  match r with
  | inr resp => StatusCode resp <> 400
  | inl _ => True
  end.

(** What the handler of the multi-session bot may do for a message from
    chat [c]: load the flag of [c], store "stopped" for [c], start the loop
    of [c], answer to [c], save the map. *)
Definition commandEvent (c : Z) (e : Event) : Prop :=
  match e with
  | EvLoad c' _ => c' = c
  | EvSend c' _ => c' = c
  | EvStore c' b => c' = c /\ b = false
  | EvGo chat => chat = Some c
  | EvWriteFile name _ => name = Multi.statusFile
  | EvRange | EvLog _ => True
  | _ => False
  end.

(** The flag of session [c'] is [v], if no other goroutine touches the map. *)
Definition flagIs (env : Env) (c' : Z) (v : option bool) (g : Multi.Globals) : Prop :=
  storesQuiet env -> Multi.monitoringStatus g !! c' = v.

(** Every write of the status file fails with [e], and leaves the file as
    [stage] says. *)
Definition writesFail (env : Env) (e : LibError) (stage : option bool) : Prop :=
  forall t, WriteFile_err env t = Some e /\ WriteFile_leaves env t = stage.

(** The files after a write of [data] to [name] that failed at [stage]. *)
Definition leftBehind (stage : option bool) (name : string) (data : JSON)
    (files : gmap string (option JSON)) : gmap string (option JSON) :=
  match stage with
  | None => files
  | Some whole => <[name := if (whole : bool) then Some data else None]> files
  end.

(** What makes a sample worth an alert: a ratio above 5 that is the
    quotient of the sample's volumes, the previous one not zero. *)
Definition soundSample (d : VolumeData) : Prop :=
  PrimFloat.ltb 5 (Ratio d) = true /\
  PrimFloat.eqb (PrevVolume d) 0 = false /\
  Ratio d = PrimFloat.div (CurrVolume d) (PrevVolume d).

(** If the event is an alert, its sample is worth one. *)
Definition soundEvent (e : Event) : Prop :=
  match alertOf e with
  | Some (_, d) => soundSample d
  | None => True
  end.

(** A result of the fetcher whose sample, if it has one, comes without an
    error and is consistent. *)
Definition sampleOk (r : option VolumeData * option error) : Prop :=
  forall d, r.1 = Some d ->
    r.2 = None /\
    PrimFloat.eqb (PrevVolume d) 0 = false /\
    Ratio d = PrimFloat.div (CurrVolume d) (PrevVolume d).

(** An event of the session's own that is no false alarm. *)
Definition ownSound (chatID : Z) (e : Event) : Prop :=
  sessionEvent chatID e /\ soundEvent e.

(** Every alert of the trace carries a sample worth one. *)
Definition alertsSound (evs : list Event) : Prop :=
  forall symbol data, (symbol, data) ∈ alertsOf evs -> soundSample data.



(** * A concrete environment for the examples *)

(** [strconv.ParseFloat] on the few strings the examples use; every other
    string used below is not a number at all. *)
Definition exampleParseFloat (s : string) : ParseResult :=
  if String.eqb s "100.0" then ParseOk 100%float
  else if String.eqb s "500.0" then ParseOk 500%float
  else if String.eqb s "600.0" then ParseOk 600%float
  else if String.eqb s "0" then ParseOk 0%float
  else if String.eqb s "1e999" then ErrRange false
  else ErrSyntax.

(** A kline record as Binance sends it, with the given volume field. *)
Definition kline (volume : JSON) : JSON :=
  JArray [JNumber 1700000000000%float; JString "1.0"; JString "2.0"; JString "0.5";
          JString "1.5"; volume; JNumber 1700003599999%float].

Definition ok200 (doc : JSON) : LibError + Response :=
  inr {| StatusCode := 200; Body := ReadOk (Some doc) |}.

(** An environment that answers every request, at any time, from [http],
    in which nothing else fails and the other goroutines write what
    [flags] and [stores] say. *)
Definition exampleEnv (http : string -> LibError + Response)
    (flags : nat -> list bool) (stores : nat -> list (Z * bool)) : Env :=
  {| ParseFloat := exampleParseFloat;
     ToUpper := id;
     Unmarshal_coins := fun _ => inr [{| Symbol := "ETH" |}; {| Symbol := "BTC" |}];
     http_Get := fun _ url => http url;
     bot_Send := fun _ => None;
     WriteFile_err := fun _ => None;
     WriteFile_leaves := fun _ => None;
     ReadFile_err := fun _ => None;
     flag_writes := flags;
     chat_writes := fun _ => [];
     map_stores := stores;
     goroutine_panic := fun _ => None |}.

Definition quiet {A} : nat -> list A := fun _ => [].

Definition klinesWith (prev curr : JSON) : string -> LibError + Response :=
  fun _ => ok200 (JArray [kline prev; kline curr]).

Definition W0 {G} (g : G) : World G := mkWorld g 0.

Definition klinesOf (prev curr : JSON) : list BinanceKline :=
  [ [JNumber 1700000000000%float; JString "1.0"; JString "2.0"; JString "0.5";
     JString "1.5"; prev; JNumber 1700003599999%float];
    [JNumber 1700000000000%float; JString "1.0"; JString "2.0"; JString "0.5";
     JString "1.5"; curr; JNumber 1700003599999%float] ].

Definition envRatio6 : Env :=
  exampleEnv (klinesWith (JString "100.0") (JString "600.0")) quiet quiet.

Definition envRatio5 : Env :=
  exampleEnv (klinesWith (JString "100.0") (JString "500.0")) quiet quiet.

Definition sample6 : VolumeData :=
  {| PrevVolume := 100; CurrVolume := 600; Ratio := 6 |}.

Definition sample5 : VolumeData :=
  {| PrevVolume := 100; CurrVolume := 500; Ratio := 5 |}.

Definition singleRunning : World Single.Globals :=
  W0 {| Single.chatID := 7; Single.monitoring := true |}.

Definition multiRunning : World Multi.Globals :=
  W0 {| Multi.monitoringStatus := {[ 7 := true ]}; Multi.files := ∅ |}.

Definition singleStopped : World Single.Globals :=
  W0 {| Single.chatID := 7; Single.monitoring := false |}.

Definition multiFresh : World Multi.Globals :=
  W0 {| Multi.monitoringStatus := ∅; Multi.files := ∅ |}.

Definition envQuiet : Env := exampleEnv (fun _ => inl (NetError "offline")) quiet quiet.

(** A response whose previous-period volume is the string "0" and whose
    second record is empty. *)
Definition envShortSecondRecord : Env :=
  exampleEnv (fun _ => ok200 (JArray [kline (JString "0"); JArray []])) quiet quiet.

Definition envZeroPrevious : Env :=
  exampleEnv (klinesWith (JString "0") (JString "600.0")) quiet quiet.

(** A response whose previous-period volume is a JSON number. *)
Definition envNumericVolume : Env :=
  exampleEnv (klinesWith (JNumber 12.5%float) (JString "600.0")) quiet quiet.

Definition envMalformedPrevious : Env :=
  exampleEnv (klinesWith (JString "n/a") (JString "600.0")) quiet quiet.

(** A response whose current-period volume is [null]. *)
Definition envNullCurrent : Env :=
  exampleEnv (klinesWith (JString "100.0") JNull) quiet quiet.

Definition envMalformedCurrent : Env :=
  exampleEnv (klinesWith (JString "100.0") (JString "n/a")) quiet quiet.

Definition envInvalidSymbol : Env :=
  exampleEnv (fun _ => inr {| StatusCode := 400; Body := ReadOk (Some (JObject [])) |})
             quiet quiet.

Definition envOneCandle : Env :=
  exampleEnv (fun _ => ok200 (JArray [kline (JString "100.0")])) quiet quiet.

Definition oneCandle : list BinanceKline :=
  [ [JNumber 1700000000000%float; JString "1.0"; JString "2.0"; JString "0.5";
     JString "1.5"; JString "100.0"; JNumber 1700003599999%float] ].

(** The ranking API is unreachable; the kline API answers with one
    candlestick. *)
Definition envRankDown : Env :=
  exampleEnv (fun url =>
                if String.eqb url rankURL
                then inl (NetError "dial tcp: i/o timeout")
                else ok200 (JArray [kline (JString "100.0")]))
             quiet quiet.

Definition rankDownError : error :=
  Errorf "failed to get market cap rank: %v" (Some (NetError "dial tcp: i/o timeout")).

(** Another goroutine stops session 7 while the loop is between its first
    and its second symbol: [stop] lands before the access at time 6. *)
Definition envStoppedMidCycle : Env :=
  exampleEnv (klinesWith (JString "100.0") (JString "600.0")) quiet
             (fun t => if Nat.eqb t 6 then [(7, false)] else []).

(** Another goroutine stops session 7 and starts it again between two
    accesses of the loop: the flag is back to "running" when the loop looks. *)
Definition envStopUndone : Env :=
  exampleEnv (klinesWith (JString "100.0") (JString "600.0")) quiet
             (fun t => if Nat.eqb t 6 then [(7, false); (7, true)] else []).

Definition envFlagClearedMidCycle : Env :=
  exampleEnv (klinesWith (JString "100.0") (JString "600.0"))
             (fun t => if Nat.eqb t 7 then [false] else []) quiet.

(** Three sessions: a private chat that is monitored, a group that is
    monitored, a private chat that was stopped. *)
Definition exampleStatus : gmap Z bool :=
  <[7 := true]> (<[-1001234567890 := true]> (<[42 := false]> ∅)).

Definition beforeSave : World Multi.Globals :=
  W0 {| Multi.monitoringStatus := exampleStatus; Multi.files := ∅ |}.

Definition afterRestart : World Multi.Globals :=
  W0 {| Multi.monitoringStatus := ∅;
        Multi.files := Multi.files
                         (globals (world_of (Multi.saveMonitoringStatus envQuiet beforeSave))) |}.

(** A response with a third record and other prices, with the volumes of
    [envRatio6] in its first two records. *)
Definition envThreeCandles : Env :=
  exampleEnv
    (fun _ => ok200 (JArray [JArray [JNumber 1%float; JString "9.0"; JString "9.5";
                                     JString "8.0"; JString "9.1"; JString "100.0"];
                             JArray [JNumber 2%float; JString "9.1"; JString "9.9";
                                     JString "9.0"; JString "9.7"; JString "600.0"];
                             kline (JString "0")]))
    quiet quiet.

Definition threeCandles : list BinanceKline :=
  [ [JNumber 1%float; JString "9.0"; JString "9.5"; JString "8.0"; JString "9.1";
     JString "100.0"];
    [JNumber 2%float; JString "9.1"; JString "9.9"; JString "9.0"; JString "9.7";
     JString "600.0"];
    [JNumber 1700000000000%float; JString "1.0"; JString "2.0"; JString "0.5";
     JString "1.5"; JString "0"; JNumber 1700003599999%float] ].

(** A message that is no command, from another chat than the one the
    single-session bot is monitoring for. *)
Definition chatter : Update :=
  {| UpdMessage := Some {| ChatID := 42; IsCommand := false; Command := "" |} |}.

(** A status file edited by hand: a key with a sign, the same session
    twice, a [null] value. *)
Definition editedFile : JSON :=
  JObject [("+7", JBool true); ("8", JBool true); ("7", JBool false); ("42", JNull)].

Definition editedStatus : gmap Z bool :=
  <[7 := false]> (<[8 := true]> (<[42 := false]> ∅)).

(** A status file with one member whose value is no boolean. *)
Definition damagedFile : JSON :=
  JObject [("7", JBool true); ("8", JString "yes")].

Definition withFile (m : gmap Z bool) (content : option JSON) : World Multi.Globals :=
  W0 {| Multi.monitoringStatus := m; Multi.files := {[ Multi.statusFile := content ]} |}.

(** The answers of [envRatio6], sent with status 500. *)
Definition envStatus500 : Env :=
  exampleEnv (fun _ => inr {| StatusCode := 500;
                              Body := ReadOk (Some (JArray [kline (JString "100.0");
                                                            kline (JString "600.0")])) |})
             quiet quiet.

(** The disk is full: every write of the status file fails after the file
    was opened, and leaves it cut short. *)
Definition envDiskFull : Env :=
  {| ParseFloat := exampleParseFloat;
     ToUpper := id;
     Unmarshal_coins := fun _ => inr [{| Symbol := "ETH" |}; {| Symbol := "BTC" |}];
     http_Get := fun _ _ => inl (NetError "offline");
     bot_Send := fun _ => None;
     WriteFile_err := fun _ => Some (IOError "no space left on device");
     WriteFile_leaves := fun _ => Some false;
     ReadFile_err := fun _ => None;
     flag_writes := quiet;
     chat_writes := quiet;
     map_stores := quiet;
     goroutine_panic := fun _ => None |}.

(** The goroutines started by the time 4 of the command goroutine have hit a
    malformed kline: from then on the process is gone. *)
Definition envGoroutinePanics : Env :=
  {| ParseFloat := exampleParseFloat;
     ToUpper := id;
     Unmarshal_coins := fun _ => inr [{| Symbol := "ETH" |}; {| Symbol := "BTC" |}];
     http_Get := fun _ _ => inl (NetError "offline");
     bot_Send := fun _ => None;
     WriteFile_err := fun _ => None;
     WriteFile_leaves := fun _ => None;
     ReadFile_err := fun _ => None;
     flag_writes := quiet;
     chat_writes := quiet;
     map_stores := quiet;
     goroutine_panic := fun t => if Nat.leb 4 t then Some "index out of range" else None |}.

(** The answer of [envRatio6] with an open time that no [float64] holds. *)
Definition envHugeNumber : Env :=
  exampleEnv
    (fun _ => ok200 (JArray [JArray [JNumber infinity; JString "1.0"; JString "2.0";
                                     JString "0.5"; JString "1.5"; JString "100.0"];
                             kline (JString "600.0")]))
    quiet quiet.

(** * Properties *)

Arguments klinesURL : simpl never.
Arguments rankURL : simpl never.

(** ** Running a computation *)

Lemma mbind_Done {G A B} (m : M G A) (f : A -> M G B) w a w1 e1 :
  m w = (Done a, w1, e1) -> (m ≫= f) w = after e1 (f a w1).
Proof.
  intros H. unfold mbind, M_bind, bind, after. rewrite H.
  destruct (f a w1) as [[r w2] e2]. reflexivity.
Qed.

Lemma mbind_Panicked {G A B} (m : M G A) (f : A -> M G B) w msg w1 e1 :
  m w = (Panicked msg, w1, e1) -> (m ≫= f) w = (Panicked msg, w1, e1).
Proof. intros H. unfold mbind, M_bind, bind. rewrite H. reflexivity. Qed.

Lemma after_nil {G A} (x : Result A * World G * list Event) : after [] x = x.
Proof. destruct x as [[r w] e]. reflexivity. Qed.

Lemma after_after {G A} e1 e2 (x : Result A * World G * list Event) :
  after e1 (after e2 x) = after (e1 ++ e2) x.
Proof. unfold after. simpl. rewrite app_assoc. reflexivity. Qed.

Lemma after_triple {G A} e1 (r : Result A) (w : World G) e2 :
  after e1 (r, w, e2) = (r, w, e1 ++ e2).
Proof. reflexivity. Qed.

Lemma events_after {G A} e1 (x : Result A * World G * list Event) :
  events_of (after e1 x) = e1 ++ events_of x.
Proof. reflexivity. Qed.

Lemma result_after {G A} e1 (x : Result A * World G * list Event) :
  result_of (after e1 x) = result_of x.
Proof. reflexivity. Qed.

Lemma mret_run {G A} (a : A) (w : World G) : (mret a : M G A) w = (Done a, w, []).
Proof. reflexivity. Qed.

Lemma panic_run {G A} msg (w : World G) : @panic G A msg w = (Panicked msg, w, []).
Proof. reflexivity. Qed.

Lemma emit_run {G} e (w : World G) : emit e w = (Done tt, tick w, [e]).
Proof. reflexivity. Qed.

Lemma httpGet_run {G} env url (w : World G) :
  httpGet env url w = (Done (http_Get env (clock w) url), tick w, [EvHttpGet url]).
Proof. reflexivity. Qed.

Lemma botSend_run {G} env chat m (w : World G) :
  botSend env chat m w = (Done (bot_Send env (clock w)), tick w, [EvSend chat m]).
Proof. reflexivity. Qed.

Lemma logPrintf_run {G} entry (w : World G) :
  logPrintf entry w = (Done tt, tick w, [EvLog entry]).
Proof. reflexivity. Qed.

Lemma fmtPrintf_run {G} entry (w : World G) :
  fmtPrintf entry w = (Done tt, tick w, [EvPrint entry]).
Proof. reflexivity. Qed.

Lemma timeSleep_run {G} ms (w : World G) :
  timeSleep ms w = (Done tt, tick w, [EvSleep ms]).
Proof. reflexivity. Qed.

(** The run of a primitive action, or of an action whose run is a
    hypothesis. *)
Ltac run_prim :=
  first
    [ eassumption
    | apply httpGet_run | apply botSend_run | apply logPrintf_run
    | apply fmtPrintf_run | apply timeSleep_run | apply emit_run
    | apply mret_run ].

(** Run the first action of a bind whose result is known. *)
Ltac mstep :=
  first
    [ erewrite mbind_Done by run_prim
    | erewrite mbind_Panicked by first [ eassumption | apply panic_run ] ].

Ltac mtidy :=
  repeat first
    [ rewrite mret_run | rewrite panic_run | rewrite after_after
    | rewrite after_triple | rewrite after_nil ].

Ltac mfinish :=
  simpl; mtidy; simpl; rewrite ?app_nil_r, <- ?app_assoc; simpl; reflexivity.

Ltac mrun := repeat first [ mstep | progress simpl ]; mfinish.

(** ** The volume fetcher *)

Section FetcherFacts.
Context {G : Type} (env : Env).

Lemma getBinanceVolume_400 (w : World G) symbol body :
  answered env w symbol 400 body ->
  getBinanceVolume env symbol w =
    (Done (None, None), tick w, [EvHttpGet (klinesURL symbol)]).
Proof.
  unfold answered, getBinanceVolume. intros H.
  mstep. rewrite H. reflexivity.
Qed.

Lemma getBinanceVolume_decoded (w : World G) symbol klines :
  decodesTo env w symbol klines ->
  getBinanceVolume env symbol w =
    after [EvHttpGet (klinesURL symbol)] (volumeOfKlines env klines (tick w)).
Proof.
  intros (status & body & H & Hs & Hd).
  unfold answered in H. unfold getBinanceVolume.
  mstep. rewrite H. simpl.
  destruct (Z.eqb_spec status 400) as [->|_]; [done|].
  rewrite Hd. reflexivity.
Qed.

Lemma volumeOfKlines_short klines (w : World G) :
  (length klines < 2)%nat ->
  volumeOfKlines env klines w =
    (Done (None, Some (Errorf "insufficient kline data" None)), w, []).
Proof.
  intros H. unfold volumeOfKlines.
  destruct (Nat.ltb_spec (length klines) 2); [reflexivity | lia].
Qed.

Lemma volumeOfKlines_strings klines s0 s1 (w : World G) :
  volumeField klines 0 s0 -> volumeField klines 1 s1 ->
  volumeOfKlines env klines w =
    (Done (if PrimFloat.eqb (parsed (ParseFloat env s0)) 0
           then (None, None)
           else (Some {| PrevVolume := parsed (ParseFloat env s0);
                         CurrVolume := parsed (ParseFloat env s1);
                         Ratio := PrimFloat.div (parsed (ParseFloat env s1))
                                                (parsed (ParseFloat env s0)) |}, None)),
     w, []).
Proof.
  intros (k0 & Hk0 & Hv0) (k1 & Hk1 & Hv1).
  unfold volumeOfKlines.
  destruct (Nat.ltb_spec (length klines) 2) as [Hlt|_].
  { apply lookup_lt_Some in Hk1. lia. }
  unfold index, mbind, M_bind, bind.
  rewrite Hk0. simpl. rewrite Hv0. simpl. rewrite Hk1. simpl. rewrite Hv1. simpl.
  destruct (PrimFloat.eqb _ _); reflexivity.
Qed.

End FetcherFacts.

(** ** Facts about binary64 the fetcher relies on *)

Lemma Prim2SF_zero : Prim2SF 0%float = S754_zero false.
Proof. reflexivity. Qed.

(** A strictly positive float is not zero. *)
Lemma positive_not_zero (p : float) :
  PrimFloat.ltb 0 p = true -> PrimFloat.eqb p 0 = false.
Proof.
  rewrite FloatAxioms.ltb_spec, FloatAxioms.eqb_spec, Prim2SF_zero.
  unfold SFltb, SFeqb.
  destruct (Prim2SF p) as [s| s| |s m e]; simpl; try discriminate;
    destruct s; simpl; (discriminate || reflexivity).
Qed.

(** Zero divided by a strictly positive float is zero. *)
Lemma zero_div_positive (c p : float) :
  PrimFloat.eqb c 0 = true -> PrimFloat.ltb 0 p = true ->
  PrimFloat.eqb (PrimFloat.div c p) 0 = true.
Proof.
  rewrite FloatAxioms.ltb_spec, !FloatAxioms.eqb_spec, FloatAxioms.div_spec, Prim2SF_zero.
  unfold SFltb, SFeqb, SF64div.
  destruct (Prim2SF c) as [sc| sc| |sc mc ec]; simpl; try discriminate;
    try (destruct sc; discriminate).
  intros _.
  destruct (Prim2SF p) as [s| s| |s m e]; simpl; try discriminate;
    destruct s; simpl; try discriminate; reflexivity.
Qed.

Section FetcherTotal.
Context {G : Type} (env : Env).

(** The second half of the fetcher touches neither the world nor the
    outside. *)
Lemma volumeOfKlines_pure klines (w : World G) :
  exists r, volumeOfKlines env klines w = (r, w, []).
Proof.
  unfold volumeOfKlines, index, assertString, mbind, M_bind, bind.
  destruct (Nat.ltb _ _); [eexists; reflexivity|].
  destruct (klines !! 0%nat) as [k0|]; simpl; [|eexists; reflexivity].
  destruct (k0 !! 5%nat) as [v0|]; simpl; [|eexists; reflexivity].
  destruct v0; simpl; try (eexists; reflexivity).
  destruct (klines !! 1%nat) as [k1|]; simpl; [|eexists; reflexivity].
  destruct (k1 !! 5%nat) as [v1|]; simpl; [|eexists; reflexivity].
  destruct v1; simpl; try (eexists; reflexivity).
  destruct (PrimFloat.eqb _ _); eexists; reflexivity.
Qed.

(** Whatever the answer, [getBinanceVolume] makes exactly one request. *)
Lemma getBinanceVolume_shape symbol (w : World G) :
  exists r, getBinanceVolume env symbol w = (r, tick w, [EvHttpGet (klinesURL symbol)]).
Proof.
  unfold getBinanceVolume. mstep.
  destruct (http_Get env (clock w) (klinesURL symbol)) as [e|resp];
    [eexists; reflexivity|].
  destruct (Z.eqb _ _); [eexists; reflexivity|].
  destruct (Body resp) as [e|body]; [eexists; reflexivity|].
  destruct (Unmarshal_klines body) as [e|klines]; [eexists; reflexivity|].
  destruct (volumeOfKlines_pure klines (tick w)) as [r ->].
  eexists; reflexivity.
Qed.

(** [getMarketCapRank] makes exactly one request and always returns. *)
Lemma getMarketCapRank_shape (w : World G) :
  exists symbols err,
    getMarketCapRank env w = (Done (symbols, err), tick w, [EvHttpGet rankURL]).
Proof.
  unfold getMarketCapRank. mstep.
  destruct (http_Get env (clock w) rankURL) as [e|resp];
    [do 2 eexists; reflexivity|].
  destruct (Body resp) as [e|body]; [do 2 eexists; reflexivity|].
  destruct (from_option _ _ body) as [e|coins]; do 2 eexists; reflexivity.
Qed.

End FetcherTotal.

(** ** Alerts in a trace *)

Lemma alertsOf_app e1 e2 : alertsOf (e1 ++ e2) = alertsOf e1 ++ alertsOf e2.
Proof.
  induction e1 as [|e e1 IH]; simpl; [reflexivity|].
  destruct (alertOf e); simpl; rewrite IH; reflexivity.
Qed.

Lemma alertsOf_sendFailure r : alertsOf (sendFailure r) = [].
Proof. destruct r; reflexivity. Qed.

(** ** The loop of the multi-session bot, step by step *)

Module MultiFacts.
Import Multi.

Section Steps.
Context (env : Env).

Lemma multi_Load_run chatID w :
  Load env chatID w =
    (Done (seen env w !! chatID), tick (synced env w), [EvLoad chatID (seen env w !! chatID)]).
Proof. reflexivity. Qed.

Lemma multi_Load_events chatID w v w1 e1 :
  Load env chatID w = (Done v, w1, e1) -> e1 = [EvLoad chatID v] /\ w1 = tick (synced env w).
Proof. rewrite multi_Load_run. intros [= <- <- <-]. done. Qed.

Lemma multi_sendAlert_run chatID symbol data w :
  sendAlert env chatID symbol data w =
    (Done tt,
     match bot_Send env (clock w) with Some _ => tick (tick w) | None => tick w end,
     EvSend chatID (MsgAlert symbol data) :: sendFailure (bot_Send env (clock w))).
Proof.
  unfold sendAlert. mstep.
  destruct (bot_Send env (clock w)); reflexivity.
Qed.

Lemma multi_checkSymbol_stopped chatID symbol w w1 e1 :
  Load env chatID w = (Done (Some false), w1, e1) ->
  checkSymbol env chatID symbol w = (Done Return, w1, e1).
Proof. intros HL. unfold checkSymbol. mrun. Qed.

Lemma multi_checkSymbol_error chatID symbol w w1 e1 volumeData e w2 e2 :
  Load env chatID w = (Done (Some true), w1, e1) ->
  getBinanceVolume env symbol w1 = (Done (volumeData, Some e), w2, e2) ->
  checkSymbol env chatID symbol w =
    (Done Next, tick w2, e1 ++ e2 ++ [EvLog (LogVolumeError symbol e)]).
Proof. intros HL HV. unfold checkSymbol. mrun. Qed.

Lemma multi_checkSymbol_quiet chatID symbol w w1 e1 volumeData w2 e2 :
  Load env chatID w = (Done (Some true), w1, e1) ->
  getBinanceVolume env symbol w1 = (Done (volumeData, None), w2, e2) ->
  exceeds volumeData = false ->
  checkSymbol env chatID symbol w = (Done Next, tick w2, e1 ++ e2 ++ [EvSleep 100]).
Proof.
  intros HL HV HX. unfold checkSymbol.
  assert (Hq : (match volumeData with
                | Some data =>
                    if PrimFloat.ltb 5 (Ratio data)
                    then sendAlert env chatID symbol data
                    else mret tt
                | None => mret tt
                end) w2 = (Done tt, w2, [])).
  { destruct volumeData as [d|]; simpl in *; [rewrite HX|]; reflexivity. }
  mrun.
Qed.

Lemma multi_checkSymbol_alert chatID symbol w w1 e1 data w2 e2 :
  Load env chatID w = (Done (Some true), w1, e1) ->
  getBinanceVolume env symbol w1 = (Done (Some data, None), w2, e2) ->
  PrimFloat.ltb 5 (Ratio data) = true ->
  exists w3,
    checkSymbol env chatID symbol w =
      (Done Next, w3,
       e1 ++ e2 ++ EvSend chatID (MsgAlert symbol data)
          :: sendFailure (bot_Send env (clock w2)) ++ [EvSleep 100]).
Proof.
  intros HL HV HX. unfold checkSymbol. do 2 (mstep; simpl). mstep. simpl.
  rewrite HX. erewrite mbind_Done by apply multi_sendAlert_run.
  eexists. mrun.
Qed.

Lemma multi_forSymbols_Next chatID symbol rest w w1 e1 :
  checkSymbol env chatID symbol w = (Done Next, w1, e1) ->
  forSymbols env chatID (symbol :: rest) w = after e1 (forSymbols env chatID rest w1).
Proof. intros H. simpl. mstep. reflexivity. Qed.

Lemma multi_forSymbols_Return chatID symbol rest w w1 e1 :
  checkSymbol env chatID symbol w = (Done Return, w1, e1) ->
  forSymbols env chatID (symbol :: rest) w = (Done Return, w1, e1).
Proof. intros H. simpl. mstep. mfinish. Qed.

Lemma multi_monitorLoop_stopped n chatID w w1 e1 :
  Load env chatID w = (Done (Some false), w1, e1) ->
  monitorLoop env (S n) chatID w = (Done Returned, w1, e1).
Proof. intros HL. simpl. mrun. Qed.

Lemma multi_monitorLoop_rank_error n chatID w w1 e1 symbols err w2 e2 :
  Load env chatID w = (Done (Some true), w1, e1) ->
  getMarketCapRank env w1 = (Done (symbols, Some err), w2, e2) ->
  monitorLoop env (S n) chatID w =
    after (e1 ++ e2 ++ [EvLog (LogRankError err); EvSleep 300000])
          (monitorLoop env n chatID (tick (tick w2))).
Proof. intros HL HR. simpl. do 5 (mstep; simpl). mfinish. Qed.

Lemma multi_monitorLoop_cycle n chatID w w1 e1 symbols w2 e2 w3 e3 :
  Load env chatID w = (Done (Some true), w1, e1) ->
  getMarketCapRank env w1 = (Done (symbols, None), w2, e2) ->
  forSymbols env chatID symbols w2 = (Done Next, w3, e3) ->
  monitorLoop env (S n) chatID w =
    after (e1 ++ e2 ++ e3 ++ [EvLog (LogCheckCompleted (Some chatID)); EvSleep 300000])
          (monitorLoop env n chatID (tick (tick w3))).
Proof. intros HL HR HF. simpl. do 6 (mstep; simpl). mfinish. Qed.

Lemma multi_monitorLoop_returned n chatID w w1 e1 symbols w2 e2 w3 e3 :
  Load env chatID w = (Done (Some true), w1, e1) ->
  getMarketCapRank env w1 = (Done (symbols, None), w2, e2) ->
  forSymbols env chatID symbols w2 = (Done Return, w3, e3) ->
  monitorLoop env (S n) chatID w = (Done Returned, w3, e1 ++ e2 ++ e3).
Proof. intros HL HR HF. simpl. mrun. Qed.

End Steps.
End MultiFacts.

(** ** The loop of the single-session bot, step by step *)

Module SingleFacts.
Import Single.

Section Steps.
Context (env : Env).

Lemma single_readMonitoring_run w :
  readMonitoring env w = (Done (seenFlag env w), tick (synced env w), [EvReadFlag (seenFlag env w)]).
Proof. reflexivity. Qed.

Lemma single_readMonitoring_events w b w1 e1 :
  readMonitoring env w = (Done b, w1, e1) -> e1 = [EvReadFlag b] /\ w1 = tick (synced env w).
Proof. rewrite single_readMonitoring_run. intros [= <- <- <-]. done. Qed.

Lemma single_readChatID_run w :
  readChatID env w = (Done (seenChat env w), tick (synced env w), [EvReadChat (seenChat env w)]).
Proof. reflexivity. Qed.

Lemma single_sendAlert_run symbol data w :
  exists w',
    sendAlert env symbol data w =
      (Done tt, w',
       EvReadChat (seenChat env w) :: EvSend (seenChat env w) (MsgAlert symbol data)
         :: sendFailure (bot_Send env (S (clock w)))).
Proof.
  unfold sendAlert. erewrite mbind_Done by apply single_readChatID_run. mstep.
  simpl. destruct (bot_Send env (S (clock w))); eexists; reflexivity.
Qed.

Lemma single_checkSymbol_stopped symbol w w1 e1 :
  readMonitoring env w = (Done false, w1, e1) ->
  checkSymbol env symbol w = (Done Return, w1, e1).
Proof. intros HL. unfold checkSymbol. mrun. Qed.

Lemma single_checkSymbol_error symbol w w1 e1 volumeData e w2 e2 :
  readMonitoring env w = (Done true, w1, e1) ->
  getBinanceVolume env symbol w1 = (Done (volumeData, Some e), w2, e2) ->
  checkSymbol env symbol w =
    (Done Next, tick w2, e1 ++ e2 ++ [EvLog (LogVolumeError symbol e)]).
Proof. intros HL HV. unfold checkSymbol. mrun. Qed.

Lemma single_checkSymbol_quiet symbol w w1 e1 volumeData w2 e2 :
  readMonitoring env w = (Done true, w1, e1) ->
  getBinanceVolume env symbol w1 = (Done (volumeData, None), w2, e2) ->
  exceeds volumeData = false ->
  checkSymbol env symbol w = (Done Next, tick w2, e1 ++ e2 ++ [EvSleep 100]).
Proof.
  intros HL HV HX. unfold checkSymbol.
  assert (Hq : (match volumeData with
                | Some data =>
                    if PrimFloat.ltb 5 (Ratio data)
                    then sendAlert env symbol data
                    else mret tt
                | None => mret tt
                end) w2 = (Done tt, w2, [])).
  { destruct volumeData as [d|]; simpl in *; [rewrite HX|]; reflexivity. }
  mrun.
Qed.

Lemma single_checkSymbol_alert symbol w w1 e1 data w2 e2 :
  readMonitoring env w = (Done true, w1, e1) ->
  getBinanceVolume env symbol w1 = (Done (Some data, None), w2, e2) ->
  PrimFloat.ltb 5 (Ratio data) = true ->
  exists w3,
    checkSymbol env symbol w =
      (Done Next, w3,
       e1 ++ e2 ++ EvReadChat (seenChat env w2) :: EvSend (seenChat env w2) (MsgAlert symbol data)
          :: sendFailure (bot_Send env (S (clock w2))) ++ [EvSleep 100]).
Proof.
  intros HL HV HX. unfold checkSymbol. do 2 (mstep; simpl).
  rewrite HX. destruct (single_sendAlert_run symbol data w2) as [w' Hs].
  eexists. mrun.
Qed.

Lemma single_forSymbols_Next symbol rest w w1 e1 :
  checkSymbol env symbol w = (Done Next, w1, e1) ->
  forSymbols env (symbol :: rest) w = after e1 (forSymbols env rest w1).
Proof. intros H. simpl. mstep. reflexivity. Qed.

Lemma single_forSymbols_Return symbol rest w w1 e1 :
  checkSymbol env symbol w = (Done Return, w1, e1) ->
  forSymbols env (symbol :: rest) w = (Done Return, w1, e1).
Proof. intros H. simpl. mstep. mfinish. Qed.

Lemma single_monitorLoop_stopped n w w1 e1 :
  readMonitoring env w = (Done false, w1, e1) ->
  monitorLoop env (S n) w = (Done Returned, w1, e1).
Proof. intros HL. simpl. mrun. Qed.

Lemma single_monitorLoop_rank_error n w w1 e1 symbols err w2 e2 :
  readMonitoring env w = (Done true, w1, e1) ->
  getMarketCapRank env w1 = (Done (symbols, Some err), w2, e2) ->
  monitorLoop env (S n) w =
    after (e1 ++ e2 ++ [EvLog (LogRankError err); EvSleep 300000])
          (monitorLoop env n (tick (tick w2))).
Proof. intros HL HR. simpl. do 4 (mstep; simpl). mfinish. Qed.

Lemma single_monitorLoop_cycle n w w1 e1 symbols w2 e2 w3 e3 :
  readMonitoring env w = (Done true, w1, e1) ->
  getMarketCapRank env w1 = (Done (symbols, None), w2, e2) ->
  forSymbols env symbols w2 = (Done Next, w3, e3) ->
  monitorLoop env (S n) w =
    after (e1 ++ e2 ++ e3 ++ [EvLog (LogCheckCompleted None); EvSleep 300000])
          (monitorLoop env n (tick (tick w3))).
Proof. intros HL HR HF. simpl. do 5 (mstep; simpl). mfinish. Qed.

Lemma single_monitorLoop_returned n w w1 e1 symbols w2 e2 w3 e3 :
  readMonitoring env w = (Done true, w1, e1) ->
  getMarketCapRank env w1 = (Done (symbols, None), w2, e2) ->
  forSymbols env symbols w2 = (Done Return, w3, e3) ->
  monitorLoop env (S n) w = (Done Returned, w3, e1 ++ e2 ++ e3).
Proof. intros HL HR HF. simpl. mrun. Qed.

End Steps.
End SingleFacts.

(** ** The loop of the console monitor, step by step *)

Module ConsoleFacts.
Import Console.

Section Steps.
Context (env : Env).

Lemma console_checkSymbol_error symbol (w : World unit) volumeData e w2 e2 :
  getBinanceVolume env symbol w = (Done (volumeData, Some e), w2, e2) ->
  checkSymbol env symbol w =
    (Done Next, tick w2, e2 ++ [EvPrint (LogVolumeError symbol e)]).
Proof. intros HV. unfold checkSymbol. mrun. Qed.

Lemma console_checkSymbol_quiet symbol (w : World unit) volumeData w2 e2 :
  getBinanceVolume env symbol w = (Done (volumeData, None), w2, e2) ->
  exceeds volumeData = false ->
  checkSymbol env symbol w = (Done Next, tick w2, e2 ++ [EvSleep 100]).
Proof.
  intros HV HX. unfold checkSymbol.
  assert (Hq : (match volumeData with
                | Some data =>
                    if PrimFloat.ltb 5 (Ratio data)
                    then alert symbol data
                    else mret tt
                | None => mret tt
                end) w2 = (Done tt, w2, [])).
  { destruct volumeData as [d|]; simpl in *; [rewrite HX|]; reflexivity. }
  mrun.
Qed.

Lemma console_checkSymbol_alert symbol (w : World unit) data w2 e2 :
  getBinanceVolume env symbol w = (Done (Some data, None), w2, e2) ->
  PrimFloat.ltb 5 (Ratio data) = true ->
  checkSymbol env symbol w =
    (Done Next, tick (tick w2), e2 ++ [EvPrintAlert symbol data; EvSleep 100]).
Proof.
  intros HV HX. unfold checkSymbol. mstep. simpl.
  rewrite HX. unfold alert. mrun.
Qed.

Lemma console_forSymbols_Next symbol rest (w : World unit) w1 e1 :
  checkSymbol env symbol w = (Done Next, w1, e1) ->
  forSymbols env (symbol :: rest) w = after e1 (forSymbols env rest w1).
Proof. intros H. simpl. mstep. reflexivity. Qed.

Lemma console_mainLoop_rank_error n (w : World unit) symbols err w2 e2 :
  getMarketCapRank env w = (Done (symbols, Some err), w2, e2) ->
  mainLoop env (S n) w =
    after (e2 ++ [EvPrint (LogRankError err); EvSleep 300000])
          (mainLoop env n (tick (tick w2))).
Proof. intros HR. simpl. do 3 (mstep; simpl). mfinish. Qed.

Lemma console_mainLoop_cycle n (w : World unit) symbols w2 e2 w3 e3 :
  getMarketCapRank env w = (Done (symbols, None), w2, e2) ->
  forSymbols env symbols w2 = (Done Next, w3, e3) ->
  mainLoop env (S n) w =
    after (e2 ++ e3 ++ [EvPrint (LogCheckCompleted None); EvSleep 300000])
          (mainLoop env n (tick (tick w3))).
Proof. intros HR HF. simpl. do 4 (mstep; simpl). mfinish. Qed.

End Steps.
End ConsoleFacts.

(** ** Which alerts one pass of the inner loop sends *)

Lemma alertsOf_fetch {G} env symbol (w : World G) r w2 e2 :
  getBinanceVolume env symbol w = (r, w2, e2) -> alertsOf e2 = [] /\ w2 = tick w.
Proof.
  destruct (getBinanceVolume_shape env symbol w) as [r' ->].
  intros [= <- <- <-]. done.
Qed.

Lemma console_checkSymbol_alerts env symbol (w : World unit) :
  alertsOf (events_of (Console.checkSymbol env symbol w)) =
    alertsFor symbol (result_of (getBinanceVolume env symbol w)).
Proof.
  destruct (getBinanceVolume env symbol w) as [[r w2] e2] eqn:HV.
  destruct (alertsOf_fetch _ _ _ _ _ _ HV) as [He2 ->].
  unfold result_of; simpl.
  destruct r as [[vd [e|]]|msg].
  - rewrite (ConsoleFacts.console_checkSymbol_error env _ _ _ _ _ _ HV).
    unfold events_of; simpl. rewrite alertsOf_app, He2. by destruct vd.
  - destruct (exceeds vd) eqn:HX.
    + destruct vd as [d|]; [|done]. simpl in HX.
      rewrite (ConsoleFacts.console_checkSymbol_alert env _ _ _ _ _ HV HX).
      unfold events_of; simpl. rewrite alertsOf_app, He2, HX. reflexivity.
    + rewrite (ConsoleFacts.console_checkSymbol_quiet env _ _ _ _ _ HV HX).
      unfold events_of; simpl. rewrite alertsOf_app, He2.
      destruct vd as [d|]; [|done]. simpl in HX. by rewrite HX.
  - unfold Console.checkSymbol. mstep. unfold events_of; simpl. done.
Qed.

Lemma single_checkSymbol_alerts env symbol (w : World Single.Globals) :
  alertsOf (events_of (Single.checkSymbol env symbol w)) =
    if Single.seenFlag env w
    then alertsFor symbol
           (result_of (getBinanceVolume env symbol (tick (Single.synced env w))))
    else [].
Proof.
  pose proof (SingleFacts.single_readMonitoring_run env w) as HL.
  destruct (Single.seenFlag env w) eqn:Hflag.
  2:{ rewrite (SingleFacts.single_checkSymbol_stopped env symbol _ _ _ HL). done. }
  destruct (getBinanceVolume env symbol (tick (Single.synced env w)))
    as [[r w2] e2] eqn:HV.
  destruct (alertsOf_fetch _ _ _ _ _ _ HV) as [He2 ->].
  unfold result_of; simpl.
  destruct r as [[vd [e|]]|msg].
  - rewrite (SingleFacts.single_checkSymbol_error env _ _ _ _ _ _ _ _ HL HV).
    unfold events_of; simpl. rewrite alertsOf_app, He2. by destruct vd.
  - destruct (exceeds vd) eqn:HX.
    + destruct vd as [d|]; [|done]. simpl in HX.
      destruct (SingleFacts.single_checkSymbol_alert env _ _ _ _ _ _ _ HL HV HX) as [w3 ->].
      unfold events_of; simpl. rewrite alertsOf_app, He2. simpl.
      rewrite alertsOf_app, alertsOf_sendFailure, HX. reflexivity.
    + rewrite (SingleFacts.single_checkSymbol_quiet env _ _ _ _ _ _ _ HL HV HX).
      unfold events_of; simpl. rewrite alertsOf_app, He2.
      destruct vd as [d|]; [|done]. simpl in HX. by rewrite HX.
  - unfold Single.checkSymbol. mstep. simpl. mstep.
    unfold events_of; simpl. by rewrite He2.
Qed.

Lemma multi_checkSymbol_alerts env chatID symbol (w : World Multi.Globals) :
  alertsOf (events_of (Multi.checkSymbol env chatID symbol w)) =
    match Multi.seen env w !! chatID with
    | Some true =>
        alertsFor symbol
          (result_of (getBinanceVolume env symbol (tick (Multi.synced env w))))
    | _ => []
    end.
Proof.
  pose proof (MultiFacts.multi_Load_run env chatID w) as HL.
  destruct (Multi.seen env w !! chatID) as [[|]|] eqn:Hflag.
  2:{ rewrite (MultiFacts.multi_checkSymbol_stopped env chatID symbol _ _ _ HL). done. }
  2:{ unfold Multi.checkSymbol. mstep. done. }
  destruct (getBinanceVolume env symbol (tick (Multi.synced env w)))
    as [[r w2] e2] eqn:HV.
  destruct (alertsOf_fetch _ _ _ _ _ _ HV) as [He2 ->].
  unfold result_of; simpl.
  destruct r as [[vd [e|]]|msg].
  - rewrite (MultiFacts.multi_checkSymbol_error env _ _ _ _ _ _ _ _ _ HL HV).
    unfold events_of; simpl. rewrite alertsOf_app, He2. by destruct vd.
  - destruct (exceeds vd) eqn:HX.
    + destruct vd as [d|]; [|done]. simpl in HX.
      destruct (MultiFacts.multi_checkSymbol_alert env _ _ _ _ _ _ _ _ HL HV HX) as [w3 ->].
      unfold events_of; simpl. rewrite alertsOf_app, He2. simpl.
      rewrite alertsOf_app, alertsOf_sendFailure, HX. reflexivity.
    + rewrite (MultiFacts.multi_checkSymbol_quiet env _ _ _ _ _ _ _ _ HL HV HX).
      unfold events_of; simpl. rewrite alertsOf_app, He2.
      destruct vd as [d|]; [|done]. simpl in HX. by rewrite HX.
  - unfold Multi.checkSymbol. mstep. simpl. mstep. simpl. mstep.
    unfold events_of; simpl. by rewrite He2.
Qed.

(** ** Comparison with the threshold *)

Lemma SFeqb_finite_not_lt x m e :
  SFeqb x (S754_finite false m e) = true -> SFltb (S754_finite false m e) x = false.
Proof.
  unfold SFltb, SFeqb.
  destruct x as [s| s| |s m' e']; simpl; try discriminate.
  - destruct s; discriminate.
  - destruct s; [discriminate|].
    rewrite (Z.compare_antisym e' e).
    destruct (Z.compare_spec e' e) as [->|H|H]; simpl; try discriminate.
    change (PosDef.Pos.compare_cont Eq) with Pos.compare.
    destruct (Pos.compare_spec m' m) as [->|H|H]; try discriminate.
    rewrite Pos.compare_refl. reflexivity.
Qed.

(** A ratio equal to 5 is not above 5. *)
Lemma eqb_five_not_above (r : float) :
  PrimFloat.eqb r 5 = true -> PrimFloat.ltb 5 r = false.
Proof.
  rewrite FloatAxioms.ltb_spec, FloatAxioms.eqb_spec.
  replace (Prim2SF 5) with (S754_finite false 5629499534213120 (-50))
    by (vm_compute; reflexivity).
  apply SFeqb_finite_not_lt.
Qed.

(** ** C1: the alert threshold *)

Lemma alertsIffAbove5_intro symbol data evs :
  alertsOf evs = (if PrimFloat.ltb 5 (Ratio data) then [(symbol, data)] else []) ->
  alertsIffAbove5 symbol data evs.
Proof.
  intros H. unfold alertsIffAbove5. rewrite H. repeat split.
  - destruct (PrimFloat.ltb 5 (Ratio data)); [done|]. intros [].
  - intros ->. left. reflexivity.
  - intros H5. by rewrite (eqb_five_not_above _ H5).
Qed.

(** C1. For every volume sample [data] that the fetcher produces for
    [symbol], the pass of the monitoring loop over that symbol emits an alert
    for it if and only if [Ratio data] is strictly greater than 5; a ratio
    equal to 5 produces no alert.  This holds in the console monitor, in the
    single-session bot and in the multi-session bot (in the bots, for a pass
    that saw the session running). *)
Theorem C1_alert_iff_ratio_above_5 (env : Env) (symbol : string) (data : VolumeData) :
  (forall w : World unit,
      result_of (getBinanceVolume env symbol w) = Done (Some data, None) ->
      alertsIffAbove5 symbol data (events_of (Console.checkSymbol env symbol w))) /\
  (forall w : World Single.Globals,
      Single.seenFlag env w = true ->
      result_of (getBinanceVolume env symbol (tick (Single.synced env w)))
        = Done (Some data, None) ->
      alertsIffAbove5 symbol data (events_of (Single.checkSymbol env symbol w))) /\
  (forall (chatID : Z) (w : World Multi.Globals),
      Multi.seen env w !! chatID = Some true ->
      result_of (getBinanceVolume env symbol (tick (Multi.synced env w)))
        = Done (Some data, None) ->
      alertsIffAbove5 symbol data (events_of (Multi.checkSymbol env chatID symbol w))).
Proof.
  split; [|split].
  - intros w H. apply alertsIffAbove5_intro.
    rewrite console_checkSymbol_alerts, H. reflexivity.
  - intros w Hf H. apply alertsIffAbove5_intro.
    rewrite single_checkSymbol_alerts, Hf, H. reflexivity.
  - intros chatID w Hf H. apply alertsIffAbove5_intro.
    rewrite multi_checkSymbol_alerts, Hf, H. reflexivity.
Qed.

(** A ratio of 6 alerts in each of the three programs. *)
Lemma C1_alert_iff_ratio_above_5_witness :
  alertsIffAbove5 "ETHUSDT" sample6
    (events_of (Console.checkSymbol envRatio6 "ETHUSDT" (W0 tt))) /\
  alertsIffAbove5 "ETHUSDT" sample6
    (events_of (Single.checkSymbol envRatio6 "ETHUSDT" singleRunning)) /\
  alertsIffAbove5 "ETHUSDT" sample6
    (events_of (Multi.checkSymbol envRatio6 7 "ETHUSDT" multiRunning)).
Proof.
  destruct (C1_alert_iff_ratio_above_5 envRatio6 "ETHUSDT" sample6) as (Hc & Hs & Hm).
  split; [|split].
  - apply Hc. reflexivity.
  - apply Hs; reflexivity.
  - apply Hm; reflexivity.
Defined.

(** Volumes 100 and 600 alert; volumes 100 and 500, a ratio of exactly 5,
    do not. *)
Example ratio_6_alerts :
  alertsOf (events_of (Multi.checkSymbol envRatio6 7 "ETHUSDT" multiRunning))
    = [("ETHUSDT", sample6)].
Proof. reflexivity. Qed.

Example ratio_5_is_silent :
  result_of (getBinanceVolume envRatio5 "ETHUSDT" (W0 tt)) = Done (Some sample5, None) /\
  alertsOf (events_of (Console.checkSymbol envRatio5 "ETHUSDT" (W0 tt))) = [] /\
  alertsOf (events_of (Single.checkSymbol envRatio5 "ETHUSDT" singleRunning)) = [] /\
  alertsOf (events_of (Multi.checkSymbol envRatio5 7 "ETHUSDT" multiRunning)) = [].
Proof. repeat split. Qed.

(** ** C2, C3, C10: what the fetcher does with the two volume fields *)

(** With a string in both volume fields the fetcher returns, and what it
    returns is decided by the previous-period volume alone. *)
Lemma getBinanceVolume_strings {G} env (w : World G) symbol klines s0 s1 :
  decodesTo env w symbol klines ->
  volumeField klines 0 s0 -> volumeField klines 1 s1 ->
  getBinanceVolume env symbol w =
    (Done (if PrimFloat.eqb (parsed (ParseFloat env s0)) 0
           then (None, None)
           else (Some {| PrevVolume := parsed (ParseFloat env s0);
                         CurrVolume := parsed (ParseFloat env s1);
                         Ratio := PrimFloat.div (parsed (ParseFloat env s1))
                                                (parsed (ParseFloat env s0)) |}, None)),
     tick w, [EvHttpGet (klinesURL symbol)]).
Proof.
  intros Hd H0 H1.
  rewrite (getBinanceVolume_decoded env w symbol klines Hd).
  rewrite (volumeOfKlines_strings env klines s0 s1 _ H0 H1). reflexivity.
Qed.

(** At that response the previous-period volume parses to zero, yet the
    fetcher does not return "no signal": it panics while reading the
    current-period volume, which it does before it looks at the previous
    one. *)
Lemma C2_counterexample :
  let klines := [ [JNumber 1700000000000%float; JString "1.0"; JString "2.0"; JString "0.5";
                   JString "1.5"; JString "0"; JNumber 1700003599999%float]; [] ] in
  decodesTo envShortSecondRecord (W0 tt) "ETHUSDT" klines /\
  (2 <= length klines)%nat /\
  volumeField klines 0 "0" /\
  PrimFloat.eqb (parsed (ParseFloat envShortSecondRecord "0")) 0 = true /\
  result_of (getBinanceVolume envShortSecondRecord "ETHUSDT" (W0 tt))
    = Panicked "index out of range" /\
  result_of (getBinanceVolume envShortSecondRecord "ETHUSDT" (W0 tt))
    <> Done (None, None).
Proof.
  simpl. repeat split.
  - exists 200, (Some (JArray [kline (JString "0"); JArray []])).
    repeat split. discriminate.
  - lia.
  - eexists. split; reflexivity.
  - discriminate.
Qed.

(** C2 (amended). For every kline response with at least two records whose
    first two records both hold a string in the volume field (index 5), if
    the parsed previous-period volume equals zero then [getBinanceVolume]
    returns "no signal" (nil sample, nil error), with no quotient computed,
    and the pass of the monitoring loop that made the request emits no
    alert, in each of the three programs. *)
Theorem C2_zero_previous_volume_is_no_signal
    (env : Env) (symbol : string) (klines : list BinanceKline) (s0 s1 : string) :
  volumeField klines 0 s0 -> volumeField klines 1 s1 ->
  PrimFloat.eqb (parsed (ParseFloat env s0)) 0 = true ->
  (forall G (w : World G),
      decodesTo env w symbol klines ->
      getBinanceVolume env symbol w =
        (Done (None, None), tick w, [EvHttpGet (klinesURL symbol)])) /\
  (forall w : World unit,
      decodesTo env w symbol klines ->
      alertsOf (events_of (Console.checkSymbol env symbol w)) = []) /\
  (forall w : World Single.Globals,
      decodesTo env (tick (Single.synced env w)) symbol klines ->
      alertsOf (events_of (Single.checkSymbol env symbol w)) = []) /\
  (forall (chatID : Z) (w : World Multi.Globals),
      decodesTo env (tick (Multi.synced env w)) symbol klines ->
      alertsOf (events_of (Multi.checkSymbol env chatID symbol w)) = []).
Proof.
  intros H0 H1 Hz.
  assert (Hfetch : forall G (w : World G),
             decodesTo env w symbol klines ->
             getBinanceVolume env symbol w =
               (Done (None, None), tick w, [EvHttpGet (klinesURL symbol)])).
  { intros G w Hd. rewrite (getBinanceVolume_strings env w symbol klines s0 s1 Hd H0 H1).
    rewrite Hz. reflexivity. }
  split; [exact Hfetch|]. split; [|split].
  - intros w Hd. rewrite console_checkSymbol_alerts, (Hfetch _ _ Hd). reflexivity.
  - intros w Hd. rewrite single_checkSymbol_alerts, (Hfetch _ _ Hd).
    by destruct (Single.seenFlag env w).
  - intros chatID w Hd. rewrite multi_checkSymbol_alerts, (Hfetch _ _ Hd).
    by destruct (Multi.seen env w !! chatID) as [[|]|].
Qed.

Lemma example_decodesTo {G} (w : World G) prev curr symbol :
  inFloat64 prev = true -> inFloat64 curr = true ->
  decodesTo (exampleEnv (klinesWith prev curr) quiet quiet) w symbol (klinesOf prev curr).
Proof.
  intros Hp Hc. exists 200, (Some (JArray [kline prev; kline curr])).
  split; [reflexivity|]. split; [discriminate|].
  unfold Unmarshal_klines, kline. simpl. rewrite Hp, Hc. reflexivity.
Defined.

Lemma example_volumeField0 prev curr s : prev = JString s -> volumeField (klinesOf prev curr) 0 s.
Proof. intros ->. eexists. split; reflexivity. Defined.

Lemma example_volumeField1 prev curr s : curr = JString s -> volumeField (klinesOf prev curr) 1 s.
Proof. intros ->. eexists. split; reflexivity. Defined.

(** Volumes "0" and "600.0": no signal, no alert. *)
Lemma C2_zero_previous_volume_is_no_signal_witness :
  getBinanceVolume envZeroPrevious "ETHUSDT" (W0 tt) =
    (Done (None, None), tick (W0 tt), [EvHttpGet (klinesURL "ETHUSDT")]) /\
  alertsOf (events_of (Multi.checkSymbol envZeroPrevious 7 "ETHUSDT" multiRunning)) = [].
Proof.
  destruct (C2_zero_previous_volume_is_no_signal envZeroPrevious "ETHUSDT"
              (klinesOf (JString "0") (JString "600.0")) "0" "600.0"
              (example_volumeField0 _ _ _ eq_refl) (example_volumeField1 _ _ _ eq_refl)
              eq_refl) as (Hf & _ & _ & Hm).
  split.
  - apply Hf. by apply example_decodesTo.
  - apply Hm. by apply example_decodesTo.
Defined.

(** The body decodes as an array of two records, and the fetcher panics on
    the volume field of the first. *)
Lemma C3_counterexample :
  decodesTo envNumericVolume (W0 tt) "ETHUSDT"
    (klinesOf (JNumber 12.5%float) (JString "600.0")) /\
  (2 <= length (klinesOf (JNumber 12.5%float) (JString "600.0")))%nat /\
  getBinanceVolume envNumericVolume "ETHUSDT" (W0 tt) =
    (Panicked "interface conversion: interface {} is not string",
     tick (W0 tt), [EvHttpGet (klinesURL "ETHUSDT")]).
Proof.
  split; [by apply example_decodesTo|]. split; [simpl; lia|reflexivity].
Qed.

(** C3 (amended). For every kline response body that decodes as a JSON
    array of at least two records whose first two records both hold a string
    in the volume field (index 5), [getBinanceVolume] neither panics nor
    returns an error, whatever those strings contain; and a previous-period
    volume that [strconv.ParseFloat] rejects as not being a number parses to
    zero, which takes the call through the zero-previous-volume "no signal"
    path. *)
Theorem C3_string_volumes_never_crash
    {G} (env : Env) (w : World G) (symbol : string)
    (klines : list BinanceKline) (s0 s1 : string) :
  decodesTo env w symbol klines ->
  volumeField klines 0 s0 -> volumeField klines 1 s1 ->
  (exists sample,
      getBinanceVolume env symbol w =
        (Done (sample, None), tick w, [EvHttpGet (klinesURL symbol)])) /\
  (ParseFloat env s0 = ErrSyntax ->
      parsed (ParseFloat env s0) = 0%float /\
      getBinanceVolume env symbol w =
        (Done (None, None), tick w, [EvHttpGet (klinesURL symbol)])).
Proof.
  intros Hd H0 H1.
  rewrite (getBinanceVolume_strings env w symbol klines s0 s1 Hd H0 H1).
  split.
  - destruct (PrimFloat.eqb _ _); eexists; reflexivity.
  - intros ->. split; reflexivity.
Qed.

(** Volumes "n/a" and "600.0": no signal. *)
Lemma C3_string_volumes_never_crash_witness :
  getBinanceVolume envMalformedPrevious "ETHUSDT" (W0 tt) =
    (Done (None, None), tick (W0 tt), [EvHttpGet (klinesURL "ETHUSDT")]).
Proof.
  apply (C3_string_volumes_never_crash envMalformedPrevious (W0 tt) "ETHUSDT"
           (klinesOf (JString "n/a") (JString "600.0")) "n/a" "600.0"
           (example_decodesTo _ (JString "n/a") (JString "600.0") _ eq_refl eq_refl)
           (example_volumeField0 _ _ _ eq_refl) (example_volumeField1 _ _ _ eq_refl)).
  reflexivity.
Defined.

(** The previous-period volume parses to 100, and the fetcher returns no
    sample: it panics on the current-period volume. *)
Lemma C10_counterexample :
  decodesTo envNullCurrent (W0 tt) "ETHUSDT" (klinesOf (JString "100.0") JNull) /\
  (2 <= length (klinesOf (JString "100.0") JNull))%nat /\
  volumeField (klinesOf (JString "100.0") JNull) 0 "100.0" /\
  PrimFloat.ltb 0 (parsed (ParseFloat envNullCurrent "100.0")) = true /\
  getBinanceVolume envNullCurrent "ETHUSDT" (W0 tt) =
    (Panicked "interface conversion: interface {} is not string",
     tick (W0 tt), [EvHttpGet (klinesURL "ETHUSDT")]).
Proof.
  split; [by apply example_decodesTo|]. split; [simpl; lia|].
  split; [by apply example_volumeField0|]. split; reflexivity.
Qed.

(** C10 (amended). For every kline response with at least two records whose
    first two records both hold a string in the volume field: when the
    parsed previous-period volume is strictly positive, [getBinanceVolume]
    returns a populated sample whose ratio is current/previous, whatever the
    current-period volume; when the current-period volume parses to zero, as
    a string that is not a number does, that sample carries ratio 0; and the
    "no signal" (nil, nil) result comes exactly when the previous-period
    volume is zero, never from the current-period volume. *)
Theorem C10_current_volume_never_suppresses
    {G} (env : Env) (w : World G) (symbol : string)
    (klines : list BinanceKline) (s0 s1 : string) :
  decodesTo env w symbol klines ->
  volumeField klines 0 s0 -> volumeField klines 1 s1 ->
  let prev := parsed (ParseFloat env s0) in
  let curr := parsed (ParseFloat env s1) in
  (PrimFloat.ltb 0 prev = true ->
     getBinanceVolume env symbol w =
       (Done (Some {| PrevVolume := prev; CurrVolume := curr;
                      Ratio := PrimFloat.div curr prev |}, None),
        tick w, [EvHttpGet (klinesURL symbol)]) /\
     (PrimFloat.eqb curr 0 = true -> PrimFloat.eqb (PrimFloat.div curr prev) 0 = true) /\
     (ParseFloat env s1 = ErrSyntax -> PrimFloat.eqb (PrimFloat.div curr prev) 0 = true)) /\
  (result_of (getBinanceVolume env symbol w) = Done (None, None)
     <-> PrimFloat.eqb prev 0 = true).
Proof.
  intros Hd H0 H1 prev curr.
  rewrite (getBinanceVolume_strings env w symbol klines s0 s1 Hd H0 H1).
  fold prev curr. split.
  - intros Hpos. rewrite (positive_not_zero prev Hpos). split; [reflexivity|]. split.
    + intros Hc. by apply zero_div_positive.
    + intros Hs. apply zero_div_positive; [|done]. unfold curr. rewrite Hs. reflexivity.
  - unfold result_of; simpl. destruct (PrimFloat.eqb prev 0); split; try done.
Qed.

(** Volumes "100.0" and "n/a": a sample with ratio 0. *)
Lemma C10_current_volume_never_suppresses_witness :
  getBinanceVolume envMalformedCurrent "ETHUSDT" (W0 tt) =
    (Done (Some {| PrevVolume := 100; CurrVolume := 0; Ratio := 0 |}, None),
     tick (W0 tt), [EvHttpGet (klinesURL "ETHUSDT")]).
Proof.
  destruct (C10_current_volume_never_suppresses envMalformedCurrent (W0 tt) "ETHUSDT"
              (klinesOf (JString "100.0") (JString "n/a")) "100.0" "n/a"
              (example_decodesTo _ (JString "100.0") (JString "n/a") _ eq_refl eq_refl)
              (example_volumeField0 _ _ _ eq_refl) (example_volumeField1 _ _ _ eq_refl))
    as [Hpos _].
  destruct (Hpos eq_refl) as [Hv _]. exact Hv.
Defined.

(** A current-period volume beyond the range of binary64 fails to parse as
    well, with value +Inf: the sample then carries ratio +Inf, and alerts. *)
Example out_of_range_current_volume :
  let env := exampleEnv (klinesWith (JString "100.0") (JString "1e999")) quiet quiet in
  getBinanceVolume env "ETHUSDT" (W0 tt) =
    (Done (Some {| PrevVolume := 100; CurrVolume := infinity; Ratio := infinity |}, None),
     tick (W0 tt), [EvHttpGet (klinesURL "ETHUSDT")]) /\
  alertsOf (events_of (Console.checkSymbol env "ETHUSDT" (W0 tt)))
    = [("ETHUSDT", {| PrevVolume := 100; CurrVolume := infinity; Ratio := infinity |})].
Proof. split; reflexivity. Qed.

(** ** C4, C5, C8: errors and skipped symbols in the loops *)

Lemma getBinanceVolume_result {G} env symbol (w : World G) r :
  result_of (getBinanceVolume env symbol w) = r ->
  getBinanceVolume env symbol w = (r, tick w, [EvHttpGet (klinesURL symbol)]).
Proof.
  destruct (getBinanceVolume_shape env symbol w) as [r' ->].
  unfold result_of; simpl. by intros ->.
Qed.

Lemma getMarketCapRank_result {G} env (w : World G) r :
  result_of (getMarketCapRank env w) = r ->
  getMarketCapRank env w = (r, tick w, [EvHttpGet rankURL]).
Proof.
  destruct (getMarketCapRank_shape env w) as (symbols & err & ->).
  unfold result_of; simpl. by intros <-.
Qed.

Lemma single_flag_true env w :
  Single.seenFlag env w = true ->
  Single.readMonitoring env w =
    (Done true, tick (Single.synced env w), [EvReadFlag true]).
Proof. intros H. rewrite SingleFacts.single_readMonitoring_run, H. reflexivity. Qed.

Lemma multi_flag_true env chatID w :
  Multi.seen env w !! chatID = Some true ->
  Multi.Load env chatID w =
    (Done (Some true), tick (Multi.synced env w), [EvLoad chatID (Some true)]).
Proof. intros H. rewrite MultiFacts.multi_Load_run, H. reflexivity. Qed.

(** A fetch that returns no error and nothing to alert about: the pass
    sleeps 100 ms and the inner loop goes on with the next symbol. *)
Lemma console_forSymbols_quiet env symbol rest (w : World unit) vd :
  result_of (getBinanceVolume env symbol w) = Done (vd, None) ->
  exceeds vd = false ->
  Console.forSymbols env (symbol :: rest) w =
    after [EvHttpGet (klinesURL symbol); EvSleep 100]
          (Console.forSymbols env rest (tick (tick w))).
Proof.
  intros HV HX. apply getBinanceVolume_result in HV.
  erewrite ConsoleFacts.console_forSymbols_Next
    by (eapply ConsoleFacts.console_checkSymbol_quiet; eassumption).
  reflexivity.
Qed.

Lemma single_forSymbols_quiet env symbol rest (w : World Single.Globals) vd :
  Single.seenFlag env w = true ->
  result_of (getBinanceVolume env symbol (tick (Single.synced env w))) = Done (vd, None) ->
  exceeds vd = false ->
  Single.forSymbols env (symbol :: rest) w =
    after [EvReadFlag true; EvHttpGet (klinesURL symbol); EvSleep 100]
          (Single.forSymbols env rest (tick (tick (tick (Single.synced env w))))).
Proof.
  intros HF HV HX. apply getBinanceVolume_result in HV. apply single_flag_true in HF.
  erewrite SingleFacts.single_forSymbols_Next
    by (eapply SingleFacts.single_checkSymbol_quiet; eassumption).
  reflexivity.
Qed.

Lemma multi_forSymbols_quiet env chatID symbol rest (w : World Multi.Globals) vd :
  Multi.seen env w !! chatID = Some true ->
  result_of (getBinanceVolume env symbol (tick (Multi.synced env w))) = Done (vd, None) ->
  exceeds vd = false ->
  Multi.forSymbols env chatID (symbol :: rest) w =
    after [EvLoad chatID (Some true); EvHttpGet (klinesURL symbol); EvSleep 100]
          (Multi.forSymbols env chatID rest (tick (tick (tick (Multi.synced env w))))).
Proof.
  intros HF HV HX. apply getBinanceVolume_result in HV.
  apply (multi_flag_true env chatID) in HF.
  erewrite MultiFacts.multi_forSymbols_Next
    by (eapply MultiFacts.multi_checkSymbol_quiet; eassumption).
  reflexivity.
Qed.

(** A fetch that returns an error: the pass logs it and the inner loop goes
    on with the next symbol. *)
Lemma console_forSymbols_error env symbol rest (w : World unit) vd err :
  result_of (getBinanceVolume env symbol w) = Done (vd, Some err) ->
  Console.forSymbols env (symbol :: rest) w =
    after [EvHttpGet (klinesURL symbol); EvPrint (LogVolumeError symbol err)]
          (Console.forSymbols env rest (tick (tick w))).
Proof.
  intros HV. apply getBinanceVolume_result in HV.
  erewrite ConsoleFacts.console_forSymbols_Next
    by (eapply ConsoleFacts.console_checkSymbol_error; eassumption).
  reflexivity.
Qed.

Lemma single_forSymbols_error env symbol rest (w : World Single.Globals) vd err :
  Single.seenFlag env w = true ->
  result_of (getBinanceVolume env symbol (tick (Single.synced env w)))
    = Done (vd, Some err) ->
  Single.forSymbols env (symbol :: rest) w =
    after [EvReadFlag true; EvHttpGet (klinesURL symbol); EvLog (LogVolumeError symbol err)]
          (Single.forSymbols env rest (tick (tick (tick (Single.synced env w))))).
Proof.
  intros HF HV. apply getBinanceVolume_result in HV. apply single_flag_true in HF.
  erewrite SingleFacts.single_forSymbols_Next
    by (eapply SingleFacts.single_checkSymbol_error; eassumption).
  reflexivity.
Qed.

Lemma multi_forSymbols_error env chatID symbol rest (w : World Multi.Globals) vd err :
  Multi.seen env w !! chatID = Some true ->
  result_of (getBinanceVolume env symbol (tick (Multi.synced env w)))
    = Done (vd, Some err) ->
  Multi.forSymbols env chatID (symbol :: rest) w =
    after [EvLoad chatID (Some true); EvHttpGet (klinesURL symbol);
           EvLog (LogVolumeError symbol err)]
          (Multi.forSymbols env chatID rest (tick (tick (tick (Multi.synced env w))))).
Proof.
  intros HF HV. apply getBinanceVolume_result in HV.
  apply (multi_flag_true env chatID) in HF.
  erewrite MultiFacts.multi_forSymbols_Next
    by (eapply MultiFacts.multi_checkSymbol_error; eassumption).
  reflexivity.
Qed.

(** C4. For every kline request answered with HTTP status 400,
    [getBinanceVolume] returns "no signal" (nil sample, nil error) and not an
    error; the monitoring loop skips that symbol in silence: the pass emits
    the request and the 100 ms pause, no alert and no log line, and the
    inner loop proceeds with the next symbol.  In each of the three
    programs (in the bots, for a pass that saw the session running). *)
Theorem C4_status_400_is_skipped
    (env : Env) (symbol : string) (body : BodyRead) (rest : list string) :
  (forall G (w : World G),
      answered env w symbol 400 body ->
      getBinanceVolume env symbol w =
        (Done (None, None), tick w, [EvHttpGet (klinesURL symbol)])) /\
  (forall w : World unit,
      answered env w symbol 400 body ->
      Console.forSymbols env (symbol :: rest) w =
        after [EvHttpGet (klinesURL symbol); EvSleep 100]
              (Console.forSymbols env rest (tick (tick w)))) /\
  (forall w : World Single.Globals,
      Single.seenFlag env w = true ->
      answered env (tick (Single.synced env w)) symbol 400 body ->
      Single.forSymbols env (symbol :: rest) w =
        after [EvReadFlag true; EvHttpGet (klinesURL symbol); EvSleep 100]
              (Single.forSymbols env rest (tick (tick (tick (Single.synced env w)))))) /\
  (forall (chatID : Z) (w : World Multi.Globals),
      Multi.seen env w !! chatID = Some true ->
      answered env (tick (Multi.synced env w)) symbol 400 body ->
      Multi.forSymbols env chatID (symbol :: rest) w =
        after [EvLoad chatID (Some true); EvHttpGet (klinesURL symbol); EvSleep 100]
              (Multi.forSymbols env chatID rest
                 (tick (tick (tick (Multi.synced env w)))))).
Proof.
  assert (Hres : forall G (w : World G),
             answered env w symbol 400 body ->
             result_of (getBinanceVolume env symbol w) = Done (None, None)).
  { intros G w H. by rewrite (getBinanceVolume_400 env w symbol body H). }
  split; [|split; [|split]].
  - intros G w H. apply (getBinanceVolume_400 env w symbol body H).
  - intros w H. by apply (console_forSymbols_quiet env symbol rest w None); [apply Hres|].
  - intros w HF H. by apply (single_forSymbols_quiet env symbol rest w None); [|apply Hres|].
  - intros chatID w HF H.
    by apply (multi_forSymbols_quiet env chatID symbol rest w None); [|apply Hres|].
Qed.

(** Status 400 for "XYZUSDT": no signal, and each loop moves on to
    "ETHUSDT". *)
Lemma C4_status_400_is_skipped_witness :
  getBinanceVolume envInvalidSymbol "XYZUSDT" (W0 tt) =
    (Done (None, None), tick (W0 tt), [EvHttpGet (klinesURL "XYZUSDT")]) /\
  Console.forSymbols envInvalidSymbol ["XYZUSDT"; "ETHUSDT"] (W0 tt) =
    after [EvHttpGet (klinesURL "XYZUSDT"); EvSleep 100]
          (Console.forSymbols envInvalidSymbol ["ETHUSDT"] (tick (tick (W0 tt)))) /\
  Single.forSymbols envInvalidSymbol ["XYZUSDT"; "ETHUSDT"] singleRunning =
    after [EvReadFlag true; EvHttpGet (klinesURL "XYZUSDT"); EvSleep 100]
          (Single.forSymbols envInvalidSymbol ["ETHUSDT"]
             (tick (tick (tick (Single.synced envInvalidSymbol singleRunning))))) /\
  Multi.forSymbols envInvalidSymbol 7 ["XYZUSDT"; "ETHUSDT"] multiRunning =
    after [EvLoad 7 (Some true); EvHttpGet (klinesURL "XYZUSDT"); EvSleep 100]
          (Multi.forSymbols envInvalidSymbol 7 ["ETHUSDT"]
             (tick (tick (tick (Multi.synced envInvalidSymbol multiRunning))))).
Proof.
  destruct (C4_status_400_is_skipped envInvalidSymbol "XYZUSDT"
              (ReadOk (Some (JObject []))) ["ETHUSDT"]) as (Hf & Hc & Hs & Hm).
  split; [|split; [|split]].
  - apply Hf. reflexivity.
  - apply Hc. reflexivity.
  - apply Hs; reflexivity.
  - apply Hm; reflexivity.
Defined.

(** C5. For every kline response that decodes to fewer than two records,
    [getBinanceVolume] fails with the insufficient-data error and returns no
    sample; the monitoring loop logs that error and continues with the next
    symbol instead of aborting the cycle.  In each of the three programs (in
    the bots, for a pass that saw the session running). *)
Theorem C5_insufficient_data_is_logged
    (env : Env) (symbol : string) (klines : list BinanceKline) (rest : list string) :
  (length klines < 2)%nat ->
  let err := Errorf "insufficient kline data" None in
  (forall G (w : World G),
      decodesTo env w symbol klines ->
      getBinanceVolume env symbol w =
        (Done (None, Some err), tick w, [EvHttpGet (klinesURL symbol)])) /\
  (forall w : World unit,
      decodesTo env w symbol klines ->
      Console.forSymbols env (symbol :: rest) w =
        after [EvHttpGet (klinesURL symbol); EvPrint (LogVolumeError symbol err)]
              (Console.forSymbols env rest (tick (tick w)))) /\
  (forall w : World Single.Globals,
      Single.seenFlag env w = true ->
      decodesTo env (tick (Single.synced env w)) symbol klines ->
      Single.forSymbols env (symbol :: rest) w =
        after [EvReadFlag true; EvHttpGet (klinesURL symbol);
               EvLog (LogVolumeError symbol err)]
              (Single.forSymbols env rest (tick (tick (tick (Single.synced env w)))))) /\
  (forall (chatID : Z) (w : World Multi.Globals),
      Multi.seen env w !! chatID = Some true ->
      decodesTo env (tick (Multi.synced env w)) symbol klines ->
      Multi.forSymbols env chatID (symbol :: rest) w =
        after [EvLoad chatID (Some true); EvHttpGet (klinesURL symbol);
               EvLog (LogVolumeError symbol err)]
              (Multi.forSymbols env chatID rest
                 (tick (tick (tick (Multi.synced env w)))))).
Proof.
  intros Hlen err.
  assert (Hfetch : forall G (w : World G),
             decodesTo env w symbol klines ->
             getBinanceVolume env symbol w =
               (Done (None, Some err), tick w, [EvHttpGet (klinesURL symbol)])).
  { intros G w Hd. rewrite (getBinanceVolume_decoded env w symbol klines Hd).
    rewrite (volumeOfKlines_short env klines _ Hlen). reflexivity. }
  split; [exact Hfetch|]. split; [|split].
  - intros w Hd. apply (console_forSymbols_error env symbol rest w None).
    by rewrite (Hfetch _ _ Hd).
  - intros w HF Hd. apply (single_forSymbols_error env symbol rest w None); [done|].
    by rewrite (Hfetch _ _ Hd).
  - intros chatID w HF Hd.
    apply (multi_forSymbols_error env chatID symbol rest w None); [done|].
    by rewrite (Hfetch _ _ Hd).
Qed.

Lemma envOneCandle_decodesTo {G} (w : World G) symbol :
  decodesTo envOneCandle w symbol oneCandle.
Proof.
  exists 200, (Some (JArray [kline (JString "100.0")])).
  split; [reflexivity|]. split; [discriminate|reflexivity].
Defined.

(** One candlestick only: the error, and the multi-session loop logs it and
    moves on. *)
Lemma C5_insufficient_data_is_logged_witness :
  getBinanceVolume envOneCandle "ETHUSDT" (W0 tt) =
    (Done (None, Some (Errorf "insufficient kline data" None)),
     tick (W0 tt), [EvHttpGet (klinesURL "ETHUSDT")]) /\
  Multi.forSymbols envOneCandle 7 ["ETHUSDT"; "BTCUSDT"] multiRunning =
    after [EvLoad 7 (Some true); EvHttpGet (klinesURL "ETHUSDT");
           EvLog (LogVolumeError "ETHUSDT" (Errorf "insufficient kline data" None))]
          (Multi.forSymbols envOneCandle 7 ["BTCUSDT"]
             (tick (tick (tick (Multi.synced envOneCandle multiRunning))))).
Proof.
  destruct (C5_insufficient_data_is_logged envOneCandle "ETHUSDT" oneCandle ["BTCUSDT"]
              (le_n 2 : (length oneCandle < 2)%nat)) as (Hf & _ & _ & Hm).
  split.
  - apply Hf. apply envOneCandle_decodesTo.
  - apply Hm; [reflexivity|]. apply envOneCandle_decodesTo.
Defined.

Lemma getMarketCapRank_fails {G} env (w : World G) :
  rankAlwaysFails env ->
  exists err, getMarketCapRank env w = (Done ([], Some err), tick w, [EvHttpGet rankURL]).
Proof.
  intros H. destruct (H (clock w)) as [e He].
  unfold getMarketCapRank. mstep. rewrite He. eexists. reflexivity.
Qed.

Lemma console_survives env n (w : World unit) :
  rankAlwaysFails env -> result_of (Console.mainLoop env n w) = Done Running.
Proof.
  intros H. revert w. induction n as [|n IH]; intros w; [reflexivity|].
  destruct (getMarketCapRank_fails env w H) as [err Hr].
  rewrite (ConsoleFacts.console_mainLoop_rank_error env n w _ _ _ _ Hr).
  rewrite result_after. apply IH.
Qed.

Lemma single_survives env n (w : World Single.Globals) :
  rankAlwaysFails env -> (forall t, flag_writes env t = []) ->
  Single.monitoring (globals w) = true ->
  result_of (Single.monitorLoop env n w) = Done Running.
Proof.
  intros H Hq. revert w. induction n as [|n IH]; intros w Hm; [reflexivity|].
  assert (HF : Single.seenFlag env w = true).
  { unfold Single.seenFlag, Single.synced. simpl. by rewrite Hq. }
  destruct (getMarketCapRank_fails env (tick (Single.synced env w)) H) as [err Hr].
  rewrite (SingleFacts.single_monitorLoop_rank_error env n w _ _ _ _ _ _
             (single_flag_true env w HF) Hr).
  rewrite result_after. apply IH. exact HF.
Qed.

Lemma multi_survives env n chatID (w : World Multi.Globals) :
  rankAlwaysFails env -> (forall t, map_stores env t = []) ->
  Multi.monitoringStatus (globals w) !! chatID = Some true ->
  result_of (Multi.monitorLoop env n chatID w) = Done Running.
Proof.
  intros H Hq. revert w. induction n as [|n IH]; intros w Hm; [reflexivity|].
  assert (HF : Multi.seen env w !! chatID = Some true).
  { unfold Multi.seen. by rewrite Hq. }
  destruct (getMarketCapRank_fails env (tick (Multi.synced env w)) H) as [err Hr].
  rewrite (MultiFacts.multi_monitorLoop_rank_error env n chatID w _ _ _ _ _ _
             (multi_flag_true env chatID w HF) Hr).
  rewrite result_after. apply IH. exact HF.
Qed.

(** C8. In every execution of the monitoring loop, a failure of the
    top-symbols snapshot fetch aborts the current outer cycle only: it is
    logged, the loop sleeps 5 minutes (300000 ms) and goes on with the next
    outer cycle; it is never fatal, for a loop whose every snapshot fetch
    fails is still running after any number of cycles.  An error from a
    per-symbol volume fetch aborts that symbol's check only: it is logged
    and the inner loop continues with the next symbol of the same cycle.  In
    each of the three programs (in the bots, for a checkpoint that saw the
    session running). *)
Theorem C8_errors_abort_only_their_step (env : Env) :
  (* the snapshot fetch fails *)
  (forall n (w : World unit) symbols err,
      result_of (getMarketCapRank env w) = Done (symbols, Some err) ->
      Console.mainLoop env (S n) w =
        after [EvHttpGet rankURL; EvPrint (LogRankError err); EvSleep 300000]
              (Console.mainLoop env n (tick (tick (tick w))))) /\
  (forall n (w : World Single.Globals) symbols err,
      Single.seenFlag env w = true ->
      result_of (getMarketCapRank env (tick (Single.synced env w)))
        = Done (symbols, Some err) ->
      Single.monitorLoop env (S n) w =
        after [EvReadFlag true; EvHttpGet rankURL; EvLog (LogRankError err); EvSleep 300000]
              (Single.monitorLoop env n
                 (tick (tick (tick (tick (Single.synced env w))))))) /\
  (forall n chatID (w : World Multi.Globals) symbols err,
      Multi.seen env w !! chatID = Some true ->
      result_of (getMarketCapRank env (tick (Multi.synced env w)))
        = Done (symbols, Some err) ->
      Multi.monitorLoop env (S n) chatID w =
        after [EvLoad chatID (Some true); EvHttpGet rankURL;
               EvLog (LogRankError err); EvSleep 300000]
              (Multi.monitorLoop env n chatID
                 (tick (tick (tick (tick (Multi.synced env w))))))) /\
  (* it is never fatal *)
  (rankAlwaysFails env ->
     (forall n (w : World unit), result_of (Console.mainLoop env n w) = Done Running) /\
     ((forall t, flag_writes env t = []) ->
        forall n (w : World Single.Globals),
          Single.monitoring (globals w) = true ->
          result_of (Single.monitorLoop env n w) = Done Running) /\
     ((forall t, map_stores env t = []) ->
        forall n chatID (w : World Multi.Globals),
          Multi.monitoringStatus (globals w) !! chatID = Some true ->
          result_of (Multi.monitorLoop env n chatID w) = Done Running)) /\
  (* a per-symbol volume fetch returns an error *)
  (forall symbol rest (w : World unit) sample err,
      result_of (getBinanceVolume env symbol w) = Done (sample, Some err) ->
      Console.forSymbols env (symbol :: rest) w =
        after [EvHttpGet (klinesURL symbol); EvPrint (LogVolumeError symbol err)]
              (Console.forSymbols env rest (tick (tick w)))) /\
  (forall symbol rest (w : World Single.Globals) sample err,
      Single.seenFlag env w = true ->
      result_of (getBinanceVolume env symbol (tick (Single.synced env w)))
        = Done (sample, Some err) ->
      Single.forSymbols env (symbol :: rest) w =
        after [EvReadFlag true; EvHttpGet (klinesURL symbol);
               EvLog (LogVolumeError symbol err)]
              (Single.forSymbols env rest (tick (tick (tick (Single.synced env w)))))) /\
  (forall chatID symbol rest (w : World Multi.Globals) sample err,
      Multi.seen env w !! chatID = Some true ->
      result_of (getBinanceVolume env symbol (tick (Multi.synced env w)))
        = Done (sample, Some err) ->
      Multi.forSymbols env chatID (symbol :: rest) w =
        after [EvLoad chatID (Some true); EvHttpGet (klinesURL symbol);
               EvLog (LogVolumeError symbol err)]
              (Multi.forSymbols env chatID rest
                 (tick (tick (tick (Multi.synced env w)))))).
Proof.
  split; [|split; [|split; [|split; [|split; [|split]]]]].
  - intros n w symbols err HR. apply getMarketCapRank_result in HR.
    by rewrite (ConsoleFacts.console_mainLoop_rank_error env n w _ _ _ _ HR).
  - intros n w symbols err HF HR. apply getMarketCapRank_result in HR.
    by rewrite (SingleFacts.single_monitorLoop_rank_error env n w _ _ _ _ _ _
                  (single_flag_true env w HF) HR).
  - intros n chatID w symbols err HF HR. apply getMarketCapRank_result in HR.
    by rewrite (MultiFacts.multi_monitorLoop_rank_error env n chatID w _ _ _ _ _ _
                  (multi_flag_true env chatID w HF) HR).
  - intros H. split; [|split].
    + intros n w. by apply console_survives.
    + intros Hq n w Hm. by apply single_survives.
    + intros Hq n chatID w Hm. by apply multi_survives.
  - intros symbol rest w sample err. apply console_forSymbols_error.
  - intros symbol rest w sample err. apply single_forSymbols_error.
  - intros chatID symbol rest w sample err. apply multi_forSymbols_error.
Qed.

Lemma envRankDown_fails : rankAlwaysFails envRankDown.
Proof. intros t. eexists. reflexivity. Defined.

(** With the ranking API down the multi-session loop logs, sleeps five
    minutes and starts the next cycle, and is still running after three
    cycles; with a short kline response it logs and goes to the next
    symbol. *)
Lemma C8_errors_abort_only_their_step_witness :
  Multi.monitorLoop envRankDown 3 7 multiRunning =
    after [EvLoad 7 (Some true); EvHttpGet rankURL;
           EvLog (LogRankError rankDownError); EvSleep 300000]
          (Multi.monitorLoop envRankDown 2 7
             (tick (tick (tick (tick (Multi.synced envRankDown multiRunning)))))) /\
  result_of (Multi.monitorLoop envRankDown 3 7 multiRunning) = Done Running /\
  result_of (Single.monitorLoop envRankDown 3 singleRunning) = Done Running /\
  Console.forSymbols envRankDown ["ETHUSDT"; "BTCUSDT"] (W0 tt) =
    after [EvHttpGet (klinesURL "ETHUSDT");
           EvPrint (LogVolumeError "ETHUSDT" (Errorf "insufficient kline data" None))]
          (Console.forSymbols envRankDown ["BTCUSDT"] (tick (tick (W0 tt)))).
Proof.
  destruct (C8_errors_abort_only_their_step envRankDown)
    as (_ & _ & Hm & Hfatal & Hc & _ & _).
  destruct (Hfatal envRankDown_fails) as (_ & Hs' & Hm').
  split; [|split; [|split]].
  - apply (Hm 2%nat 7 multiRunning []); reflexivity.
  - apply Hm'; [intros t|]; reflexivity.
  - apply Hs'; [intros t|]; reflexivity.
  - apply (Hc "ETHUSDT" ["BTCUSDT"] (W0 tt) None). reflexivity.
Defined.

(** ** C7: commands that change nothing *)

(** C7. For every session: handling [monitor] while the session's state is
    running spawns no monitoring loop, it only replies that monitoring is
    already running; handling [stop] while the state is stopped (the flag
    false, or no flag yet) writes nothing to the status file and does not
    panic, it only replies that monitoring is not running.  In the
    multi-session bot and in the single-session bot. *)
Theorem C7_idempotent_commands (env : Env) (chat : Z) :
  (forall w : World Multi.Globals,
      Multi.seen env w !! chat = Some true ->
      let x := Multi.handleUpdate env (command chat "monitor") w in
      result_of x = Done tt /\
      events_of x = [EvLoad chat (Some true); EvSend chat MsgAlreadyRunning] /\
      spawnsOf (events_of x) = []) /\
  (forall w : World Multi.Globals,
      Multi.isMonitoring (Multi.seen env w !! chat) = false ->
      let x := Multi.handleUpdate env (command chat "stop") w in
      result_of x = Done tt /\
      events_of x = [EvLoad chat (Multi.seen env w !! chat); EvSend chat MsgNotRunning] /\
      writesOf (events_of x) = [] /\
      Multi.files (globals (world_of x)) = Multi.files (globals w)) /\
  (forall w : World Single.Globals,
      let w1 := world_of (Single.setChatID chat w) in
      Single.seenFlag env w1 = true ->
      let x := Single.handleUpdate env (command chat "monitor") w in
      let c := Single.seenChat env (tick (Single.synced env w1)) in
      result_of x = Done tt /\
      events_of x = [EvSetChat chat; EvReadFlag true; EvReadChat c; EvSend c MsgAlreadyRunning] /\
      spawnsOf (events_of x) = []) /\
  (forall w : World Single.Globals,
      let w1 := world_of (Single.setChatID chat w) in
      Single.seenFlag env w1 = false ->
      let x := Single.handleUpdate env (command chat "stop") w in
      let c := Single.seenChat env (tick (Single.synced env w1)) in
      result_of x = Done tt /\
      events_of x = [EvSetChat chat; EvReadFlag false; EvReadChat c; EvSend c MsgNotRunning] /\
      writesOf (events_of x) = []).
Proof.
  split; [|split; [|split]].
  - intros w HF x. subst x. unfold Multi.handleUpdate. simpl.
    erewrite mbind_Done by (apply multi_flag_true; exact HF).
    simpl. mstep. mtidy. done.
  - intros w HF x. subst x. unfold Multi.handleUpdate. simpl.
    erewrite mbind_Done by apply MultiFacts.multi_Load_run.
    rewrite HF. simpl. mstep. mtidy. simpl. done.
  - intros w w1 HF x c. subst x c w1. unfold Single.handleUpdate. simpl.
    erewrite mbind_Done by reflexivity.
    erewrite mbind_Done by (apply single_flag_true; exact HF).
    simpl.
    erewrite mbind_Done by apply SingleFacts.single_readChatID_run.
    mstep. mtidy. done.
  - intros w w1 HF x c. subst x c.
    assert (Hset : Single.setChatID chat w = (Done tt, w1, [EvSetChat chat]))
      by reflexivity.
    unfold Single.handleUpdate. simpl.
    erewrite mbind_Done by exact Hset.
    erewrite mbind_Done by apply SingleFacts.single_readMonitoring_run.
    rewrite HF. simpl.
    erewrite mbind_Done by apply SingleFacts.single_readChatID_run.
    mstep. mtidy. done.
Qed.

(** [monitor] to a running session and [stop] to a session never started,
    in both bots. *)
Lemma C7_idempotent_commands_witness :
  events_of (Multi.handleUpdate envQuiet (command 7 "monitor") multiRunning)
    = [EvLoad 7 (Some true); EvSend 7 MsgAlreadyRunning] /\
  events_of (Multi.handleUpdate envQuiet (command 7 "stop") multiFresh)
    = [EvLoad 7 None; EvSend 7 MsgNotRunning] /\
  events_of (Single.handleUpdate envQuiet (command 7 "monitor") singleRunning)
    = [EvSetChat 7; EvReadFlag true; EvReadChat 7; EvSend 7 MsgAlreadyRunning] /\
  events_of (Single.handleUpdate envQuiet (command 7 "stop") singleStopped)
    = [EvSetChat 7; EvReadFlag false; EvReadChat 7; EvSend 7 MsgNotRunning].
Proof.
  destruct (C7_idempotent_commands envQuiet 7) as (H1 & H2 & H3 & H4).
  split; [|split; [|split]].
  - apply (H1 multiRunning). reflexivity.
  - apply (H2 multiFresh). reflexivity.
  - apply (H3 singleRunning). reflexivity.
  - apply (H4 singleStopped). reflexivity.
Defined.

(** By contrast, [monitor] to a stopped session starts a loop, and [stop] to
    a running one stores the flag and rewrites the status file. *)
Example commands_that_change_state :
  events_of (Multi.handleUpdate envQuiet (command 7 "monitor") multiFresh)
    = [EvLoad 7 None; EvGo (Some 7)] /\
  events_of (Multi.handleUpdate envQuiet (command 7 "stop") multiRunning)
    = [EvLoad 7 (Some true); EvStore 7 false; EvRange;
       EvWriteFile Multi.statusFile (JObject [("7", JBool false)]);
       EvSend 7 MsgStopped].
Proof. split; reflexivity. Qed.

(** ** C9: the stop flag guards every request *)

Section Guarded.
Context (kind : Event -> Kind).

Lemma guarded_weaken evs : guarded kind false evs = true -> guarded kind true evs = true.
Proof.
  destruct evs as [|e rest]; [done|]. simpl.
  destruct (kind e); try done.
Qed.

Lemma guarded_app armed l1 l2 :
  guarded kind armed l1 = true -> haltFree kind l1 ->
  guarded kind false l2 = true -> guarded kind armed (l1 ++ l2) = true.
Proof.
  revert armed. induction l1 as [|e l1 IH]; intros armed H1 Hf H2.
  - simpl. destruct armed; [by apply guarded_weaken|done].
  - assert (Hf' : haltFree kind l1) by (intros e' He'; apply Hf; by right).
    assert (He : kind e <> KHalt) by (apply Hf; by left).
    simpl in *. destruct (kind e); try done.
    + by apply IH.
    + apply andb_true_iff in H1 as [-> H1]. simpl. by apply IH.
    + by apply IH.
Qed.

Lemma guarded_cons armed e rest :
  guarded kind armed (e :: rest) =
    match kind e with
    | KGo => guarded kind true rest
    | KHalt => match rest with [] => true | _ => false end
    | KRequest => armed && guarded kind false rest
    | KQuiet => guarded kind false rest
    | KAlien => false
    end.
Proof. reflexivity. Qed.

Lemma guarded_request armed pre e post :
  guarded kind armed (pre ++ e :: post) = true -> kind e = KRequest ->
  match last pre with
  | Some g => kind g = KGo
  | None => armed = true
  end.
Proof.
  revert armed. induction pre as [|g pre IH]; intros armed H He.
  - rewrite app_nil_l, guarded_cons, He in H.
    by apply andb_true_iff in H as [-> _].
  - rewrite <- app_comm_cons, guarded_cons in H. rewrite last_cons.
    destruct (kind g) eqn:Hk.
    + specialize (IH true H He). by destruct (last pre).
    + destruct pre; discriminate.
    + apply andb_true_iff in H as [_ H]. specialize (IH false H He).
      by destruct (last pre).
    + specialize (IH false H He). by destruct (last pre).
    + discriminate.
Qed.

Lemma guarded_halt_last armed pre e post :
  guarded kind armed (pre ++ e :: post) = true -> kind e = KHalt -> post = [].
Proof.
  revert armed. induction pre as [|g pre IH]; intros armed H He.
  - rewrite app_nil_l, guarded_cons, He in H. by destruct post.
  - rewrite <- app_comm_cons, guarded_cons in H. destruct (kind g).
    + by apply (IH true).
    + destruct pre; discriminate.
    + apply andb_true_iff in H as [_ H]. by apply (IH false).
    + by apply (IH false).
    + discriminate.
Qed.

Lemma haltFree_app l1 l2 : haltFree kind l1 -> haltFree kind l2 -> haltFree kind (l1 ++ l2).
Proof. intros H1 H2 e He. apply in_app_or in He as [He|He]; [by apply H1|by apply H2]. Qed.

(** A run that came after the events [l1], none of which ended the loop. *)
Lemma goodRun_after {G R} stop (continuing returned : R) l1
    (x : Result R * World G * list Event) :
  kind stop = KHalt ->
  guarded kind false l1 = true -> haltFree kind l1 ->
  goodRun kind stop continuing returned x ->
  goodRun kind stop continuing returned (after l1 x).
Proof.
  intros Hs Hg Hf (Hx1 & Hx2 & Hx3). unfold goodRun.
  rewrite events_after, result_after. split; [|split].
  - by apply guarded_app.
  - intros Hr. apply haltFree_app; [done|by apply Hx2].
  - intros Hin. apply in_app_or in Hin as [Hin|Hin]; [|by apply Hx3].
    by destruct (Hf _ Hin).
Qed.

End Guarded.

(** Settle [goodRun] for a run whose result and events are explicit. *)
Ltac in_cases H :=
  simpl in H;
  repeat match type of H with
         | _ \/ _ => destruct H as [H|H]
         | False => destruct H
         | _ = _ => first [ discriminate H | subst ]
         end.

Ltac good_concrete :=
  unfold goodRun, haltFree, events_of, result_of; simpl;
  rewrite ?Z.eqb_refl; simpl;
  split; [reflexivity|split];
  [ first [ intros Hr; discriminate Hr
          | intros _ ev Hev; in_cases Hev; simpl; rewrite ?Z.eqb_refl; discriminate ]
  | first [ reflexivity
          | intros Hin; in_cases Hin; try discriminate; reflexivity ] ].

Section MultiGuard.
Import Multi MultiFacts.
Context (env : Env) (chatID : Z).

Lemma multi_stop_kind : kindMulti chatID (EvLoad chatID (Some false)) = KHalt.
Proof. simpl. by rewrite Z.eqb_refl. Qed.

Lemma multi_checkSymbol_good symbol w :
  goodRun (kindMulti chatID) (EvLoad chatID (Some false)) Next Return
    (checkSymbol env chatID symbol w).
Proof.
  pose proof (multi_Load_run env chatID w) as HL.
  destruct (seen env w !! chatID) as [[|]|].
  - destruct (getBinanceVolume_shape env symbol (tick (synced env w))) as [r HV].
    destruct r as [[vd [e|]]|msg].
    + rewrite (multi_checkSymbol_error env _ _ _ _ _ _ _ _ _ HL HV). good_concrete.
    + destruct (exceeds vd) eqn:HX.
      * destruct vd as [d|]; [|done]. simpl in HX.
        destruct (multi_checkSymbol_alert env _ _ _ _ _ _ _ _ HL HV HX) as [w3 ->].
        destruct (bot_Send env _); good_concrete.
      * rewrite (multi_checkSymbol_quiet env _ _ _ _ _ _ _ _ HL HV HX). good_concrete.
    + unfold checkSymbol. mstep. simpl. mstep. simpl. mstep. good_concrete.
  - rewrite (multi_checkSymbol_stopped env chatID symbol _ _ _ HL). good_concrete.
  - unfold checkSymbol. mstep. simpl. mstep. good_concrete.
Qed.

Lemma multi_forSymbols_good symbols w :
  goodRun (kindMulti chatID) (EvLoad chatID (Some false)) Next Return
    (forSymbols env chatID symbols w).
Proof.
  revert w. induction symbols as [|symbol rest IH]; intros w.
  - good_concrete.
  - pose proof (multi_checkSymbol_good symbol w) as Hpass.
    destruct (checkSymbol env chatID symbol w) as [[r w1] e1] eqn:Hc.
    destruct r as [[|]|msg].
    + rewrite (multi_forSymbols_Next env _ _ rest _ _ _ Hc).
      destruct Hpass as (Hg & Hf & _).
      apply goodRun_after; [apply multi_stop_kind|exact Hg|by apply Hf|apply IH].
    + by rewrite (multi_forSymbols_Return env _ _ rest _ _ _ Hc).
    + simpl. mstep. destruct Hpass as (Hg & _ & Hs).
      split; [exact Hg|]. split; [done|exact Hs].
Qed.

Lemma multi_monitorLoop_good fuel w :
  goodRun (kindMulti chatID) (EvLoad chatID (Some false)) Running Returned
    (monitorLoop env fuel chatID w).
Proof.
  revert w. induction fuel as [|n IH]; intros w.
  - good_concrete.
  - pose proof (multi_Load_run env chatID w) as HL.
    destruct (seen env w !! chatID) as [[|]|].
    + destruct (getMarketCapRank_shape env (tick (synced env w)))
        as (symbols & err & HR).
      destruct err as [err|].
      * rewrite (multi_monitorLoop_rank_error env n _ _ _ _ _ _ _ _ HL HR).
        apply goodRun_after; [apply multi_stop_kind| | |apply IH].
        -- simpl. by rewrite Z.eqb_refl.
        -- intros ev Hev. in_cases Hev; simpl; rewrite ?Z.eqb_refl; discriminate.
      * pose proof (multi_forSymbols_good symbols (tick (tick (synced env w)))) as Hin.
        destruct (forSymbols env chatID symbols (tick (tick (synced env w))))
          as [[r w3] e3] eqn:HF.
        destruct Hin as (Hg3 & Hf3 & Hs3).
        unfold events_of, result_of in Hg3, Hf3, Hs3. simpl in Hg3, Hf3, Hs3.
        assert (Hhead : forall tail, guarded (kindMulti chatID) false tail = true ->
                   guarded (kindMulti chatID) false
                     ([EvLoad chatID (Some true)] ++ [EvHttpGet rankURL] ++ tail) = true).
        { intros tail Ht. simpl. by rewrite Z.eqb_refl. }
        destruct r as [[|]|msg].
        -- rewrite (multi_monitorLoop_cycle env n chatID w _ _ _ _ _ _ _ HL HR HF).
           specialize (Hf3 eq_refl).
           apply goodRun_after; [apply multi_stop_kind| | |apply IH].
           ++ apply Hhead. by apply guarded_app.
           ++ intros ev Hev. simpl in Hev.
              destruct Hev as [<-|[<-|Hev]];
                [simpl; rewrite Z.eqb_refl; discriminate
                |discriminate|].
              apply in_app_or in Hev as [Hev|Hev]; [by apply Hf3|].
              in_cases Hev; discriminate.
        -- rewrite (multi_monitorLoop_returned env n chatID w _ _ _ _ _ _ _ HL HR HF).
           split; [|split]; unfold events_of, result_of; simpl.
           ++ by apply Hhead.
           ++ discriminate.
           ++ done.
        -- simpl. do 3 (mstep; simpl). mstep. mtidy. simpl.
           split; [|split]; unfold events_of, result_of; simpl.
           ++ by apply Hhead.
           ++ discriminate.
           ++ intros [Hin|[Hin|Hin]]; [discriminate|discriminate|].
              by specialize (Hs3 Hin).
    + rewrite (multi_monitorLoop_stopped env n chatID _ _ _ HL).       good_concrete.
    + simpl. mstep. simpl. mstep. good_concrete.
Qed.

End MultiGuard.

Section SingleGuard.
Import Single SingleFacts.
Context (env : Env).

Lemma single_checkSymbol_good symbol w :
  goodRun kindSingle (EvReadFlag false) Next Return (checkSymbol env symbol w).
Proof.
  pose proof (single_readMonitoring_run env w) as HL.
  destruct (seenFlag env w).
  - destruct (getBinanceVolume_shape env symbol (tick (synced env w))) as [r HV].
    destruct r as [[vd [e|]]|msg].
    + rewrite (single_checkSymbol_error env _ _ _ _ _ _ _ _ HL HV). good_concrete.
    + destruct (exceeds vd) eqn:HX.
      * destruct vd as [d|]; [|done]. simpl in HX.
        destruct (single_checkSymbol_alert env _ _ _ _ _ _ _ HL HV HX) as [w3 ->].
        destruct (bot_Send env _); good_concrete.
      * rewrite (single_checkSymbol_quiet env _ _ _ _ _ _ _ HL HV HX). good_concrete.
    + unfold checkSymbol. mstep. simpl. mstep. good_concrete.
  - rewrite (single_checkSymbol_stopped env symbol _ _ _ HL). good_concrete.
Qed.

Lemma single_forSymbols_good symbols w :
  goodRun kindSingle (EvReadFlag false) Next Return (forSymbols env symbols w).
Proof.
  revert w. induction symbols as [|symbol rest IH]; intros w.
  - good_concrete.
  - pose proof (single_checkSymbol_good symbol w) as Hpass.
    destruct (checkSymbol env symbol w) as [[r w1] e1] eqn:Hc.
    destruct r as [[|]|msg].
    + rewrite (single_forSymbols_Next env _ rest _ _ _ Hc).
      destruct Hpass as (Hg & Hf & _).
      apply goodRun_after; [reflexivity|exact Hg|by apply Hf|apply IH].
    + by rewrite (single_forSymbols_Return env _ rest _ _ _ Hc).
    + simpl. mstep. destruct Hpass as (Hg & _ & Hs).
      split; [exact Hg|]. split; [done|exact Hs].
Qed.

Lemma single_monitorLoop_good fuel w :
  goodRun kindSingle (EvReadFlag false) Running Returned (monitorLoop env fuel w).
Proof.
  revert w. induction fuel as [|n IH]; intros w.
  - good_concrete.
  - pose proof (single_readMonitoring_run env w) as HL.
    destruct (seenFlag env w).
    + destruct (getMarketCapRank_shape env (tick (synced env w)))
        as (symbols & err & HR).
      destruct err as [err|].
      * rewrite (single_monitorLoop_rank_error env n w _ _ _ _ _ _ HL HR).
        apply goodRun_after; [reflexivity|reflexivity| |apply IH].
        intros ev Hev. in_cases Hev; discriminate.
      * pose proof (single_forSymbols_good symbols (tick (tick (synced env w)))) as Hin.
        destruct (forSymbols env symbols (tick (tick (synced env w))))
          as [[r w3] e3] eqn:HF.
        destruct Hin as (Hg3 & Hf3 & Hs3).
        unfold events_of, result_of in Hg3, Hf3, Hs3. simpl in Hg3, Hf3, Hs3.
        destruct r as [[|]|msg].
        -- rewrite (single_monitorLoop_cycle env n w _ _ _ _ _ _ _ HL HR HF).
           specialize (Hf3 eq_refl).
           apply goodRun_after; [reflexivity| | |apply IH].
           ++ simpl. by apply guarded_app.
           ++ intros ev Hev. simpl in Hev.
              destruct Hev as [<-|[<-|Hev]]; [discriminate|discriminate|].
              apply in_app_or in Hev as [Hev|Hev]; [by apply Hf3|].
              in_cases Hev; discriminate.
        -- rewrite (single_monitorLoop_returned env n w _ _ _ _ _ _ _ HL HR HF).
           split; [|split]; unfold events_of, result_of; simpl; [done|discriminate|done].
        -- simpl. do 2 (mstep; simpl). mstep. mtidy. simpl.
           split; [|split]; unfold events_of, result_of; simpl.
           ++ done.
           ++ discriminate.
           ++ intros [Hin|[Hin|Hin]]; [discriminate|discriminate|].
              by specialize (Hs3 Hin).
    + rewrite (single_monitorLoop_stopped env n _ _ _ HL).       good_concrete.
Qed.

End SingleGuard.

Lemma kindMulti_go chatID g : kindMulti chatID g = KGo -> g = EvLoad chatID (Some true).
Proof.
  destruct g; simpl; try discriminate.
  destruct (Z.eqb_spec chat chatID) as [->|_]; [|discriminate].
  destruct v as [[|]|]; try discriminate. reflexivity.
Qed.

Lemma kindSingle_go g : kindSingle g = KGo -> g = EvReadFlag true.
Proof. destruct g; simpl; try discriminate. destruct v; [reflexivity|discriminate]. Qed.

(** In a guarded trace a request comes right after a "go" flag read. *)
Lemma guarded_request_after_go kind evs pre url post :
  guarded kind false evs = true -> kind (EvHttpGet url) = KRequest ->
  evs = pre ++ EvHttpGet url :: post ->
  exists pre' g, pre = pre' ++ [g] /\ kind g = KGo.
Proof.
  intros Hg Hk ->. pose proof (guarded_request kind false pre _ post Hg Hk) as H.
  destruct (last pre) as [g|] eqn:Hl; [|discriminate].
  apply last_Some in Hl as [pre' ->]. by exists pre', g.
Qed.

(** An event that does not occur in a prefix is found after it. *)
Lemma split_after_prefix {A} (pre l p : list A) (e : A) (post : list A) :
  pre ++ l = p ++ e :: post -> ~ In e pre ->
  exists p2, p = pre ++ p2 /\ l = p2 ++ e :: post.
Proof.
  intros Heq Hnot. apply app_eq_app in Heq as [l0 [[H1 H2]|[H1 H2]]].
  - destruct l0 as [|e0 l0].
    + exists []. rewrite app_nil_r in H1. simpl in H2. subst.
      split; [by rewrite app_nil_r|done].
    + simpl in H2. injection H2 as <- _. destruct Hnot. rewrite H1.
      apply in_elt.
  - by exists l0.
Qed.

(** Whatever the file system answers, a save ranges over the map, writes the
    file and at most logs. *)
Lemma saveMonitoringStatus_shape env (w : World Multi.Globals) :
  exists w' data tail,
    Multi.saveMonitoringStatus env w =
      (Done tt, w', EvRange :: EvWriteFile Multi.statusFile data :: tail) /\
    (tail = [] \/ exists e, tail = [EvLog (LogSaveError e)]).
Proof.
  unfold Multi.saveMonitoringStatus, Multi.Range, Multi.WriteFile, Multi.sync,
    logPrintf, mbind, M_bind, bind, now, getG, putG, emit, mret, M_ret, ret.
  simpl. destruct (WriteFile_err env (S (clock w))) as [e|]; simpl.
  - do 3 eexists. split; [reflexivity|]. right. by eexists.
  - do 3 eexists. split; [reflexivity|]. by left.
Qed.

(** A goroutine of the multi-session bot: a store, a save and a message,
    none of them a request or a read of the flag, then the loop. *)
Lemma multi_startMonitoring_run env fuel chatID (w : World Multi.Globals) :
  exists pre w',
    Multi.startMonitoring env fuel chatID w =
      after pre (Multi.monitorLoop env fuel chatID w') /\
    (forall url, ~ In (EvHttpGet url) pre) /\
    ~ In (EvLoad chatID (Some false)) pre.
Proof.
  unfold Multi.startMonitoring.
  assert (HS : Multi.Store chatID true w =
            (Done tt, world_of (Multi.Store chatID true w), [EvStore chatID true]))
    by reflexivity.
  destruct (saveMonitoringStatus_shape env (world_of (Multi.Store chatID true w)))
    as (w2 & data & tail & Hsave & Htail).
  do 3 mstep. mtidy.
  eexists _, _. split; [reflexivity|].
  destruct Htail as [->|[e ->]]; (split; [intros url Hin|intros Hin]; in_cases Hin).
Qed.

(** A goroutine of the single-session bot: the flag is set and a message
    sent, then the loop. *)
Lemma single_startMonitoring_run env fuel (w : World Single.Globals) :
  exists pre w',
    Single.startMonitoring env fuel w = after pre (Single.monitorLoop env fuel w') /\
    (forall url, ~ In (EvHttpGet url) pre) /\
    ~ In (EvReadFlag false) pre.
Proof.
  unfold Single.startMonitoring.
  assert (HS : Single.setMonitoring true w =
            (Done tt, world_of (Single.setMonitoring true w), [EvSetFlag true]))
    by reflexivity.
  mstep. erewrite mbind_Done by apply SingleFacts.single_readChatID_run.
  mstep. mtidy.
  eexists _, _. split; [reflexivity|].
  split; [intros url Hin|intros Hin]; in_cases Hin.
Qed.

(** The two trace properties of a loop carry over to the goroutine that
    runs a few quiet steps and then the loop. *)
Lemma guards_after_prefix {G R} (go stop : Event) (returned : R) pre
    (x : Result R * World G * list Event) :
  (forall url, ~ In (EvHttpGet url) pre) -> ~ In stop pre ->
  checkedBeforeEachRequest go (events_of x) -> endsAt stop returned x ->
  checkedBeforeEachRequest go (events_of (after pre x)) /\
  endsAt stop returned (after pre x).
Proof.
  intros Hreq Hstop Hc He. split.
  - intros p url post Hev. rewrite events_after in Hev.
    destruct (split_after_prefix _ _ _ _ _ Hev (Hreq url)) as (p2 & -> & Hx).
    destruct (Hc _ _ _ Hx) as [p' ->]. exists (pre ++ p'). by rewrite app_assoc.
  - intros p post Hev. rewrite events_after in Hev.
    destruct (split_after_prefix _ _ _ _ _ Hev Hstop) as (p2 & -> & Hx).
    rewrite result_after. by apply (He p2).
Qed.

(** C9 (amended). In every running monitoring loop the session's stop flag
    is read before each network request, the per-symbol volume requests in
    particular: in the trace of the loop every request comes right after a
    read of the flag that found the session running.  When a checkpoint, the
    top of the outer cycle or the top of the inner per-symbol pass, reads
    the flag as stopped, the loop returns there and does nothing else; and
    in every trace nothing at all, so no volume fetch and no alert, follows
    a read of the flag that found the session stopped, after which the loop
    has returned.  In the multi-session bot and in the single-session bot,
    for the loop started in any state and for the whole goroutine that
    [startMonitoring] runs.  (A flag that was stopped and is running again
    when the checkpoint reads it does not stop the loop.) *)
Theorem C9_stop_flag_guards_requests (env : Env) :
  (forall fuel chatID (w : World Multi.Globals),
      let x := Multi.monitorLoop env fuel chatID w in
      (forall pre url post,
          events_of x = pre ++ EvHttpGet url :: post ->
          exists pre', pre = pre' ++ [EvLoad chatID (Some true)]) /\
      (forall pre post,
          events_of x = pre ++ EvLoad chatID (Some false) :: post ->
          post = [] /\ result_of x = Done Returned)) /\
  (forall n chatID (w : World Multi.Globals),
      Multi.seen env w !! chatID = Some false ->
      Multi.monitorLoop env (S n) chatID w =
        (Done Returned, tick (Multi.synced env w), [EvLoad chatID (Some false)])) /\
  (forall chatID symbol rest (w : World Multi.Globals),
      Multi.seen env w !! chatID = Some false ->
      Multi.forSymbols env chatID (symbol :: rest) w =
        (Done Return, tick (Multi.synced env w), [EvLoad chatID (Some false)])) /\
  (forall fuel (w : World Single.Globals),
      let x := Single.monitorLoop env fuel w in
      (forall pre url post,
          events_of x = pre ++ EvHttpGet url :: post ->
          exists pre', pre = pre' ++ [EvReadFlag true]) /\
      (forall pre post,
          events_of x = pre ++ EvReadFlag false :: post ->
          post = [] /\ result_of x = Done Returned)) /\
  (forall n (w : World Single.Globals),
      Single.seenFlag env w = false ->
      Single.monitorLoop env (S n) w =
        (Done Returned, tick (Single.synced env w), [EvReadFlag false])) /\
  (forall symbol rest (w : World Single.Globals),
      Single.seenFlag env w = false ->
      Single.forSymbols env (symbol :: rest) w =
        (Done Return, tick (Single.synced env w), [EvReadFlag false])) /\
  (* the whole goroutine, from [startMonitoring] on *)
  (forall fuel chatID (w : World Multi.Globals),
      let x := Multi.startMonitoring env fuel chatID w in
      checkedBeforeEachRequest (EvLoad chatID (Some true)) (events_of x) /\
      endsAt (EvLoad chatID (Some false)) Returned x) /\
  (forall fuel (w : World Single.Globals),
      let x := Single.startMonitoring env fuel w in
      checkedBeforeEachRequest (EvReadFlag true) (events_of x) /\
      endsAt (EvReadFlag false) Returned x).
Proof.
  assert (Hmulti : forall fuel chatID (w : World Multi.Globals),
             let x := Multi.monitorLoop env fuel chatID w in
             checkedBeforeEachRequest (EvLoad chatID (Some true)) (events_of x) /\
             endsAt (EvLoad chatID (Some false)) Returned x).
  { intros fuel chatID w x.
    destruct (multi_monitorLoop_good env chatID fuel w) as (Hg & _ & Hs). fold x in Hg, Hs.
    split.
    - intros pre url post Hev.
      destruct (guarded_request_after_go _ _ _ _ _ Hg eq_refl Hev) as (pre' & g & -> & Hk).
      apply kindMulti_go in Hk as ->. by exists pre'.
    - intros pre post Hev. split.
      + rewrite Hev in Hg.
        apply (guarded_halt_last _ _ _ _ _ Hg (multi_stop_kind chatID)).
      + apply Hs. rewrite Hev. apply in_elt. }
  assert (Hsingle : forall fuel (w : World Single.Globals),
             let x := Single.monitorLoop env fuel w in
             checkedBeforeEachRequest (EvReadFlag true) (events_of x) /\
             endsAt (EvReadFlag false) Returned x).
  { intros fuel w x.
    destruct (single_monitorLoop_good env fuel w) as (Hg & _ & Hs). fold x in Hg, Hs.
    split.
    - intros pre url post Hev.
      destruct (guarded_request_after_go _ _ _ _ _ Hg eq_refl Hev) as (pre' & g & -> & Hk).
      apply kindSingle_go in Hk as ->. by exists pre'.
    - intros pre post Hev. split.
      + rewrite Hev in Hg. apply (guarded_halt_last _ _ _ _ _ Hg eq_refl).
      + apply Hs. rewrite Hev. apply in_elt. }
  split; [|split; [|split; [|split; [|split; [|split; [|split]]]]]].
  - exact Hmulti.
  - intros n chatID w HF. apply MultiFacts.multi_monitorLoop_stopped.
    rewrite MultiFacts.multi_Load_run, HF. reflexivity.
  - intros chatID symbol rest w HF. apply MultiFacts.multi_forSymbols_Return.
    apply MultiFacts.multi_checkSymbol_stopped.
    rewrite MultiFacts.multi_Load_run, HF. reflexivity.
  - exact Hsingle.
  - intros n w HF. apply SingleFacts.single_monitorLoop_stopped.
    rewrite SingleFacts.single_readMonitoring_run, HF. reflexivity.
  - intros symbol rest w HF. apply SingleFacts.single_forSymbols_Return.
    apply SingleFacts.single_checkSymbol_stopped.
    rewrite SingleFacts.single_readMonitoring_run, HF. reflexivity.
  - intros fuel chatID w x. subst x.
    destruct (multi_startMonitoring_run env fuel chatID w) as (pre & w' & -> & Hreq & Hstop).
    destruct (Hmulti fuel chatID w') as [Hc He].
    by apply guards_after_prefix.
  - intros fuel w x. subst x.
    destruct (single_startMonitoring_run env fuel w) as (pre & w' & -> & Hreq & Hstop).
    destruct (Hsingle fuel w') as [Hc He].
    by apply guards_after_prefix.
Qed.

(** The loop checks "ETHUSDT", alerts, reads the flag again, finds the
    session stopped and returns: "BTCUSDT" is never requested. *)
Example stopped_mid_cycle :
  Multi.monitorLoop envStoppedMidCycle 5 7 multiRunning =
    (Done Returned,
     world_of (Multi.monitorLoop envStoppedMidCycle 5 7 multiRunning),
     [EvLoad 7 (Some true); EvHttpGet rankURL;
      EvLoad 7 (Some true); EvHttpGet (klinesURL "ETHUSDT");
      EvSend 7 (MsgAlert "ETHUSDT" sample6); EvSleep 100;
      EvLoad 7 (Some false)]) /\
  events_of (Single.monitorLoop envFlagClearedMidCycle 5 singleRunning) =
    [EvReadFlag true; EvHttpGet rankURL;
     EvReadFlag true; EvHttpGet (klinesURL "ETHUSDT");
     EvReadChat 7; EvSend 7 (MsgAlert "ETHUSDT" sample6); EvSleep 100;
     EvReadFlag false].
Proof. split; reflexivity. Qed.

(** The flag of session 7 becomes stopped while the loop checks "ETHUSDT"
    (another goroutine stores "stopped", then "running" again, as [/stop]
    followed by [/monitor] does), before the checkpoint at time 6, the
    seventh event of the run.  After that checkpoint the loop still fetches
    the volume of "BTCUSDT" and alerts for it. *)
Lemma C9_counterexample :
  let x := Multi.monitorLoop envStopUndone 1 7 multiRunning in
  (7, false) ∈ map_stores envStopUndone 6 /\
  events_of x !! 6%nat = Some (EvLoad 7 (Some true)) /\
  drop 7 (events_of x) =
    [EvHttpGet (klinesURL "BTCUSDT"); EvSend 7 (MsgAlert "BTCUSDT" sample6); EvSleep 100;
     EvLog (LogCheckCompleted (Some 7)); EvSleep 300000] /\
  alertsOf (drop 7 (events_of x)) = [("BTCUSDT", sample6)].
Proof.
  split; [|split; [|split]]; try reflexivity.
  apply elem_of_cons. by left.
Qed.

(** A stop that a new [monitor] undoes before the loop's next checkpoint is
    never seen by the loop, which goes on to "BTCUSDT". *)
Example stop_undone_before_checkpoint :
  events_of (Multi.forSymbols envStopUndone 7 ["ETHUSDT"; "BTCUSDT"]
               (mkWorld {| Multi.monitoringStatus := {[ 7 := true ]}; Multi.files := ∅ |} 2)) =
    [EvLoad 7 (Some true); EvHttpGet (klinesURL "ETHUSDT");
     EvSend 7 (MsgAlert "ETHUSDT" sample6); EvSleep 100;
     EvLoad 7 (Some true); EvHttpGet (klinesURL "BTCUSDT");
     EvSend 7 (MsgAlert "BTCUSDT" sample6); EvSleep 100].
Proof. reflexivity. Qed.

Lemma C9_stop_flag_guards_requests_witness :
  (exists pre',
      [EvLoad 7 (Some true); EvHttpGet rankURL; EvLoad 7 (Some true)]
        = pre' ++ [EvLoad 7 (Some true)]) /\
  result_of (Multi.monitorLoop envStoppedMidCycle 5 7 multiRunning) = Done Returned /\
  result_of (Single.monitorLoop envFlagClearedMidCycle 5 singleRunning) = Done Returned /\
  Multi.forSymbols envQuiet 7 ["ETHUSDT"; "BTCUSDT"]
      (W0 {| Multi.monitoringStatus := {[ 7 := false ]}; Multi.files := ∅ |}) =
    (Done Return,
     tick (Multi.synced envQuiet
             (W0 {| Multi.monitoringStatus := {[ 7 := false ]}; Multi.files := ∅ |})),
     [EvLoad 7 (Some false)]).
Proof.
  destruct (C9_stop_flag_guards_requests envStoppedMidCycle) as (Hm & _ & _ & _).
  destruct (Hm 5%nat 7 multiRunning) as (Hreq & Hstop).
  destruct (C9_stop_flag_guards_requests envFlagClearedMidCycle) as (_ & _ & _ & Hs & _ & _).
  destruct (Hs 5%nat singleRunning) as (_ & Hstop').
  destruct (C9_stop_flag_guards_requests envQuiet) as (_ & _ & Hinner & _).
  split; [|split; [|split]].
  - apply (Hreq _ (klinesURL "ETHUSDT")
             [EvSend 7 (MsgAlert "ETHUSDT" sample6); EvSleep 100; EvLoad 7 (Some false)]).
    reflexivity.
  - apply (Hstop [EvLoad 7 (Some true); EvHttpGet rankURL;
                  EvLoad 7 (Some true); EvHttpGet (klinesURL "ETHUSDT");
                  EvSend 7 (MsgAlert "ETHUSDT" sample6); EvSleep 100] []).
    reflexivity.
  - apply (Hstop' [EvReadFlag true; EvHttpGet rankURL;
                   EvReadFlag true; EvHttpGet (klinesURL "ETHUSDT");
                   EvReadChat 7; EvSend 7 (MsgAlert "ETHUSDT" sample6); EvSleep 100] []).
    reflexivity.
  - apply Hinner. reflexivity.
Defined.

(** ** C6: the status file *)

Lemma in_int64_true z : int64_range z -> in_int64 z = true.
Proof.
  unfold int64_range, in_int64. intros [H1 H2].
  apply andb_true_iff. split; [by apply Z.leb_le|by apply Z.ltb_lt].
Qed.

Lemma string_of_uint_head d :
  d <> Decimal.Nil ->
  exists c r, NilEmpty.string_of_uint d = String c r /\
              Ascii.eqb c "+" = false /\ Ascii.eqb c "-" = false.
Proof.
  destruct d; [done|..]; intros _; do 2 eexists;
    (split; [reflexivity|split; reflexivity]).
Qed.

Lemma NilZero_string_of_uint_nonnil d :
  d <> Decimal.Nil -> NilZero.string_of_uint d = NilEmpty.string_of_uint d.
Proof. by destruct d. Qed.

Lemma ParseInt_digits d :
  d <> Decimal.Nil -> in_int64 (Z.of_uint d) = true ->
  ParseInt (NilEmpty.string_of_uint d) = Some (Z.of_uint d).
Proof.
  intros Hd Hr. destruct (string_of_uint_head d Hd) as (c & r & Hs & Hp & Hm).
  unfold ParseInt. rewrite Hs, Hp, Hm. cbv beta iota. rewrite <- Hs.
  rewrite NilEmpty.usu, Hr. reflexivity.
Qed.

Lemma ParseInt_minus_digits d :
  d <> Decimal.Nil -> in_int64 (- Z.of_uint d) = true ->
  ParseInt (String "-" (NilEmpty.string_of_uint d)) = Some (- Z.of_uint d).
Proof.
  intros Hd Hr. destruct (string_of_uint_head d Hd) as (c & r & Hs & _ & _).
  unfold ParseInt.
  change (Ascii.eqb "-" "+") with false. change (Ascii.eqb "-" "-") with true.
  cbv beta iota. rewrite Hs. cbv beta iota. rewrite <- Hs.
  rewrite NilEmpty.usu, Hr. reflexivity.
Qed.

(** Decimal printing and parsing of an int64 key are inverse. *)
Lemma ParseInt_FormatInt z : int64_range z -> ParseInt (FormatInt z) = Some z.
Proof.
  intros Hz. apply in_int64_true in Hz. unfold FormatInt.
  destruct z as [|p|p].
  - reflexivity.
  - simpl Z.to_int. unfold NilZero.string_of_int.
    rewrite NilZero_string_of_uint_nonnil by apply Unsigned.to_uint_nonnil.
    assert (Hv : Z.of_uint (Pos.to_uint p) = Z.pos p).
    { unfold Z.of_uint. by rewrite Unsigned.of_to. }
    rewrite ParseInt_digits; rewrite ?Hv; try done. apply Unsigned.to_uint_nonnil.
  - simpl Z.to_int. unfold NilZero.string_of_int.
    rewrite NilZero_string_of_uint_nonnil by apply Unsigned.to_uint_nonnil.
    assert (Hv : Z.of_uint (Pos.to_uint p) = Z.pos p).
    { unfold Z.of_uint. by rewrite Unsigned.of_to. }
    rewrite ParseInt_minus_digits; rewrite ?Hv; try done. apply Unsigned.to_uint_nonnil.
Qed.

Section StatusFile.
Import Multi.

Lemma fold_left_insert_union (l : list (Z * bool)) (m0 : gmap Z bool) :
  NoDup (l.*1) -> fold_left insertEntry l m0 = list_to_map l ∪ m0.
Proof.
  revert m0. induction l as [|[k v] l IH]; intros m0 Hnd; simpl.
  - by rewrite (left_id_L ∅ (∪)).
  - apply NoDup_cons in Hnd as [Hk Hnd]. rewrite (IH _ Hnd).
    unfold insertEntry. simpl.
    rewrite <- insert_union_l. rewrite insert_union_r; [done|].
    by apply not_elem_of_list_to_map_1.
Qed.

(** Inserting the entries of a map, in any order, rebuilds the map. *)
Lemma fold_left_insert_entries (l : list (Z * bool)) (m : gmap Z bool) :
  l ≡ₚ map_to_list m -> fold_left insertEntry l ∅ = m.
Proof.
  intros Hl.
  assert (Hnd : NoDup (l.*1)).
  { rewrite Hl. apply NoDup_fst_map_to_list. }
  rewrite (fold_left_insert_union l ∅ Hnd), (right_id_L ∅ (∪)).
  rewrite <- (list_to_map_to_list m). by apply list_to_map_proper.
Qed.

(** Decoding what [json.Marshal] wrote gives the map back. *)
Lemma Unmarshal_Marshal_statusMap (m : gmap Z bool) :
  (forall k, is_Some (m !! k) -> int64_range k) ->
  Unmarshal_statusMap (Some (Marshal_statusMap m)) = inr m.
Proof.
  intros Hkeys. unfold Unmarshal_statusMap, Marshal_statusMap.
  set (enc := fun kv : Z * bool => (FormatInt kv.1, JBool kv.2)).
  set (sorted := merge_sort key_le (enc <$> map_to_list m)).
  assert (Hperm : sorted ≡ₚ enc <$> map_to_list m) by apply merge_sort_Permutation.
  assert (Hdec : forall kv, kv ∈ map_to_list m -> Unmarshal_entry (enc kv) = Some kv).
  { intros [k v] Hin. apply elem_of_map_to_list in Hin.
    unfold Unmarshal_entry, enc. simpl.
    rewrite ParseInt_FormatInt by (apply Hkeys; eauto). reflexivity. }
  assert (Hall : exists entries,
             mapM Unmarshal_entry sorted = Some entries /\ entries ≡ₚ map_to_list m).
  { clearbody sorted. revert sorted Hperm Hdec. generalize (map_to_list m).
    intros l. induction l as [|kv l IH]; intros sorted Hperm Hdec.
    - apply Permutation_nil_r in Hperm. subst. by exists [].
    - simpl in Hperm.
      assert (Hin : enc kv ∈ sorted).
      { rewrite Hperm. by left. }
      apply list_elem_of_split in Hin as (s1 & s2 & ->).
      symmetry in Hperm. apply Permutation_cons_app_inv in Hperm. symmetry in Hperm.
      destruct (IH (s1 ++ s2) Hperm) as (entries & Hm & Hp).
      { intros x Hx. apply Hdec. by right. }
      apply mapM_Some in Hm. apply Forall2_app_inv_l in Hm as (k1 & k2 & H1 & H2 & ->).
      exists (k1 ++ kv :: k2). split.
      + apply mapM_Some. apply Forall2_app; [done|]. constructor; [|done].
        apply Hdec. by left.
      + rewrite <- Permutation_middle. by rewrite Hp. }
  destruct Hall as (entries & -> & Hp).
  f_equal. by apply fold_left_insert_entries.
Qed.

End StatusFile.

Lemma spawnedChats_app e1 e2 : spawnedChats (e1 ++ e2) = spawnedChats e1 ++ spawnedChats e2.
Proof.
  induction e1 as [|e e1 IH]; simpl; [done|].
  destruct e; try done. destruct chat; [|done]. simpl. by rewrite IH.
Qed.

Lemma enabledChats_elem entries c : c ∈ enabledChats entries <-> (c, true) ∈ entries.
Proof.
  induction entries as [|[k [|]] rest IH]; simpl.
  - split; intros H; inversion H.
  - rewrite !elem_of_cons, IH. split; intros [H|H]; auto; left; congruence.
  - rewrite elem_of_cons, IH. split; [auto|]. intros [H|H]; [congruence|done].
Qed.

Lemma enabledChats_NoDup entries : NoDup (entries.*1) -> NoDup (enabledChats entries).
Proof.
  induction entries as [|[k [|]] rest IH]; simpl; intros Hnd.
  - constructor.
  - apply NoDup_cons in Hnd as [Hk Hnd]. constructor; [|by apply IH].
    rewrite enabledChats_elem. intros Hin. apply Hk.
    apply list_elem_of_fmap. by exists (k, true).
  - apply NoDup_cons in Hnd as [_ Hnd]. by apply IH.
Qed.

Section Persistence.
Import Multi.
Context (env : Env).

(** A save that nothing disturbs: the file holds the encoded map. *)
Lemma saveMonitoringStatus_run (w : World Globals) :
  map_stores env (clock w) = [] ->
  WriteFile_err env (S (clock w)) = None ->
  saveMonitoringStatus env w =
    (Done tt,
     mkWorld {| monitoringStatus := monitoringStatus (globals w);
                files := <[statusFile := Some (Marshal_statusMap (monitoringStatus (globals w)))]>
                           (files (globals w)) |}
             (S (S (clock w))),
     [EvRange; EvWriteFile statusFile (Marshal_statusMap (monitoringStatus (globals w)))]).
Proof.
  intros Hq Hw. unfold saveMonitoringStatus.
  assert (HR : Range env w =
            (Done (monitoringStatus (globals w)),
             tick (mkWorld {| monitoringStatus := monitoringStatus (globals w);
                              files := files (globals w) |} (clock w)),
             [EvRange])).
  { unfold Range, sync, mbind, M_bind, bind, now, getG, putG, emit, mret, M_ret, ret.
    simpl. rewrite Hq. reflexivity. }
  mstep.
  assert (HW : forall data (w' : World Globals),
             WriteFile_err env (clock w') = None ->
             WriteFile env statusFile data w' =
               (Done None,
                mkWorld {| monitoringStatus := monitoringStatus (globals w');
                           files := <[statusFile := Some data]> (files (globals w')) |}
                        (S (clock w')),
                [EvWriteFile statusFile data])).
  { intros data w' Hw'.
    unfold WriteFile, mbind, M_bind, bind, now, getG, putG, emit, mret, M_ret, ret.
    simpl. rewrite Hw'. reflexivity. }
  erewrite mbind_Done by (apply HW; exact Hw).
  reflexivity.
Qed.

(** Resuming the entries stores each of them and starts a loop for each
    enabled one. *)
Lemma resume_run entries (w : World Globals) :
  exists w' evs,
    resume entries w = (Done tt, w', evs) /\
    monitoringStatus (globals w') = fold_left insertEntry entries (monitoringStatus (globals w)) /\
    files (globals w') = files (globals w) /\
    spawnedChats evs = enabledChats entries.
Proof.
  revert w. induction entries as [|[c status] rest IH]; intros w.
  - exists w, []. done.
  - set (w1 := mkWorld {| monitoringStatus := <[c := status]> (monitoringStatus (globals w));
                          files := files (globals w) |} (S (clock w))).
    assert (HS : Store c status w = (Done tt, w1, [EvStore c status])) by reflexivity.
    destruct status.
    + destruct (IH (tick w1)) as (w' & evs & Hr & Hm & Hf & Hs).
      exists w', ([EvStore c true] ++ [EvGo (Some c)] ++ evs).
      split; [|split; [|split]]; try done.
      * simpl. mstep. unfold goStartMonitoring. mstep. rewrite Hr. reflexivity.
      * simpl. by rewrite Hs.
    + destruct (IH w1) as (w' & evs & Hr & Hm & Hf & Hs).
      exists w', ([EvStore c false] ++ [] ++ evs).
      split; [|split; [|split]]; try done.
      simpl. mstep. mstep. rewrite Hr. reflexivity.
Qed.

(** Loading a file that holds an encoded map. *)
Lemma loadMonitoringStatus_run (w : World Globals) (m : gmap Z bool) :
  (forall k, is_Some (m !! k) -> int64_range k) ->
  files (globals w) !! statusFile = Some (Some (Marshal_statusMap m)) ->
  ReadFile_err env (clock w) = None ->
  monitoringStatus (globals w) = ∅ ->
  exists w' evs,
    loadMonitoringStatus env w = (Done tt, w', EvReadFile statusFile :: evs) /\
    monitoringStatus (globals w') = m /\
    spawnedChats evs = enabledChats (map_to_list m).
Proof.
  intros Hkeys Hfile Hread Hempty. unfold loadMonitoringStatus.
  assert (HR : ReadFile env statusFile w =
            (Done (inr (Some (Marshal_statusMap m))), tick w, [EvReadFile statusFile])).
  { unfold ReadFile, mbind, M_bind, bind, now, getG, putG, emit, mret, M_ret, ret.
    simpl. rewrite Hfile, Hread. reflexivity. }
  mstep. cbv beta iota. rewrite (Unmarshal_Marshal_statusMap m Hkeys).
  destruct (resume_run (map_to_list m) (tick w)) as (w' & evs & Hr & Hm & _ & Hs).
  exists w', evs. rewrite Hr. split; [reflexivity|]. split; [|done].
  rewrite Hm. simpl. rewrite Hempty. by apply fold_left_insert_entries.
Qed.

(** Loading when there is no file. *)
Lemma loadMonitoringStatus_absent (w : World Globals) :
  files (globals w) !! statusFile = None ->
  loadMonitoringStatus env w = (Done tt, tick w, [EvReadFile statusFile]).
Proof.
  intros Hfile. unfold loadMonitoringStatus.
  assert (HR : ReadFile env statusFile w =
            (Done (inl NotExist), tick w, [EvReadFile statusFile])).
  { unfold ReadFile, mbind, M_bind, bind, now, getG, putG, emit, mret, M_ret, ret.
    simpl. rewrite Hfile. reflexivity. }
  mstep. reflexivity.
Qed.

End Persistence.

(** C6. For every mapping of session ids (int64) to booleans: saving the
    monitoring state and then loading it, in a fresh process that finds the
    file the save wrote, reconstructs the same mapping, hence the same set
    of enabled sessions, and starts a monitoring loop for each enabled
    session and for no other, once each.  Loading when the backing file is
    absent is not an error: nothing is logged, no loop is started and the
    mapping is left as it is, empty at start-up. *)
Theorem C6_status_round_trip (env env' : Env) (m : gmap Z bool) :
  map_Forall (fun k _ => int64_range k) m ->
  (forall w : World Multi.Globals,
      Multi.monitoringStatus (globals w) = m ->
      map_stores env (clock w) = [] ->
      WriteFile_err env (S (clock w)) = None ->
      forall w2 : World Multi.Globals,
        Multi.files (globals w2)
          = Multi.files (globals (world_of (Multi.saveMonitoringStatus env w))) ->
        Multi.monitoringStatus (globals w2) = ∅ ->
        ReadFile_err env' (clock w2) = None ->
        let x := Multi.loadMonitoringStatus env' w2 in
        result_of x = Done tt /\
        Multi.monitoringStatus (globals (world_of x)) = m /\
        NoDup (spawnedChats (events_of x)) /\
        (forall c, c ∈ spawnedChats (events_of x) <-> m !! c = Some true)) /\
  (forall w : World Multi.Globals,
      Multi.files (globals w) !! Multi.statusFile = None ->
      let x := Multi.loadMonitoringStatus env' w in
      x = (Done tt, tick w, [EvReadFile Multi.statusFile]) /\
      Multi.monitoringStatus (globals (world_of x)) = Multi.monitoringStatus (globals w) /\
      spawnedChats (events_of x) = []).
Proof.
  intros Hkeys. split.
  - intros w Hm Hq Hw w2 Hfiles Hempty Hread x.
    assert (Hk : forall k, is_Some (m !! k) -> int64_range k).
    { intros k [v Hv]. apply (Hkeys k v Hv). }
    rewrite (saveMonitoringStatus_run env w Hq Hw) in Hfiles.
    unfold world_of in Hfiles. simpl in Hfiles. rewrite Hm in Hfiles.
    assert (Hfile : Multi.files (globals w2) !! Multi.statusFile
                    = Some (Some (Multi.Marshal_statusMap m))).
    { rewrite Hfiles. apply lookup_insert_eq. }
    destruct (loadMonitoringStatus_run env' w2 m Hk Hfile Hread Hempty)
      as (w' & evs & Hr & Hmap & Hs).
    subst x. rewrite Hr. unfold result_of, world_of, events_of. simpl.
    rewrite Hs. split; [done|]. split; [done|]. split.
    + apply enabledChats_NoDup, NoDup_fst_map_to_list.
    + intros c. by rewrite enabledChats_elem, elem_of_map_to_list.
  - intros w Hfile x. subst x.
    rewrite (loadMonitoringStatus_absent env' w Hfile). done.
Qed.

Lemma exampleStatus_keys : map_Forall (fun k _ => int64_range k) exampleStatus.
Proof. apply (bool_decide_unpack _). vm_compute. exact I. Defined.

Lemma C6_status_round_trip_witness :
  Multi.monitoringStatus (globals (world_of (Multi.loadMonitoringStatus envQuiet afterRestart)))
    = exampleStatus /\
  (forall c, c ∈ spawnedChats (events_of (Multi.loadMonitoringStatus envQuiet afterRestart))
             <-> exampleStatus !! c = Some true) /\
  Multi.loadMonitoringStatus envQuiet multiFresh =
    (Done tt, tick multiFresh, [EvReadFile Multi.statusFile]).
Proof.
  destruct (C6_status_round_trip envQuiet envQuiet exampleStatus exampleStatus_keys)
    as [Hrt Habsent].
  destruct (Hrt beforeSave eq_refl eq_refl eq_refl afterRestart eq_refl eq_refl eq_refl)
    as (_ & Hm & _ & Hs).
  split; [exact Hm|]. split; [exact Hs|].
  apply (Habsent multiFresh). reflexivity.
Defined.

(** The file the save writes, and what the load does with it. *)
Example status_file_content :
  Multi.files (globals afterRestart) !! Multi.statusFile =
    Some (Some (JObject [("-1001234567890", JBool true); ("42", JBool false);
                         ("7", JBool true)])) /\
  Permutation
    (spawnedChats (events_of (Multi.loadMonitoringStatus envQuiet afterRestart)))
    [7; -1001234567890].
Proof.
  split; [vm_compute; reflexivity|].
  vm_compute. first [ reflexivity | apply perm_swap ].
Qed.

(** * Further properties of the three programs *)

(** ** Rules for specifications *)

Section TripleRules.
Context {G : Type}.

Lemma triple_ret {A} (I : G -> Prop) E (a : A) (Q : A -> Prop) P :
  Q a -> triple I E (mret a : M G A) Q P.
Proof. intros HQ w HI. split; [done|]. split; [constructor|done]. Qed.

Lemma triple_panic {A} (I : G -> Prop) E msg (Q : A -> Prop) (P : string -> Prop) :
  P msg -> triple I E (@panic G A msg) Q P.
Proof. intros HP w HI. split; [done|]. split; [constructor|done]. Qed.

Lemma triple_bind {A B} (I : G -> Prop) E (m : M G A) (f : A -> M G B)
    (Q : A -> Prop) (Q' : B -> Prop) P :
  triple I E m Q P -> (forall a, Q a -> triple I E (f a) Q' P) ->
  triple I E (m ≫= f) Q' P.
Proof.
  intros Hm Hf w HI. destruct (Hm w HI) as (HI1 & HE1 & HR1).
  destruct (m w) as [[r w1] e1] eqn:Hmw.
  unfold world_of, events_of, result_of in *. simpl in *.
  destruct r as [a|msg].
  - rewrite (mbind_Done m f w a w1 e1 Hmw).
    destruct (Hf a HR1 w1 HI1) as (HI2 & HE2 & HR2).
    destruct (f a w1) as [[r2 w2] e2]. unfold after. simpl in *.
    split; [done|]. split; [|done]. by apply Forall_app.
  - rewrite (mbind_Panicked m f w msg w1 e1 Hmw). simpl. done.
Qed.

Lemma triple_weaken {A} (I : G -> Prop) (E E' : Event -> Prop) (m : M G A)
    (Q Q' : A -> Prop) (P P' : string -> Prop) :
  triple I E m Q P ->
  (forall e, E e -> E' e) -> (forall a, Q a -> Q' a) -> (forall msg, P msg -> P' msg) ->
  triple I E' m Q' P'.
Proof.
  intros Hm HE HQ HP w HI. destruct (Hm w HI) as (HI1 & HE1 & HR1).
  split; [done|]. split; [by eapply Forall_impl|].
  destruct (result_of (m w)); auto.
Qed.

Lemma triple_emit (I : G -> Prop) (E : Event -> Prop) e (Q : unit -> Prop) P :
  E e -> Q tt -> triple I E (emit e) Q P.
Proof. intros HE HQ w HI. split; [done|]. split; [by repeat constructor|done]. Qed.

Lemma triple_httpGet (I : G -> Prop) (E : Event -> Prop) env url P :
  E (EvHttpGet url) -> triple I E (httpGet env url) (fun _ => True) P.
Proof. intros HE w HI. split; [done|]. split; [by repeat constructor|done]. Qed.

Lemma triple_botSend (I : G -> Prop) (E : Event -> Prop) env chat msg P :
  E (EvSend chat msg) -> triple I E (botSend env chat msg) (fun _ => True) P.
Proof. intros HE w HI. split; [done|]. split; [by repeat constructor|done]. Qed.

Lemma triple_if {A} (I : G -> Prop) E (b : bool) (m1 m2 : M G A) Q P :
  triple I E m1 Q P -> triple I E m2 Q P -> triple I E (if b then m1 else m2) Q P.
Proof. by destruct b. Qed.

End TripleRules.

(** ** The volume fetcher: what a sample is, what a panic is *)

Lemma JString_or_not (v : JSON) : (exists s, v = JString s) \/ (forall s, v <> JString s).
Proof. destruct v; try (right; discriminate). left. by eexists. Qed.

Section FetcherSpecs.
Context {G : Type} (env : Env).

(** What the second half of the fetcher returns, case by case. *)
Lemma volumeOfKlines_cases klines (w : World G) :
  volumeOfKlines env klines w =
    (Done (None, Some (Errorf "insufficient kline data" None)), w, []) \/
  (exists msg, klinePanic msg /\ volumeOfKlines env klines w = (Panicked msg, w, [])) \/
  (exists s0 s1,
      volumeField klines 0 s0 /\ volumeField klines 1 s1 /\
      volumeOfKlines env klines w =
        (Done (if PrimFloat.eqb (parsed (ParseFloat env s0)) 0
               then (None, None)
               else (Some {| PrevVolume := parsed (ParseFloat env s0);
                             CurrVolume := parsed (ParseFloat env s1);
                             Ratio := PrimFloat.div (parsed (ParseFloat env s1))
                                                    (parsed (ParseFloat env s0)) |}, None)),
         w, [])).
Proof.
  destruct (Nat.ltb_spec (length klines) 2) as [Hlt|Hge].
  { left. by apply volumeOfKlines_short. }
  right.
  assert (Hpanic : forall msg, klinePanic msg ->
             volumeOfKlines env klines w = (Panicked msg, w, []) ->
             (exists msg, klinePanic msg /\
                          volumeOfKlines env klines w = (Panicked msg, w, [])) \/
             (exists s0 s1 : string,
                 volumeField klines 0 s0 /\ volumeField klines 1 s1 /\
                 volumeOfKlines env klines w =
                   (Done (if PrimFloat.eqb (parsed (ParseFloat env s0)) 0
                          then (None, None)
                          else (Some {| PrevVolume := parsed (ParseFloat env s0);
                                        CurrVolume := parsed (ParseFloat env s1);
                                        Ratio := PrimFloat.div (parsed (ParseFloat env s1))
                                                   (parsed (ParseFloat env s0)) |}, None)),
                    w, []))).
  { intros msg Hm Hr. left. by exists msg. }
  destruct (klines !! 0%nat) as [k0|] eqn:Hk0;
    [|apply lookup_ge_None in Hk0; lia].
  destruct (klines !! 1%nat) as [k1|] eqn:Hk1;
    [|apply lookup_ge_None in Hk1; lia].
  assert (Hunf : forall r,
             (k0' ← index klines 0;
              v0 ← index k0' 5;
              s0 ← assertString v0;
              k1' ← index klines 1;
              v1 ← index k1' 5;
              s1 ← assertString v1;
              if PrimFloat.eqb (parsed (ParseFloat env s0)) 0 then mret (None, None) else
              mret (Some {| PrevVolume := parsed (ParseFloat env s0);
                            CurrVolume := parsed (ParseFloat env s1);
                            Ratio := PrimFloat.div (parsed (ParseFloat env s1))
                                                   (parsed (ParseFloat env s0)) |}, None)) w = r ->
             volumeOfKlines env klines w = r).
  { intros r <-. unfold volumeOfKlines.
    destruct (Nat.ltb_spec (length klines) 2); [lia|reflexivity]. }
  destruct (k0 !! 5%nat) as [v0|] eqn:Hv0.
  2:{ apply (Hpanic "index out of range"); [by left|]. apply Hunf.
      unfold index, mbind, M_bind, bind. rewrite Hk0. simpl. rewrite Hv0. reflexivity. }
  destruct (JString_or_not v0) as [[s0 ->]|Hns0].
  2:{ apply (Hpanic "interface conversion: interface {} is not string"); [by right|].
      apply Hunf. unfold index, mbind, M_bind, bind. rewrite Hk0. simpl. rewrite Hv0. simpl.
      destruct v0; try reflexivity. by destruct (Hns0 s). }
  destruct (k1 !! 5%nat) as [v1|] eqn:Hv1.
  2:{ apply (Hpanic "index out of range"); [by left|]. apply Hunf.
      unfold index, mbind, M_bind, bind. rewrite Hk0. simpl. rewrite Hv0. simpl.
      rewrite Hk1. simpl. rewrite Hv1. reflexivity. }
  destruct (JString_or_not v1) as [[s1 ->]|Hns1].
  2:{ apply (Hpanic "interface conversion: interface {} is not string"); [by right|].
      apply Hunf. unfold index, mbind, M_bind, bind. rewrite Hk0. simpl. rewrite Hv0. simpl.
      rewrite Hk1. simpl. rewrite Hv1. simpl.
      destruct v1; try reflexivity. by destruct (Hns1 s). }
  right. exists s0, s1.
  assert (H0 : volumeField klines 0 s0) by (by exists k0).
  assert (H1 : volumeField klines 1 s1) by (by exists k1).
  split; [done|]. split; [done|]. by apply volumeOfKlines_strings.
Qed.

End FetcherSpecs.

Section FetcherResults.
Context {G : Type}.

(** X1. Whatever the exchange answers, a sample that [getBinanceVolume]
    returns comes without an error, has a previous-period volume that is
    not zero, and carries the ratio current/previous of its own two
    volumes. *)
Theorem X1_sample_is_consistent (env : Env) (symbol : string) (w : World G)
    (sample : option VolumeData) (err : option error) :
  result_of (getBinanceVolume env symbol w) = Done (sample, err) ->
  forall data, sample = Some data ->
    err = None /\
    PrimFloat.eqb (PrevVolume data) 0 = false /\
    Ratio data = PrimFloat.div (CurrVolume data) (PrevVolume data).
Proof.
  unfold getBinanceVolume. mstep.
  destruct (http_Get env (clock w) (klinesURL symbol)) as [e|[status body]]; simpl.
  { intros [= <- <-]. discriminate. }
  destruct (Z.eqb status 400). { intros [= <- <-]. discriminate. }
  destruct body as [e|body]. { intros [= <- <-]. discriminate. }
  destruct (Unmarshal_klines body) as [e|klines]. { intros [= <- <-]. discriminate. }
  destruct (volumeOfKlines_cases env klines (tick w))
    as [->|[(msg & _ & ->)|(s0 & s1 & _ & _ & ->)]].
  - intros [= <- <-]. discriminate.
  - discriminate.
  - unfold result_of, after. simpl.
    destruct (PrimFloat.eqb (parsed (ParseFloat env s0)) 0) eqn:Hz.
    + intros [= <- <-]. discriminate.
    + intros [= <- <-] data [= <-]. simpl. done.
Qed.

Lemma volumeOfKlines_cells (env1 env2 : Env) (k1 k2 : list BinanceKline) (w : World G) :
  ParseFloat env1 = ParseFloat env2 ->
  (2 <= length k1)%nat -> (2 <= length k2)%nat ->
  volumeCell k1 0 = volumeCell k2 0 -> volumeCell k1 1 = volumeCell k2 1 ->
  volumeOfKlines env1 k1 w = volumeOfKlines env2 k2 w.
Proof.
  intros Hpf H1 H2 Hc0 Hc1. unfold volumeOfKlines. rewrite Hpf.
  destruct (Nat.ltb_spec (length k1) 2); [lia|].
  destruct (Nat.ltb_spec (length k2) 2); [lia|].
  unfold volumeCell in Hc0, Hc1.
  destruct (k1 !! 0%nat) as [a0|] eqn:Ha0; [|apply lookup_ge_None in Ha0; lia].
  destruct (k2 !! 0%nat) as [b0|] eqn:Hb0; [|apply lookup_ge_None in Hb0; lia].
  destruct (k1 !! 1%nat) as [a1|] eqn:Ha1; [|apply lookup_ge_None in Ha1; lia].
  destruct (k2 !! 1%nat) as [b1|] eqn:Hb1; [|apply lookup_ge_None in Hb1; lia].
  simpl in Hc0, Hc1.
  unfold index, mbind, M_bind, bind.
  rewrite Ha0, Hb0. simpl. rewrite Hc0.
  destruct (b0 !! 5%nat) as [v0|]; simpl; [|reflexivity].
  destruct v0; simpl; try reflexivity.
  rewrite Ha1, Hb1. simpl. rewrite Hc1. reflexivity.
Qed.

(** X2. Of a response it has decoded, [getBinanceVolume] reads two cells
    and nothing else: two responses that [json.Unmarshal] both accepts, with
    at least two records each, and that agree on the volume field (index 5)
    of record 0 and of record 1 give the same result, whatever else the
    decoded records hold.  (A response that [json.Unmarshal] rejects, as it
    does one with a number outside [float64] in any field, gives the
    unmarshal error whatever its volume fields hold.) *)
Theorem X2_fetcher_reads_two_cells (env1 env2 : Env) (symbol : string) (w : World G)
    (k1 k2 : list BinanceKline) :
  ParseFloat env1 = ParseFloat env2 ->
  decodesTo env1 w symbol k1 -> decodesTo env2 w symbol k2 ->
  (2 <= length k1)%nat -> (2 <= length k2)%nat ->
  volumeCell k1 0 = volumeCell k2 0 -> volumeCell k1 1 = volumeCell k2 1 ->
  getBinanceVolume env1 symbol w = getBinanceVolume env2 symbol w.
Proof.
  intros Hpf Hd1 Hd2 H1 H2 Hc0 Hc1.
  rewrite (getBinanceVolume_decoded env1 w symbol k1 Hd1).
  rewrite (getBinanceVolume_decoded env2 w symbol k2 Hd2).
  by rewrite (volumeOfKlines_cells env1 env2 k1 k2 (tick w) Hpf H1 H2 Hc0 Hc1).
Qed.

End FetcherResults.

Lemma X1_sample_is_consistent_witness :
  PrimFloat.eqb (PrevVolume sample6) 0 = false /\
  Ratio sample6 = PrimFloat.div (CurrVolume sample6) (PrevVolume sample6).
Proof.
  apply (X1_sample_is_consistent envRatio6 "ETHUSDT" (W0 tt) (Some sample6) None eq_refl
           sample6 eq_refl).
Defined.

Lemma envThreeCandles_decodesTo {G} (w : World G) symbol :
  decodesTo envThreeCandles w symbol threeCandles.
Proof.
  eexists 200, _. split; [reflexivity|]. split; [discriminate|reflexivity].
Defined.

Lemma X2_fetcher_reads_two_cells_witness :
  getBinanceVolume envThreeCandles "ETHUSDT" (W0 tt) =
  getBinanceVolume envRatio6 "ETHUSDT" (W0 tt).
Proof.
  apply (X2_fetcher_reads_two_cells envThreeCandles envRatio6 "ETHUSDT" (W0 tt)
           threeCandles (klinesOf (JString "100.0") (JString "600.0")) eq_refl
           (envThreeCandles_decodesTo _ _)
           (example_decodesTo _ (JString "100.0") (JString "600.0") _ eq_refl eq_refl)).
  - simpl. lia.
  - simpl. lia.
  - reflexivity.
  - reflexivity.
Defined.

Section FetcherTriples.
Context {G : Type} (env : Env).

Lemma getBinanceVolume_panics symbol (w : World G) msg :
  result_of (getBinanceVolume env symbol w) = Panicked msg -> klinePanic msg.
Proof.
  unfold getBinanceVolume. mstep.
  destruct (http_Get env (clock w) (klinesURL symbol)) as [e|[status body]]; simpl;
    [discriminate|].
  destruct (Z.eqb status 400); [discriminate|].
  destruct body as [e|body]; [discriminate|].
  destruct (Unmarshal_klines body) as [e|klines]; [discriminate|].
  destruct (volumeOfKlines_cases env klines (tick w))
    as [->|[(msg' & Hm & ->)|(s0 & s1 & _ & _ & ->)]]; try discriminate.
  by intros [= <-].
Qed.

Lemma getBinanceVolume_wellFormed symbol (w : World G) :
  wellFormedKlines env -> exists r, result_of (getBinanceVolume env symbol w) = Done r.
Proof.
  intros Hwf. unfold getBinanceVolume. mstep.
  destruct (http_Get env (clock w) (klinesURL symbol)) as [e|[status body]] eqn:Hget; simpl;
    [by eexists|].
  destruct (Z.eqb_spec status 400) as [->|Hs]; [by eexists|].
  destruct body as [e|body]; [by eexists|].
  destruct (Unmarshal_klines body) as [e|klines] eqn:Hd; [by eexists|].
  destruct (Nat.ltb_spec (length klines) 2) as [Hlt|Hge].
  - rewrite (volumeOfKlines_short env klines _ Hlt). by eexists.
  - destruct (Hwf _ _ _ _ _ Hget Hs Hd Hge) as (s0 & s1 & H0 & H1).
    rewrite (volumeOfKlines_strings env klines s0 s1 _ H0 H1). by eexists.
Qed.

Lemma getBinanceVolume_sampleOk symbol (w : World G) r :
  result_of (getBinanceVolume env symbol w) = Done r -> sampleOk r.
Proof.
  unfold getBinanceVolume. mstep.
  destruct (http_Get env (clock w) (klinesURL symbol)) as [e|[status body]]; simpl.
  { by intros [= <-] d. }
  destruct (Z.eqb status 400). { by intros [= <-] d. }
  destruct body as [e|body]. { by intros [= <-] d. }
  destruct (Unmarshal_klines body) as [e|klines]. { by intros [= <-] d. }
  destruct (volumeOfKlines_cases env klines (tick w))
    as [->|[(msg & _ & ->)|(s0 & s1 & _ & _ & ->)]]; [by intros [= <-] d|done|].
  unfold result_of, after. simpl.
  destruct (PrimFloat.eqb (parsed (ParseFloat env s0)) 0) eqn:Hz; [by intros [= <-] d|].
  intros [= <-] d [= <-]. done.
Qed.

Lemma triple_getBinanceVolume (I : G -> Prop) (E : Event -> Prop) symbol
    (P : string -> Prop) :
  (forall msg, klinePanic msg -> P msg) \/ (wellFormedKlines env) ->
  E (EvHttpGet (klinesURL symbol)) ->
  triple I E (getBinanceVolume env symbol) sampleOk P.
Proof.
  intros HP HE w HI.
  destruct (getBinanceVolume_shape env symbol w) as [r Hr].
  pose proof (getBinanceVolume_panics symbol w) as Hpanic.
  pose proof (getBinanceVolume_wellFormed symbol w) as Hwf.
  pose proof (getBinanceVolume_sampleOk symbol w) as Hok.
  rewrite Hr in *. unfold world_of, events_of, result_of in *. simpl in *.
  split; [done|]. split; [by repeat constructor|].
  destruct r as [a|msg]; [by apply Hok|].
  destruct HP as [HP|HP].
  - apply HP. by apply Hpanic.
  - by destruct (Hwf HP).
Qed.

Lemma triple_getMarketCapRank (I : G -> Prop) (E : Event -> Prop) (P : string -> Prop) :
  E (EvHttpGet rankURL) ->
  triple I E (getMarketCapRank env) (fun _ => True) P.
Proof.
  intros HE w HI. destruct (getMarketCapRank_shape env w) as (symbols & err & ->).
  split; [done|]. split; [by repeat constructor|done].
Qed.

Lemma triple_logPrintf (I : G -> Prop) (E : Event -> Prop) entry (P : string -> Prop) :
  E (EvLog entry) -> triple I E (logPrintf entry) (fun _ => True) P.
Proof. intros HE. by apply triple_emit. Qed.

Lemma triple_fmtPrintf (I : G -> Prop) (E : Event -> Prop) entry (P : string -> Prop) :
  E (EvPrint entry) -> triple I E (fmtPrintf entry) (fun _ => True) P.
Proof. intros HE. by apply triple_emit. Qed.

Lemma triple_timeSleep (I : G -> Prop) (E : Event -> Prop) ms (P : string -> Prop) :
  E (EvSleep ms) -> triple I E (timeSleep ms) (fun _ => True) P.
Proof. intros HE. by apply triple_emit. Qed.

End FetcherTriples.

(** ** The goroutine of the multi-session bot: what it keeps, how it can end *)

Lemma applyStores_is_Some (l : list (Z * bool)) (m : gmap Z bool) (k : Z) :
  is_Some (m !! k) -> is_Some (Multi.applyStores l m !! k).
Proof.
  revert m. induction l as [|[k' v] l IH]; intros m Hm; simpl; [done|].
  apply IH. simpl. destruct (decide (k' = k)) as [->|Hne].
  - rewrite lookup_insert_eq. by eexists.
  - by rewrite lookup_insert_ne.
Qed.

Section MultiSpec.
Context (env : Env) (chatID : Z) (P : string -> Prop).
Hypothesis HP : (forall msg, klinePanic msg -> P msg) \/ wellFormedKlines env.

Lemma flagKept_synced (g : Multi.Globals) t :
  flagKept env chatID g ->
  flagKept env chatID
    {| Multi.monitoringStatus := Multi.applyStores (map_stores env t) (Multi.monitoringStatus g);
       Multi.files := Multi.files g |}.
Proof.
  intros [Hs Hq]. split; simpl.
  - by apply applyStores_is_Some.
  - intros Hquiet. rewrite (Hquiet t). simpl. by apply Hq.
Qed.

Lemma triple_Load_kept F :
  triple (sessionInv env chatID F) (ownSound chatID) (Multi.Load env chatID)
    (fun v => is_Some v /\ (storesQuiet env -> v = Some true)) P.
Proof.
  intros w [HI HF]. rewrite MultiFacts.multi_Load_run.
  unfold world_of, events_of, result_of. simpl.
  pose proof (flagKept_synced (globals w) (clock w) HI) as [Hs Hq]. simpl in Hs, Hq.
  split; [by split|]. split; [|by split].
  repeat constructor. simpl. unfold Multi.seen. intros Heq.
  rewrite Heq in Hs. by destruct Hs.
Qed.

Lemma triple_assertBool (I : Multi.Globals -> Prop) E (v : option bool) :
  is_Some v -> triple I E (Multi.assertBool v) (fun b => v = Some b) P.
Proof. intros [b ->]. by apply triple_ret. Qed.

Lemma triple_saveMonitoringStatus :
  triple (flagKept env chatID) (ownSound chatID) (Multi.saveMonitoringStatus env)
    (fun _ => True) P.
Proof.
  intros w HI.
  pose proof (flagKept_synced (globals w) (clock w) HI) as HI'.
  unfold Multi.saveMonitoringStatus, Multi.Range, Multi.WriteFile, Multi.sync,
    logPrintf, mbind, M_bind, bind, now, getG, putG, emit, mret, M_ret, ret,
    world_of, events_of, result_of.
  simpl. destruct (WriteFile_err env (S (clock w))) as [e|]; simpl;
    (split; [exact HI'|]); (split; [by repeat constructor|done]).
Qed.

Lemma triple_multi_sendAlert symbol data F :
  soundSample data ->
  triple (sessionInv env chatID F) (ownSound chatID) (Multi.sendAlert env chatID symbol data)
    (fun _ => True) P.
Proof.
  intros Hd. unfold Multi.sendAlert. eapply triple_bind; [by apply triple_botSend|].
  intros [e|] _; [by apply triple_logPrintf|by apply triple_ret].
Qed.

Lemma triple_multi_checkSymbol symbol F :
  triple (sessionInv env chatID F) (ownSound chatID) (Multi.checkSymbol env chatID symbol)
    (fun c => storesQuiet env -> c = Next) P.
Proof.
  unfold Multi.checkSymbol.
  eapply triple_bind; [apply (triple_Load_kept F)|]. intros v [Hv Hq].
  eapply triple_bind; [by apply triple_assertBool|]. intros b ->.
  destruct b; simpl.
  2:{ apply triple_ret. intros Hquiet. by specialize (Hq Hquiet). }
  eapply triple_bind; [by apply triple_getBinanceVolume|]. intros [vd [e|]] Hok.
  - eapply triple_bind; [by apply triple_logPrintf|]. intros _ _. by apply triple_ret.
  - eapply triple_bind.
    { instantiate (1 := fun _ => True). destruct vd as [d|]; [|by apply triple_ret].
      destruct (PrimFloat.ltb 5 (Ratio d)) eqn:Hgt; [|by apply triple_ret].
      apply (triple_multi_sendAlert _ _ F). by destruct (Hok d eq_refl) as (_ & Hz & Hr). }
    intros _ _. eapply triple_bind; [by apply triple_timeSleep|].
    intros _ _. by apply triple_ret.
Qed.

Lemma triple_multi_forSymbols symbols F :
  triple (sessionInv env chatID F) (ownSound chatID) (Multi.forSymbols env chatID symbols)
    (fun c => storesQuiet env -> c = Next) P.
Proof.
  induction symbols as [|symbol rest IH]; simpl; [by apply triple_ret|].
  eapply triple_bind; [apply (triple_multi_checkSymbol _ F)|].
  intros [|] Hc; [exact IH|by apply triple_ret].
Qed.

Lemma triple_multi_monitorLoop fuel F :
  triple (sessionInv env chatID F) (ownSound chatID) (Multi.monitorLoop env fuel chatID)
    (fun r => storesQuiet env -> r = Running) P.
Proof.
  induction fuel as [|n IH]; simpl; [by apply triple_ret|].
  eapply triple_bind; [apply (triple_Load_kept F)|]. intros v [Hv Hq].
  eapply triple_bind; [by apply triple_assertBool|]. intros b ->.
  destruct b; simpl.
  2:{ apply triple_ret. intros Hquiet. by specialize (Hq Hquiet). }
  eapply triple_bind; [by apply triple_getMarketCapRank|]. intros [symbols [e|]] _.
  - eapply triple_bind; [by apply triple_logPrintf|]. intros _ _.
    eapply triple_bind; [by apply triple_timeSleep|]. intros _ _. exact IH.
  - eapply triple_bind; [apply (triple_multi_forSymbols _ F)|]. intros [|] Hc.
    + eapply triple_bind; [by apply triple_logPrintf|]. intros _ _.
      eapply triple_bind; [by apply triple_timeSleep|]. intros _ _. exact IH.
    + apply triple_ret. intros Hquiet. by specialize (Hc Hquiet).
Qed.

(** The whole goroutine: the first store gives the session its flag, and
    after the save of the prologue the files stay as they are. *)
Lemma multi_startMonitoring_spec fuel (w : World Multi.Globals) :
  let x := Multi.startMonitoring env fuel chatID w in
  flagKept env chatID (globals (world_of x)) /\
  Multi.files (globals (world_of x)) =
    Multi.files (globals (world_of
      ((Multi.Store chatID true ≫= fun _ => Multi.saveMonitoringStatus env) w))) /\
  Forall (ownSound chatID) (events_of x) /\
  match result_of x with
  | Done r => storesQuiet env -> r = Running
  | Panicked msg => P msg
  end.
Proof.
  intros x. subst x. unfold Multi.startMonitoring.
  assert (HS : Multi.Store chatID true w =
            (Done tt, world_of (Multi.Store chatID true w), [EvStore chatID true]))
    by reflexivity.
  set (w1 := world_of (Multi.Store chatID true w)) in *.
  assert (HI : flagKept env chatID (globals w1)).
  { split; simpl; rewrite lookup_insert_eq; [by eexists|done]. }
  destruct (saveMonitoringStatus_shape env w1) as (w2 & data & tail & Hsave & Htail).
  destruct (triple_saveMonitoringStatus w1 HI) as (HI2 & HE2 & _).
  rewrite Hsave in HI2, HE2. unfold world_of, events_of in HI2, HE2. simpl in HI2, HE2.
  assert (Hrest : triple (sessionInv env chatID (Multi.files (globals w2)))
            (ownSound chatID)
            (botSend env chatID MsgStarted ≫= fun _ => Multi.monitorLoop env fuel chatID)
            (fun r => storesQuiet env -> r = Running) P).
  { eapply triple_bind; [by apply triple_botSend|]. intros _ _.
    apply triple_multi_monitorLoop. }
  destruct (Hrest w2 (conj HI2 eq_refl)) as ([H1 HF] & H2 & H3).
  rewrite (mbind_Done _ _ _ _ _ _ HS). rewrite (mbind_Done _ _ _ _ _ _ Hsave).
  erewrite (mbind_Done (Multi.Store chatID true)) by exact HS.
  rewrite Hsave.
  unfold world_of, events_of, result_of, after in *. simpl in *.
  split; [exact H1|]. split; [exact HF|]. split; [|exact H3].
  constructor; [done|].
  apply (Forall_app _ (EvRange :: EvWriteFile Multi.statusFile data :: tail)). by split.
Qed.

End MultiSpec.

(** ** The goroutine of the single-session bot and the console loop *)

Section SingleSpec.
Context (env : Env) (P : string -> Prop).
Hypothesis HP : (forall msg, klinePanic msg -> P msg) \/ wellFormedKlines env.

Lemma flagOn_synced (w : World Single.Globals) :
  flagOn env (globals w) -> flagOn env (globals (Single.synced env w)).
Proof.
  intros HI Hquiet. unfold Single.synced. simpl. rewrite (Hquiet (clock w)). simpl.
  by apply HI.
Qed.

Lemma triple_readMonitoring :
  triple (flagOn env) soundEvent (Single.readMonitoring env)
    (fun b => flagsQuiet env -> b = true) P.
Proof.
  intros w HI. rewrite SingleFacts.single_readMonitoring_run.
  unfold world_of, events_of, result_of. simpl.
  pose proof (flagOn_synced w HI) as HI'.
  split; [exact HI'|]. split; [by repeat constructor|]. exact HI'.
Qed.

Lemma triple_readChatID :
  triple (flagOn env) soundEvent (Single.readChatID env) (fun _ => True) P.
Proof.
  intros w HI. rewrite SingleFacts.single_readChatID_run.
  unfold world_of, events_of, result_of. simpl.
  split; [by apply flagOn_synced|]. split; [by repeat constructor|done].
Qed.

Lemma triple_single_sendAlert symbol data :
  soundSample data ->
  triple (flagOn env) soundEvent (Single.sendAlert env symbol data) (fun _ => True) P.
Proof.
  intros Hd. unfold Single.sendAlert.
  eapply triple_bind; [apply triple_readChatID|]. intros c _.
  eapply triple_bind; [by apply triple_botSend|].
  intros [e|] _; [by apply triple_logPrintf|by apply triple_ret].
Qed.

Lemma triple_single_checkSymbol symbol :
  triple (flagOn env) soundEvent (Single.checkSymbol env symbol)
    (fun c => flagsQuiet env -> c = Next) P.
Proof.
  unfold Single.checkSymbol.
  eapply triple_bind; [apply triple_readMonitoring|]. intros b Hq.
  destruct b; simpl.
  2:{ apply triple_ret. intros Hquiet. by specialize (Hq Hquiet). }
  eapply triple_bind; [by apply triple_getBinanceVolume|]. intros [vd [e|]] Hok.
  - eapply triple_bind; [by apply triple_logPrintf|]. intros _ _. by apply triple_ret.
  - eapply triple_bind.
    { instantiate (1 := fun _ => True). destruct vd as [d|]; [|by apply triple_ret].
      destruct (PrimFloat.ltb 5 (Ratio d)) eqn:Hgt; [|by apply triple_ret].
      apply triple_single_sendAlert. by destruct (Hok d eq_refl) as (_ & Hz & Hr). }
    intros _ _. eapply triple_bind; [by apply triple_timeSleep|].
    intros _ _. by apply triple_ret.
Qed.

Lemma triple_single_forSymbols symbols :
  triple (flagOn env) soundEvent (Single.forSymbols env symbols)
    (fun c => flagsQuiet env -> c = Next) P.
Proof.
  induction symbols as [|symbol rest IH]; simpl; [by apply triple_ret|].
  eapply triple_bind; [apply triple_single_checkSymbol|].
  intros [|] Hc; [exact IH|by apply triple_ret].
Qed.

Lemma triple_single_monitorLoop fuel :
  triple (flagOn env) soundEvent (Single.monitorLoop env fuel)
    (fun r => flagsQuiet env -> r = Running) P.
Proof.
  induction fuel as [|n IH]; simpl; [by apply triple_ret|].
  eapply triple_bind; [apply triple_readMonitoring|]. intros b Hq.
  destruct b; simpl.
  2:{ apply triple_ret. intros Hquiet. by specialize (Hq Hquiet). }
  eapply triple_bind; [by apply triple_getMarketCapRank|]. intros [symbols [e|]] _.
  - eapply triple_bind; [by apply triple_logPrintf|]. intros _ _.
    eapply triple_bind; [by apply triple_timeSleep|]. intros _ _. exact IH.
  - eapply triple_bind; [apply triple_single_forSymbols|]. intros [|] Hc.
    + eapply triple_bind; [by apply triple_logPrintf|]. intros _ _.
      eapply triple_bind; [by apply triple_timeSleep|]. intros _ _. exact IH.
    + apply triple_ret. intros Hquiet. by specialize (Hc Hquiet).
Qed.

Lemma single_startMonitoring_spec fuel (w : World Single.Globals) :
  Forall soundEvent (events_of (Single.startMonitoring env fuel w)) /\
  match result_of (Single.startMonitoring env fuel w) with
  | Done r => flagsQuiet env -> r = Running
  | Panicked msg => P msg
  end.
Proof.
  unfold Single.startMonitoring.
  assert (HS : Single.setMonitoring true w =
            (Done tt, world_of (Single.setMonitoring true w), [EvSetFlag true]))
    by reflexivity.
  mstep.
  assert (HI : flagOn env (globals (world_of (Single.setMonitoring true w)))) by done.
  assert (Hrest : triple (flagOn env) soundEvent
            (Single.readChatID env ≫= fun c =>
             botSend env c MsgStarted ≫= fun _ =>
             Single.monitorLoop env fuel)
            (fun r => flagsQuiet env -> r = Running) P).
  { eapply triple_bind; [apply triple_readChatID|]. intros c _.
    eapply triple_bind; [by apply triple_botSend|]. intros _ _.
    apply triple_single_monitorLoop. }
  destruct (Hrest _ HI) as (_ & H2 & H3).
  unfold result_of, events_of, after in *. simpl in *.
  split; [by constructor|exact H3].
Qed.

Lemma triple_console_checkSymbol symbol :
  triple (fun _ : unit => True) soundEvent (Console.checkSymbol env symbol)
    (fun c => c = Next) P.
Proof.
  unfold Console.checkSymbol.
  eapply triple_bind; [by apply triple_getBinanceVolume|]. intros [vd [e|]] Hok.
  - eapply triple_bind; [by apply triple_fmtPrintf|]. intros _ _. by apply triple_ret.
  - eapply triple_bind.
    { instantiate (1 := fun _ => True). destruct vd as [d|]; [|by apply triple_ret].
      destruct (PrimFloat.ltb 5 (Ratio d)) eqn:Hgt; [|by apply triple_ret].
      apply triple_emit; [|done]. by destruct (Hok d eq_refl) as (_ & Hz & Hr). }
    intros _ _. eapply triple_bind; [by apply triple_timeSleep|].
    intros _ _. by apply triple_ret.
Qed.

Lemma triple_console_forSymbols symbols :
  triple (fun _ : unit => True) soundEvent (Console.forSymbols env symbols)
    (fun c => c = Next) P.
Proof.
  induction symbols as [|symbol rest IH]; simpl; [by apply triple_ret|].
  eapply triple_bind; [apply triple_console_checkSymbol|].
  intros c ->. exact IH.
Qed.

Lemma triple_console_mainLoop fuel :
  triple (fun _ : unit => True) soundEvent (Console.mainLoop env fuel)
    (fun r => r = Running) P.
Proof.
  induction fuel as [|n IH]; simpl; [by apply triple_ret|].
  eapply triple_bind; [by apply triple_getMarketCapRank|]. intros [symbols [e|]] _.
  - eapply triple_bind; [by apply triple_fmtPrintf|]. intros _ _.
    eapply triple_bind; [by apply triple_timeSleep|]. intros _ _. exact IH.
  - eapply triple_bind; [apply triple_console_forSymbols|]. intros c ->.
    eapply triple_bind; [by apply triple_fmtPrintf|]. intros _ _.
    eapply triple_bind; [by apply triple_timeSleep|]. intros _ _. exact IH.
Qed.

Lemma console_main_spec fuel (w : World unit) :
  Forall soundEvent (events_of (Console.main env fuel w)) /\
  match result_of (Console.main env fuel w) with
  | Done r => r = Running
  | Panicked msg => P msg
  end.
Proof.
  unfold Console.main.
  assert (Hm : triple (fun _ : unit => True) soundEvent
            (fmtPrintf LogStarting ≫= fun _ => Console.mainLoop env fuel)
            (fun r => r = Running) P).
  { eapply triple_bind; [by apply triple_fmtPrintf|]. intros _ _.
    apply triple_console_mainLoop. }
  by destruct (Hm w I) as (_ & H2 & H3).
Qed.

End SingleSpec.

(** ** How the three loops can end *)

Lemma klinesWith_wellFormed s0 s1 flags stores :
  wellFormedKlines (exampleEnv (klinesWith (JString s0) (JString s1)) flags stores).
Proof.
  intros t url status body klines Hget _ Hd _.
  simpl in Hget. unfold klinesWith, ok200 in Hget. injection Hget as <- <-.
  simpl in Hd. injection Hd as <-.
  exists s0, s1. split; eexists; split; reflexivity.
Defined.

(** X3: whatever the environment answers and whatever the other goroutines
    do, a monitoring loop can only crash in the volume fetcher: a panic of
    any of the three loops is one of the two kline panics.  In particular
    the unchecked [.(bool)] assertion on the flag of the multi-session
    goroutine never fails: no load of its own flag finds the map entry
    missing. *)
Theorem X3_loops_crash_only_on_klines (env : Env) (fuel : nat) (chatID : Z)
    (wm : World Multi.Globals) (ws : World Single.Globals) (wc : World unit) :
  Forall (notNilLoad chatID) (events_of (Multi.startMonitoring env fuel chatID wm)) /\
  (forall msg, result_of (Multi.startMonitoring env fuel chatID wm) = Panicked msg ->
               klinePanic msg) /\
  (forall msg, result_of (Single.startMonitoring env fuel ws) = Panicked msg ->
               klinePanic msg) /\
  (forall msg, result_of (Console.main env fuel wc) = Panicked msg -> klinePanic msg).
Proof.
  assert (HP : (forall msg, klinePanic msg -> klinePanic msg) \/ wellFormedKlines env)
    by (left; auto).
  pose proof (multi_startMonitoring_spec env chatID klinePanic HP fuel wm) as (_ & _ & Hev & Hm).
  pose proof (single_startMonitoring_spec env klinePanic HP fuel ws) as [_ Hs].
  pose proof (console_main_spec env klinePanic HP fuel wc) as [_ Hc].
  split.
  { eapply Forall_impl; [exact Hev|]. intros e [He _] ->. simpl in He. by destruct He. } split; [|split]; intros msg Hr.
  - by rewrite Hr in Hm.
  - by rewrite Hr in Hs.
  - by rewrite Hr in Hc.
Qed.

(** X4: when every kline response that is read has strings in the volume
    fields of its first two records, none of the three loops panics,
    whatever else the environment does (failing requests, failing sends,
    other goroutines starting and stopping sessions). *)
Theorem X4_wellformed_klines_no_panic (env : Env) (fuel : nat) (chatID : Z)
    (wm : World Multi.Globals) (ws : World Single.Globals) (wc : World unit) :
  wellFormedKlines env ->
  (exists r, result_of (Multi.startMonitoring env fuel chatID wm) = Done r) /\
  (exists r, result_of (Single.startMonitoring env fuel ws) = Done r) /\
  (exists r, result_of (Console.main env fuel wc) = Done r).
Proof.
  intros Hwf.
  assert (HP : (forall msg, klinePanic msg -> False) \/ wellFormedKlines env)
    by (by right).
  pose proof (multi_startMonitoring_spec env chatID (fun _ => False) HP fuel wm)
    as (_ & _ & _ & Hm).
  pose proof (single_startMonitoring_spec env (fun _ => False) HP fuel ws) as [_ Hs].
  pose proof (console_main_spec env (fun _ => False) HP fuel wc) as [_ Hc].
  split; [|split].
  - destruct (result_of (Multi.startMonitoring env fuel chatID wm)); [by eexists|done].
  - destruct (result_of (Single.startMonitoring env fuel ws)); [by eexists|done].
  - destruct (result_of (Console.main env fuel wc)); [by eexists|done].
Qed.

Lemma X4_wellformed_klines_no_panic_witness :
  wellFormedKlines envStoppedMidCycle /\
  (exists r, result_of (Multi.startMonitoring envStoppedMidCycle 3 7 multiFresh) = Done r) /\
  (exists r, result_of (Single.startMonitoring envStoppedMidCycle 3 singleStopped) = Done r) /\
  (exists r, result_of (Console.main envStoppedMidCycle 3 (W0 tt)) = Done r).
Proof.
  split; [apply klinesWith_wellFormed|].
  apply (X4_wellformed_klines_no_panic envStoppedMidCycle 3 7 multiFresh singleStopped (W0 tt)).
  apply klinesWith_wellFormed.
Defined.

(** X5: a bot's monitoring goroutine does not stop by itself.  If no other
    goroutine writes the session's flag (the map of the multi-session bot,
    the global flag of the single-session bot), the goroutine never leaves
    its loop through the flag test: after any number of cycles it has not
    returned. *)
Theorem X5_goroutine_stops_only_when_told (env : Env) (fuel : nat) (chatID : Z)
    (wm : World Multi.Globals) (ws : World Single.Globals) :
  storesQuiet env -> flagsQuiet env ->
  result_of (Multi.startMonitoring env fuel chatID wm) <> Done Returned /\
  result_of (Single.startMonitoring env fuel ws) <> Done Returned.
Proof.
  intros Hst Hfl.
  assert (HP : (forall msg, klinePanic msg -> True) \/ wellFormedKlines env)
    by (by left).
  pose proof (multi_startMonitoring_spec env chatID (fun _ => True) HP fuel wm)
    as (_ & _ & _ & Hm).
  pose proof (single_startMonitoring_spec env (fun _ => True) HP fuel ws) as [_ Hs].
  split; intros Hr.
  - rewrite Hr in Hm. by specialize (Hm Hst).
  - rewrite Hr in Hs. by specialize (Hs Hfl).
Qed.

Lemma X5_goroutine_stops_only_when_told_witness :
  storesQuiet envRatio6 /\ flagsQuiet envRatio6 /\
  result_of (Multi.startMonitoring envRatio6 3 7 multiFresh) <> Done Returned /\
  result_of (Single.startMonitoring envRatio6 3 singleStopped) <> Done Returned.
Proof.
  split; [by intros t|]. split; [by intros t|].
  apply (X5_goroutine_stops_only_when_told envRatio6 3 7 multiFresh singleStopped);
    by intros t.
Defined.

(** X6: the console monitor has no way out of its loop: whatever the
    environment answers, after any number of cycles [main] has either
    panicked in the volume fetcher or is still running; it never returns. *)
Theorem X6_console_never_returns (env : Env) (fuel : nat) (w : World unit) :
  result_of (Console.main env fuel w) <> Done Returned.
Proof.
  assert (HP : (forall msg, klinePanic msg -> True) \/ wellFormedKlines env)
    by (by left).
  pose proof (console_main_spec env (fun _ => True) HP fuel w) as [_ Hc].
  intros Hr. by rewrite Hr in Hc.
Qed.

(** X7: the goroutine of a session of the multi-session bot touches that
    session only.  Whatever the environment does, every event of
    [startMonitoring(chatID)] is the session's own: the messages go to
    [chatID], the only flag loaded is [chatID]'s (and it is there), the only
    store is "running" for [chatID], the only file written is the status
    file, and no goroutine is started. *)
Theorem X7_session_goroutine_is_isolated (env : Env) (fuel : nat) (chatID : Z)
    (w : World Multi.Globals) :
  Forall (sessionEvent chatID) (events_of (Multi.startMonitoring env fuel chatID w)).
Proof.
  assert (HP : (forall msg, klinePanic msg -> True) \/ wellFormedKlines env)
    by (by left).
  destruct (multi_startMonitoring_spec env chatID (fun _ => True) HP fuel w)
    as (_ & _ & Hev & _).
  eapply Forall_impl; [exact Hev|]. by intros e [He _].
Qed.

(** ** The command goroutines *)

Section Handlers.
Context (env : Env).

Lemma safe_of_Done {G A} (m : M G A) :
  (forall w, exists a, result_of (m w) = Done a) -> safe m.
Proof.
  intros H w _. split; [done|]. split; [apply Forall_forall; done|].
  destruct (H w) as [a ->]. done.
Qed.

Lemma safe_bind {G A B} (m : M G A) (f : A -> M G B) :
  safe m -> (forall a, safe (f a)) -> safe (m ≫= f).
Proof. intros Hm Hf. eapply triple_bind; [exact Hm|]. intros a _. apply Hf. Qed.

Lemma safe_ret {G A} (a : A) : safe (mret a : M G A).
Proof. by apply triple_ret. Qed.

Lemma safe_botSend {G} chat msg : safe (botSend (G:=G) env chat msg).
Proof. by apply triple_botSend. Qed.

Lemma safe_logPrintf {G} entry : safe (logPrintf (G:=G) entry).
Proof. by apply triple_logPrintf. Qed.

Lemma safe_Load chatID : safe (Multi.Load env chatID).
Proof. apply safe_of_Done. intros w. rewrite MultiFacts.multi_Load_run. by eexists. Qed.

Lemma safe_Store chatID b : safe (Multi.Store chatID b).
Proof. apply safe_of_Done. intros w. by eexists. Qed.

Lemma safe_saveMonitoringStatus : safe (Multi.saveMonitoringStatus env).
Proof.
  apply safe_of_Done. intros w.
  destruct (saveMonitoringStatus_shape env w) as (w' & data & tail & -> & _). by eexists.
Qed.

Lemma safe_stopMonitoring chatID : safe (Multi.stopMonitoring env chatID).
Proof.
  unfold Multi.stopMonitoring.
  apply safe_bind; [apply safe_Store|]. intros _.
  apply safe_bind; [apply safe_saveMonitoringStatus|]. intros _.
  apply safe_bind; [apply safe_botSend|]. intros _. apply safe_ret.
Qed.

Lemma safe_multi_handleUpdate update : safe (Multi.handleUpdate env update).
Proof.
  unfold Multi.handleUpdate. destruct (UpdMessage update) as [msg|]; [|apply safe_ret].
  destruct (negb (IsCommand msg)); [apply safe_ret|].
  repeat (match goal with |- context [String.eqb ?a ?b] => destruct (String.eqb a b) end);
    try apply safe_ret.
  - apply safe_bind; [apply safe_botSend|]. intros _. apply safe_ret.
  - apply safe_bind; [apply safe_Load|]. intros v.
    destruct (negb (Multi.isMonitoring v)).
    + by apply triple_emit.
    + apply safe_bind; [apply safe_botSend|]. intros _. apply safe_ret.
  - apply safe_bind; [apply safe_Load|]. intros v.
    destruct (Multi.isMonitoring v).
    + apply safe_stopMonitoring.
    + apply safe_bind; [apply safe_botSend|]. intros _. apply safe_ret.
  - apply safe_bind; [apply safe_Load|]. intros v.
    apply safe_bind; [apply safe_botSend|]. intros _. apply safe_ret.
Qed.

Lemma safe_multi_handleCommands updates : safe (Multi.handleCommands env updates).
Proof.
  induction updates as [|u rest IH]; simpl; [apply safe_ret|].
  apply safe_bind; [apply safe_multi_handleUpdate|]. intros _. exact IH.
Qed.

Lemma safe_resume entries : safe (Multi.resume entries).
Proof.
  apply safe_of_Done. intros w.
  destruct (resume_run entries w) as (w' & evs & -> & _). by eexists.
Qed.

Lemma safe_loadMonitoringStatus : safe (Multi.loadMonitoringStatus env).
Proof.
  unfold Multi.loadMonitoringStatus. apply safe_bind.
  { apply safe_of_Done. intros w.
    unfold Multi.ReadFile, mbind, M_bind, bind, now, getG, putG, emit, mret, M_ret, ret,
      result_of. simpl.
    destruct (Multi.files (globals w) !! Multi.statusFile); [|by eexists].
    destruct (ReadFile_err env (clock w)); by eexists. }
  intros [e|data].
  - destruct (negb (Multi.IsNotExist e)); [apply safe_logPrintf|apply safe_ret].
  - destruct (Multi.Unmarshal_statusMap data); [apply safe_logPrintf|apply safe_resume].
Qed.

Lemma safe_readMonitoring : safe (Single.readMonitoring env).
Proof.
  apply safe_of_Done. intros w. rewrite SingleFacts.single_readMonitoring_run. by eexists.
Qed.

Lemma safe_readChatID : safe (Single.readChatID env).
Proof.
  apply safe_of_Done. intros w. rewrite SingleFacts.single_readChatID_run. by eexists.
Qed.

Lemma safe_reply msg :
  safe (Single.readChatID env ≫= fun c => botSend env c msg ≫= fun _ => mret tt).
Proof.
  apply safe_bind; [apply safe_readChatID|]. intros c.
  apply safe_bind; [apply safe_botSend|]. intros _. apply safe_ret.
Qed.

Lemma safe_single_handleUpdate update : safe (Single.handleUpdate env update).
Proof.
  unfold Single.handleUpdate. destruct (UpdMessage update) as [msg|]; [|apply safe_ret].
  apply safe_bind; [apply safe_of_Done; intros w; by eexists|]. intros _.
  destruct (negb (IsCommand msg)); [apply safe_ret|].
  repeat (match goal with |- context [String.eqb ?a ?b] => destruct (String.eqb a b) end);
    try apply safe_ret.
  - apply safe_reply.
  - apply safe_bind; [apply safe_readMonitoring|]. intros b.
    destruct (negb b); [by apply triple_emit|apply safe_reply].
  - apply safe_bind; [apply safe_readMonitoring|]. intros b.
    destruct b; [|apply safe_reply].
    unfold Single.stopMonitoring.
    apply safe_bind; [apply safe_of_Done; intros w; by eexists|]. intros _.
    apply safe_reply.
  - apply safe_bind; [apply safe_readMonitoring|]. intros b. apply safe_reply.
Qed.

Lemma safe_single_handleCommands updates : safe (Single.handleCommands env updates).
Proof.
  induction updates as [|u rest IH]; simpl; [apply safe_ret|].
  apply safe_bind; [apply safe_single_handleUpdate|]. intros _. exact IH.
Qed.

End Handlers.

(** X8: no panic comes from the code of the command goroutine.  Whatever
    status file is found at start-up (absent, unreadable, damaged, or
    listing any sessions), whatever updates arrive (no message, no command,
    unknown commands, commands for a session the map has never seen) and
    whatever the other goroutines do to the shared state,
    [loadMonitoringStatus] and then [handleCommands] run through every
    update without a panic of their own: the [.(bool)] assertions of the
    handler are guarded by the nil test.  (A panic of a monitoring goroutine
    ends the process all the same; that is the matter of [main].) *)
Theorem X8_command_goroutine_never_panics (env : Env) (updates : list Update)
    (wm : World Multi.Globals) (ws : World Single.Globals) :
  result_of ((Multi.loadMonitoringStatus env ≫= fun _ =>
              Multi.handleCommands env updates) wm) = Done tt /\
  result_of (Single.handleCommands env updates ws) = Done tt.
Proof.
  assert (Hm : safe (Multi.loadMonitoringStatus env ≫= fun _ =>
                     Multi.handleCommands env updates)).
  { apply safe_bind; [apply safe_loadMonitoringStatus|]. intros _.
    apply safe_multi_handleCommands. }
  pose proof (safe_single_handleCommands env updates) as Hs.
  destruct (Hm wm I) as (_ & _ & H1). destruct (Hs ws I) as (_ & _ & H2).
  split.
  - by destruct (result_of _) as [[]|] in H1 |- *.
  - by destruct (result_of _) as [[]|] in H2 |- *.
Qed.

(** ** The chat the single-session bot answers to *)

Section SingleChat.
Context (env : Env) (c : Z).
Hypothesis Hquiet : chatQuiet env.

Lemma chat_synced (w : World Single.Globals) :
  Single.chatID (globals w) = c -> Single.chatID (globals (Single.synced env w)) = c.
Proof. intros HI. unfold Single.synced. simpl. by rewrite (Hquiet (clock w)). Qed.

Lemma triple_readChatID_own :
  triple (fun g => Single.chatID g = c) (addressedTo c) (Single.readChatID env)
    (fun c' => c' = c) (fun _ => False).
Proof.
  intros w HI. rewrite SingleFacts.single_readChatID_run.
  unfold world_of, events_of, result_of. simpl.
  pose proof (chat_synced w HI) as HI'.
  split; [exact HI'|]. split; [|exact HI']. repeat constructor. exact HI'.
Qed.

Lemma triple_readMonitoring_own :
  triple (fun g => Single.chatID g = c) (addressedTo c) (Single.readMonitoring env)
    (fun _ => True) (fun _ => False).
Proof.
  intros w HI. rewrite SingleFacts.single_readMonitoring_run.
  unfold world_of, events_of, result_of. simpl.
  split; [by apply chat_synced|]. split; [by repeat constructor|done].
Qed.

Lemma triple_reply_own msg :
  triple (fun g => Single.chatID g = c) (addressedTo c)
    (Single.readChatID env ≫= fun c' => botSend env c' msg ≫= fun _ => mret tt)
    (fun _ => True) (fun _ => False).
Proof.
  eapply triple_bind; [apply triple_readChatID_own|]. intros c' ->.
  eapply triple_bind; [by apply triple_botSend|]. intros _ _. by apply triple_ret.
Qed.

Lemma single_handleUpdate_own update msg (w : World Single.Globals) :
  UpdMessage update = Some msg -> ChatID msg = c ->
  let x := Single.handleUpdate env update w in
  Single.chatID (globals (world_of x)) = c /\
  Forall (addressedTo c) (events_of x) /\
  result_of x = Done tt.
Proof.
  intros Hmsg Hc x. subst x. unfold Single.handleUpdate. rewrite Hmsg, Hc.
  assert (HS : Single.setChatID c w =
            (Done tt, world_of (Single.setChatID c w), [EvSetChat c])) by reflexivity.
  mstep.
  set (rest := if negb (IsCommand msg) then _ else _).
  assert (Hrest : triple (fun g => Single.chatID g = c) (addressedTo c) rest
                    (fun _ => True) (fun _ => False)).
  { subst rest. destruct (negb (IsCommand msg)); [by apply triple_ret|].
    repeat (match goal with |- context [String.eqb ?a ?b] => destruct (String.eqb a b) end);
      try (by apply triple_ret).
    - apply triple_reply_own.
    - eapply triple_bind; [apply triple_readMonitoring_own|]. intros b _.
      destruct (negb b); [by apply triple_emit|apply triple_reply_own].
    - eapply triple_bind; [apply triple_readMonitoring_own|]. intros b _.
      destruct b; [|apply triple_reply_own].
      unfold Single.stopMonitoring. eapply triple_bind; [|intros _ _; apply triple_reply_own].
      instantiate (1 := fun _ => True). intros w' HI.
      split; [done|]. split; [by repeat constructor|done].
    - eapply triple_bind; [apply triple_readMonitoring_own|]. intros b _.
      eapply triple_bind; [apply triple_readChatID_own|]. intros c' ->.
      eapply triple_bind; [by apply triple_botSend|]. intros _ _. by apply triple_ret. }
  destruct (Hrest (world_of (Single.setChatID c w)) eq_refl) as (H1 & H2 & H3).
  unfold world_of, events_of, result_of, after in *. simpl in *.
  split; [exact H1|]. split; [by constructor|].
  by destruct (rest _) as [[[[]|] ?] ?].
Qed.

End SingleChat.

(** X9: the single-session bot answers to the chat of the last message it
    received, whoever started the monitoring.  Handling any update that
    carries a message, a command or not, sends every reply to the chat of
    that message, and an alert sent after it goes to that chat too. *)
Theorem X9_single_bot_follows_last_message (env : Env) (update : Update)
    (msg : ChatMessage) (symbol : string) (data : VolumeData) (w : World Single.Globals) :
  chatQuiet env ->
  UpdMessage update = Some msg ->
  let x := Single.handleUpdate env update w in
  result_of x = Done tt /\
  Forall (addressedTo (ChatID msg)) (events_of x) /\
  exists tail,
    events_of (Single.sendAlert env symbol data (world_of x)) =
      EvReadChat (ChatID msg) :: EvSend (ChatID msg) (MsgAlert symbol data) :: tail.
Proof.
  intros Hquiet Hmsg x.
  destruct (single_handleUpdate_own env (ChatID msg) Hquiet update msg w Hmsg eq_refl)
    as (Hc & Hev & Hr).
  fold x in Hc, Hev, Hr. split; [exact Hr|]. split; [exact Hev|].
  destruct (SingleFacts.single_sendAlert_run env symbol data (world_of x)) as [w' ->].
  unfold events_of. simpl.
  assert (Hseen : Single.seenChat env (world_of x) = ChatID msg).
  { unfold Single.seenChat. by apply chat_synced. }
  rewrite Hseen. by eexists.
Qed.

Lemma X9_single_bot_follows_last_message_witness :
  exists tail,
    events_of (Single.sendAlert envRatio6 "ETHUSDT" sample6
                 (world_of (Single.handleUpdate envRatio6 chatter singleRunning))) =
      EvReadChat 42 :: EvSend 42 (MsgAlert "ETHUSDT" sample6) :: tail.
Proof.
  assert (Hquiet : chatQuiet envRatio6) by (by intros t).
  exact (proj2 (proj2 (X9_single_bot_follows_last_message envRatio6 chatter
                         {| ChatID := 42; IsCommand := false; Command := "" |}
                         "ETHUSDT" sample6 singleRunning Hquiet eq_refl))).
Defined.

(** ** Start-up from any status file *)

Section Restore.
Import Multi.
Context (env : Env).

Lemma ReadFile_run_ok (w : World Globals) content :
  files (globals w) !! statusFile = Some content ->
  ReadFile_err env (clock w) = None ->
  ReadFile env statusFile w = (Done (inr content), tick w, [EvReadFile statusFile]).
Proof.
  intros Hfile Hread.
  unfold ReadFile, mbind, M_bind, bind, now, getG, putG, emit, mret, M_ret, ret.
  simpl. rewrite Hfile, Hread. reflexivity.
Qed.

Lemma ReadFile_run_err (w : World Globals) content e :
  files (globals w) !! statusFile = Some content ->
  ReadFile_err env (clock w) = Some e ->
  ReadFile env statusFile w = (Done (inl e), tick w, [EvReadFile statusFile]).
Proof.
  intros Hfile Hread.
  unfold ReadFile, mbind, M_bind, bind, now, getG, putG, emit, mret, M_ret, ret.
  simpl. rewrite Hfile, Hread. reflexivity.
Qed.

Lemma Unmarshal_bad_entry kvs kv :
  kv ∈ kvs -> Unmarshal_entry kv = None ->
  Unmarshal_statusMap (Some (JObject kvs)) = inl JSONTypeError.
Proof.
  intros Hin Hbad. unfold Unmarshal_statusMap.
  destruct (mapM Unmarshal_entry kvs) as [entries|] eqn:Hm; [|done].
  assert (Hall : Forall (is_Some ∘ Unmarshal_entry) kvs).
  { apply mapM_is_Some. by eexists. }
  rewrite Forall_forall in Hall. specialize (Hall kv Hin). simpl in Hall.
  rewrite Hbad in Hall. by destruct Hall.
Qed.

End Restore.

(** X10: a damaged status file restores nothing.  If one member of the
    object in the file has a key that is no int64 or a value that is no
    boolean, start-up logs the error and goes on with the map as it was: no
    flag is stored and no monitoring loop is started, not even for the
    members of the file that are well formed. *)
Theorem X10_damaged_file_restores_nothing (env : Env) (w : World Multi.Globals)
    (members : list (string * JSON)) (member : string * JSON) :
  Multi.files (globals w) !! Multi.statusFile = Some (Some (JObject members)) ->
  member ∈ members ->
  Multi.Unmarshal_entry member = None ->
  let x := Multi.loadMonitoringStatus env w in
  result_of x = Done tt /\
  globals (world_of x) = globals w /\
  spawnedChats (events_of x) = [] /\
  (forall k b, EvStore k b ∉ events_of x) /\
  (ReadFile_err env (clock w) = None ->
   events_of x = [EvReadFile Multi.statusFile; EvLog (LogUnmarshalError JSONTypeError)]).
Proof.
  intros Hfile Hin Hbad x. subst x. unfold Multi.loadMonitoringStatus.
  destruct (ReadFile_err env (clock w)) as [e|] eqn:Hread.
  - erewrite mbind_Done by (eapply ReadFile_run_err; eassumption).
    destruct e; simpl; (split; [done|]); (split; [done|]); (split; [done|]);
      (split; [|done]); intros k b Hk; repeat (apply elem_of_cons in Hk as [Hk|Hk]; [done|]);
      by apply elem_of_nil in Hk.
  - erewrite mbind_Done by (eapply ReadFile_run_ok; eassumption).
    cbv beta iota. rewrite (Unmarshal_bad_entry members member Hin Hbad).
    simpl. split; [done|]. split; [done|]. split; [done|]. split; [|done].
    intros k b Hk; repeat (apply elem_of_cons in Hk as [Hk|Hk]; [done|]);
      by apply elem_of_nil in Hk.
Qed.

Lemma X10_damaged_file_restores_nothing_witness :
  let x := Multi.loadMonitoringStatus envQuiet (withFile ∅ (Some damagedFile)) in
  result_of x = Done tt /\
  globals (world_of x) = globals (withFile ∅ (Some damagedFile)) /\
  spawnedChats (events_of x) = [] /\
  (forall k b, EvStore k b ∉ events_of x) /\
  (ReadFile_err envQuiet 0%nat = None ->
   events_of x = [EvReadFile Multi.statusFile; EvLog (LogUnmarshalError JSONTypeError)]).
Proof.
  apply (X10_damaged_file_restores_nothing envQuiet (withFile ∅ (Some damagedFile))
           [("7", JBool true); ("8", JString "yes")] ("8", JString "yes")).
  - reflexivity.
  - apply elem_of_cons. right. apply elem_of_cons. by left.
  - reflexivity.
Defined.

(** X11: start-up from any status file that decodes.  Whatever object the
    file holds (written by the bot or not: signed keys, a session listed
    twice, [null] values) and whatever the map held before, loading stores
    every decoded session over the map, leaves the file as it is, and starts
    a monitoring loop for each session the decoded map enables, once each,
    and for no other. *)
Theorem X11_load_restores_decoded_map (env : Env) (w : World Multi.Globals)
    (data : option JSON) (statusMap : gmap Z bool) :
  Multi.files (globals w) !! Multi.statusFile = Some data ->
  ReadFile_err env (clock w) = None ->
  Multi.Unmarshal_statusMap data = inr statusMap ->
  let x := Multi.loadMonitoringStatus env w in
  result_of x = Done tt /\
  Multi.monitoringStatus (globals (world_of x))
    = statusMap ∪ Multi.monitoringStatus (globals w) /\
  Multi.files (globals (world_of x)) = Multi.files (globals w) /\
  NoDup (spawnedChats (events_of x)) /\
  (forall c, c ∈ spawnedChats (events_of x) <-> statusMap !! c = Some true).
Proof.
  intros Hfile Hread Hdec x. subst x. unfold Multi.loadMonitoringStatus.
  erewrite mbind_Done by (eapply ReadFile_run_ok; eassumption).
  cbv beta iota. rewrite Hdec.
  destruct (resume_run (map_to_list statusMap) (tick w)) as (w' & evs & -> & Hm & Hf & Hs).
  unfold result_of, world_of, events_of, after. simpl.
  split; [done|]. split; [|split; [exact Hf|]].
  - rewrite Hm. simpl.
    rewrite fold_left_insert_union by apply NoDup_fst_map_to_list.
    by rewrite list_to_map_to_list.
  - rewrite Hs. split.
    + apply enabledChats_NoDup, NoDup_fst_map_to_list.
    + intros c. by rewrite enabledChats_elem, elem_of_map_to_list.
Qed.

Lemma X11_load_restores_decoded_map_witness :
  let x := Multi.loadMonitoringStatus envQuiet (withFile {[ 42 := true ]} (Some editedFile)) in
  result_of x = Done tt /\
  Multi.monitoringStatus (globals (world_of x)) = editedStatus ∪ {[ 42 := true ]} /\
  Multi.files (globals (world_of x)) = {[ Multi.statusFile := Some editedFile ]} /\
  NoDup (spawnedChats (events_of x)) /\
  (forall c, c ∈ spawnedChats (events_of x) <-> editedStatus !! c = Some true).
Proof.
  assert (Hdec : Multi.Unmarshal_statusMap (Some editedFile) = inr editedStatus)
    by (vm_compute; reflexivity).
  exact (X11_load_restores_decoded_map envQuiet (withFile {[ 42 := true ]} (Some editedFile))
           (Some editedFile) editedStatus eq_refl eq_refl Hdec).
Defined.

(** ** What a restart finds *)

Section Restart.
Import Multi.
Context (env env' : Env).




End Restart.




(** ** Commands that arrive before the goroutine has stored its flag *)

Section Impatient.
Context (env : Env) (chat : Z).

Lemma multi_monitor_spawns (w : World Multi.Globals) :
  storesQuiet env ->
  Multi.isMonitoring (Multi.monitoringStatus (globals w) !! chat) = false ->
  exists w',
    Multi.handleUpdate env (command chat "monitor") w =
      (Done tt, w',
       [EvLoad chat (Multi.monitoringStatus (globals w) !! chat); EvGo (Some chat)]) /\
    Multi.monitoringStatus (globals w') = Multi.monitoringStatus (globals w).
Proof.
  intros Hq Hoff.
  assert (Hseen : Multi.seen env w = Multi.monitoringStatus (globals w)).
  { unfold Multi.seen. by rewrite (Hq (clock w)). }
  unfold Multi.handleUpdate. simpl.
  erewrite mbind_Done by apply MultiFacts.multi_Load_run.
  rewrite Hseen, Hoff. simpl. unfold Multi.goStartMonitoring.
  eexists. split; [reflexivity|]. simpl. exact Hseen.
Qed.

Lemma multi_monitor_n_spawns n (w : World Multi.Globals) :
  storesQuiet env ->
  Multi.isMonitoring (Multi.monitoringStatus (globals w) !! chat) = false ->
  let x := Multi.handleCommands env (replicate n (command chat "monitor")) w in
  result_of x = Done tt /\
  spawnedChats (events_of x) = replicate n chat /\
  Multi.monitoringStatus (globals (world_of x)) = Multi.monitoringStatus (globals w).
Proof.
  intros Hq. revert w. induction n as [|n IH]; intros w Hoff; [done|].
  destruct (multi_monitor_spawns w Hq Hoff) as (w' & Hrun & Hm).
  cbn [replicate Multi.handleCommands]. rewrite (mbind_Done _ _ _ _ _ _ Hrun).
  rewrite <- Hm in Hoff. destruct (IH w' Hoff) as (Hr & Hs & Hmap).
  unfold result_of, world_of, events_of, after in *.
  destruct (Multi.handleCommands env (replicate n (command chat "monitor")) w')
    as [[r w''] evs]. simpl in *.
  split; [exact Hr|]. split; [by rewrite Hs|]. by rewrite Hmap.
Qed.

Lemma single_monitor_spawns (w : World Single.Globals) :
  flagsQuiet env ->
  Single.monitoring (globals w) = false ->
  exists w',
    Single.handleUpdate env (command chat "monitor") w =
      (Done tt, w', [EvSetChat chat; EvReadFlag false; EvGo None]) /\
    Single.monitoring (globals w') = false.
Proof.
  intros Hq Hoff.
  assert (Hset : Single.setChatID chat w =
            (Done tt, world_of (Single.setChatID chat w), [EvSetChat chat]))
    by reflexivity.
  assert (Hseen : Single.seenFlag env (world_of (Single.setChatID chat w)) = false).
  { unfold Single.seenFlag, Single.synced. simpl. by rewrite (Hq (S (clock w))). }
  unfold Single.handleUpdate. simpl.
  erewrite mbind_Done by exact Hset.
  erewrite mbind_Done by apply SingleFacts.single_readMonitoring_run.
  rewrite Hseen. simpl. unfold Single.goStartMonitoring.
  eexists. split; [reflexivity|]. simpl. exact Hseen.
Qed.

Lemma single_monitor_n_spawns n (w : World Single.Globals) :
  flagsQuiet env ->
  Single.monitoring (globals w) = false ->
  let x := Single.handleCommands env (replicate n (command chat "monitor")) w in
  result_of x = Done tt /\
  spawnsOf (events_of x) = replicate n (EvGo None).
Proof.
  intros Hq. revert w. induction n as [|n IH]; intros w Hoff; [done|].
  destruct (single_monitor_spawns w Hq Hoff) as (w' & Hrun & Hm).
  cbn [replicate Single.handleCommands]. rewrite (mbind_Done _ _ _ _ _ _ Hrun).
  destruct (IH w' Hm) as (Hr & Hs).
  destruct (Single.handleCommands env (replicate n (command chat "monitor")) w')
    as [[r w''] evs].
  rewrite after_triple. unfold result_of, events_of in *. cbn [fst snd] in *.
  split; [exact Hr|]. unfold spawnsOf in *. rewrite filter_app, Hs. reflexivity.
Qed.

End Impatient.

(** X13: the handler does not mark a session as running; the goroutine it
    starts does.  As long as that store is not visible to the handler (the
    new goroutine has not run yet, and nobody else writes the flag), every
    further [/monitor] for a session that is not running starts one more
    monitoring loop: [n] commands start [n] loops, in either bot. *)
Theorem X13_monitor_before_flag_is_set (env : Env) (chat : Z) (n : nat)
    (wm : World Multi.Globals) (ws : World Single.Globals) :
  storesQuiet env -> flagsQuiet env ->
  Multi.isMonitoring (Multi.monitoringStatus (globals wm) !! chat) = false ->
  Single.monitoring (globals ws) = false ->
  let updates := replicate n (command chat "monitor") in
  spawnedChats (events_of (Multi.handleCommands env updates wm)) = replicate n chat /\
  spawnsOf (events_of (Single.handleCommands env updates ws)) = replicate n (EvGo None).
Proof.
  intros Hs Hf Hm Hoff updates. subst updates. split.
  - by destruct (multi_monitor_n_spawns env chat n wm Hs Hm) as (_ & H & _).
  - by destruct (single_monitor_n_spawns env chat n ws Hf Hoff) as (_ & H).
Qed.

Lemma X13_monitor_before_flag_is_set_witness :
  spawnedChats (events_of (Multi.handleCommands envQuiet
                             (replicate 3 (command 7 "monitor")) multiFresh)) = [7; 7; 7] /\
  spawnsOf (events_of (Single.handleCommands envQuiet
                         (replicate 3 (command 7 "monitor")) singleStopped))
    = [EvGo None; EvGo None; EvGo None].
Proof.
  assert (Hs : storesQuiet envQuiet) by (by intros t).
  assert (Hf : flagsQuiet envQuiet) by (by intros t).
  exact (X13_monitor_before_flag_is_set envQuiet 7 3 multiFresh singleStopped
           Hs Hf eq_refl eq_refl).
Defined.

(** ** The order of requests and alerts in a pass over the symbols *)

Lemma requestsOf_app e1 e2 : requestsOf (e1 ++ e2) = requestsOf e1 ++ requestsOf e2.
Proof. apply omap_app. Qed.

Lemma requestsOf_cons e evs :
  requestsOf (e :: evs) = from_option (fun url => [url]) [] (requestOf e) ++ requestsOf evs.
Proof. unfold requestsOf. simpl. by destruct (requestOf e). Qed.

Arguments requestsOf : simpl never.

Lemma requestsOf_sendFailure r : requestsOf (sendFailure r) = [].
Proof. by destruct r. Qed.

Lemma alertsFor_symbols symbol r :
  (alertsFor symbol r).*1 = [] \/ (alertsFor symbol r).*1 = [symbol].
Proof.
  destruct r as [[[d|] [e|]]|msg]; simpl; auto.
  destruct (PrimFloat.ltb 5 (Ratio d)); simpl; auto.
Qed.

Section PassOrder.
Context {G : Type} (check : string -> M G Ctl) (loop : list string -> M G Ctl).
Hypothesis loop_nil : loop [] = mret Next.
Hypothesis loop_cons : forall symbol rest,
  loop (symbol :: rest) =
    check symbol ≫= fun c => match c with Return => mret Return | Next => loop rest end.
Hypothesis check_shape : forall symbol w, stepShape symbol (check symbol w).

Lemma pass_shape symbols w : passShape symbols (loop symbols w).
Proof.
  revert w. induction symbols as [|symbol rest IH]; intros w.
  - rewrite loop_nil. split; [done|]. split; [done|]. simpl. constructor.
  - rewrite loop_cons. destruct (check_shape symbol w) as [Hreq Hal].
    destruct (check symbol w) as [[r w1] e1] eqn:Hc.
    unfold events_of, result_of in Hreq, Hal. simpl in Hreq, Hal.
    destruct r as [[|]|msg].
    + rewrite (mbind_Done _ _ _ _ _ _ Hc).
      destruct Hreq as [Hreq|[_ Hne]]; [|done].
      destruct (IH w1) as (Hpre & Hall & Hsub).
      destruct (loop rest w1) as [[r2 w2] e2].
      unfold passShape, events_of, result_of, after in *. simpl in *.
      rewrite requestsOf_app, alertsOf_app, fmap_app, Hreq. simpl.
      split; [by apply prefix_cons|]. split.
      * intros Hr. by rewrite (Hall Hr).
      * destruct Hal as [->| ->]; simpl; [by apply sublist_cons|by apply sublist_skip].
    + rewrite (mbind_Done _ _ _ _ _ _ Hc). rewrite mret_run, after_triple, app_nil_r.
      unfold passShape, events_of, result_of. simpl.
      split; [|split; [done|]].
      * destruct Hreq as [->|[-> _]]; [by apply prefix_cons, prefix_nil|apply prefix_nil].
      * destruct Hal as [->| ->]; [apply sublist_nil_l|].
        apply sublist_skip, sublist_nil_l.
    + rewrite (mbind_Panicked _ _ _ _ _ _ Hc).
      unfold passShape, events_of, result_of. simpl.
      split; [|split; [done|]].
      * destruct Hreq as [->|[-> _]]; [by apply prefix_cons, prefix_nil|apply prefix_nil].
      * destruct Hal as [->| ->]; [apply sublist_nil_l|].
        apply sublist_skip, sublist_nil_l.
Qed.

End PassOrder.

Section StepShapes.
Context (env : Env).

Lemma console_checkSymbol_shape symbol (w : World unit) :
  stepShape symbol (Console.checkSymbol env symbol w).
Proof.
  split.
  - left. destruct (getBinanceVolume_shape env symbol w) as [r HV].
    destruct r as [[vd [e|]]|msg].
    + by rewrite (ConsoleFacts.console_checkSymbol_error env _ _ _ _ _ _ HV).
    + destruct (exceeds vd) eqn:HX.
      * destruct vd as [d|]; [|done]. simpl in HX.
        by rewrite (ConsoleFacts.console_checkSymbol_alert env _ _ _ _ _ HV HX).
      * by rewrite (ConsoleFacts.console_checkSymbol_quiet env _ _ _ _ _ HV HX).
    + unfold Console.checkSymbol. by rewrite (mbind_Panicked _ _ _ _ _ _ HV).
  - rewrite console_checkSymbol_alerts. apply alertsFor_symbols.
Qed.

Lemma single_checkSymbol_shape symbol (w : World Single.Globals) :
  stepShape symbol (Single.checkSymbol env symbol w).
Proof.
  split.
  - pose proof (SingleFacts.single_readMonitoring_run env w) as HL.
    destruct (Single.seenFlag env w) eqn:Hflag.
    2:{ rewrite (SingleFacts.single_checkSymbol_stopped env symbol _ _ _ HL). by right. }
    left. destruct (getBinanceVolume_shape env symbol (tick (Single.synced env w)))
      as [r HV].
    destruct r as [[vd [e|]]|msg].
    + by rewrite (SingleFacts.single_checkSymbol_error env _ _ _ _ _ _ _ _ HL HV).
    + destruct (exceeds vd) eqn:HX.
      * destruct vd as [d|]; [|done]. simpl in HX.
        destruct (SingleFacts.single_checkSymbol_alert env _ _ _ _ _ _ _ HL HV HX)
          as [w3 ->].
        unfold events_of. simpl.
        by rewrite !requestsOf_cons, requestsOf_app, requestsOf_sendFailure.
      * by rewrite (SingleFacts.single_checkSymbol_quiet env _ _ _ _ _ _ _ HL HV HX).
    + unfold Single.checkSymbol. mstep. simpl.
      by rewrite (mbind_Panicked _ _ _ _ _ _ HV).
  - rewrite single_checkSymbol_alerts.
    destruct (Single.seenFlag env w); [apply alertsFor_symbols|by left].
Qed.

Lemma multi_checkSymbol_shape chatID symbol (w : World Multi.Globals) :
  stepShape symbol (Multi.checkSymbol env chatID symbol w).
Proof.
  split.
  - pose proof (MultiFacts.multi_Load_run env chatID w) as HL.
    destruct (Multi.seen env w !! chatID) as [[|]|] eqn:Hflag.
    2:{ rewrite (MultiFacts.multi_checkSymbol_stopped env chatID symbol _ _ _ HL).
        by right. }
    2:{ unfold Multi.checkSymbol. mstep. by right. }
    left. destruct (getBinanceVolume_shape env symbol (tick (Multi.synced env w)))
      as [r HV].
    destruct r as [[vd [e|]]|msg].
    + by rewrite (MultiFacts.multi_checkSymbol_error env _ _ _ _ _ _ _ _ _ HL HV).
    + destruct (exceeds vd) eqn:HX.
      * destruct vd as [d|]; [|done]. simpl in HX.
        destruct (MultiFacts.multi_checkSymbol_alert env _ _ _ _ _ _ _ _ HL HV HX)
          as [w3 ->].
        unfold events_of. simpl.
        by rewrite !requestsOf_cons, requestsOf_app, requestsOf_sendFailure.
      * by rewrite (MultiFacts.multi_checkSymbol_quiet env _ _ _ _ _ _ _ _ HL HV HX).
    + unfold Multi.checkSymbol. mstep. simpl. mstep. simpl.
      by rewrite (mbind_Panicked _ _ _ _ _ _ HV).
  - rewrite multi_checkSymbol_alerts.
    destruct (Multi.seen env w !! chatID) as [[|]|]; [apply alertsFor_symbols|by left..].
Qed.

End StepShapes.

(** X14: a pass of the inner loop follows the ranking.  In each of the
    three programs the pass over [symbols] requests the klines of the
    symbols in the order of the list, one request per symbol, up to the
    symbol where it stops or panics; a pass that runs to the end has
    requested the klines of every symbol exactly once, and it requests
    nothing else.  The symbols it alerts for are a subsequence of
    [symbols]: at most one alert per listed symbol, in ranking order. *)
Theorem X14_pass_follows_the_ranking (env : Env) (chatID : Z) (symbols : list string)
    (wc : World unit) (ws : World Single.Globals) (wm : World Multi.Globals) :
  passShape symbols (Console.forSymbols env symbols wc) /\
  passShape symbols (Single.forSymbols env symbols ws) /\
  passShape symbols (Multi.forSymbols env chatID symbols wm).
Proof.
  split; [|split].
  - apply (pass_shape (Console.checkSymbol env) (Console.forSymbols env)); try done.
    apply console_checkSymbol_shape.
  - apply (pass_shape (Single.checkSymbol env) (Single.forSymbols env)); try done.
    apply single_checkSymbol_shape.
  - apply (pass_shape (Multi.checkSymbol env chatID) (Multi.forSymbols env chatID));
      try done.
    apply multi_checkSymbol_shape.
Qed.

(** ** The pace of the requests to the ranking API *)

Lemma klinesURL_not_rankURL symbol : klinesURL symbol <> rankURL.
Proof. unfold klinesURL, rankURL. simpl. intros [=]. Qed.

Lemma pace_inert b e : inert e -> pace b e = Some b.
Proof.
  destruct e; simpl; try done.
  - intros Hne. apply String.eqb_neq in Hne. by rewrite Hne.
  - intros Hlt. apply Z.leb_gt in Hlt. by rewrite Hlt, orb_false_r.
Qed.

Lemma pacedFrom_inert b evs : Forall inert evs -> pacedFrom b evs = Some b.
Proof.
  induction 1 as [|e evs He _ IH]; simpl; [done|]. by rewrite (pace_inert b e He).
Qed.

Lemma pacedFrom_app b e1 e2 :
  pacedFrom b (e1 ++ e2) =
    match pacedFrom b e1 with Some b1 => pacedFrom b1 e2 | None => None end.
Proof.
  revert b. induction e1 as [|e e1 IH]; intros b; simpl; [done|].
  destruct (pace b e); [apply IH|done].
Qed.

Lemma pacedFrom_no_rank b evs :
  rankURL ∉ requestsOf evs -> is_Some (pacedFrom b evs).
Proof.
  revert b. induction evs as [|e evs IH]; intros b Hno; simpl; [by eexists|].
  rewrite requestsOf_cons in Hno.
  destruct e; simpl in *; try (by apply IH).
  destruct (String.eqb_spec url rankURL) as [->|Hne].
  - exfalso. apply Hno. by left.
  - apply IH. intros Hin. apply Hno. by right.
Qed.

Section Pace.
Context {G : Type}.

Lemma keepsPace_ret {A} (pre : bool -> Prop) (a : A) (post : A -> bool -> Prop) :
  (forall b, pre b -> post a b) -> keepsPace pre (mret a : M G A) post.
Proof. intros H w b Hb. exists b. split; [done|]. by apply H. Qed.

Lemma keepsPace_panic {A} (pre : bool -> Prop) msg (post : A -> bool -> Prop) :
  keepsPace pre (@panic G A msg) post.
Proof. intros w b Hb. by exists b. Qed.

Lemma keepsPace_bind {A B} (pre : bool -> Prop) (m : M G A) (f : A -> M G B)
    (Q : A -> bool -> Prop) (post : B -> bool -> Prop) :
  keepsPace pre m Q -> (forall a, keepsPace (Q a) (f a) post) ->
  keepsPace pre (m ≫= f) post.
Proof.
  intros Hm Hf w b Hb. destruct (Hm w b Hb) as (b1 & Hp1 & Hr1).
  destruct (m w) as [[r w1] e1] eqn:Hmw.
  unfold events_of, result_of in Hp1, Hr1. simpl in Hp1, Hr1.
  destruct r as [a|msg].
  - rewrite (mbind_Done m f w a w1 e1 Hmw).
    destruct (Hf a w1 b1 Hr1) as (b2 & Hp2 & Hr2).
    exists b2. destruct (f a w1) as [[r2 w2] e2].
    unfold events_of, result_of, after in *. simpl in *.
    by rewrite pacedFrom_app, Hp1.
  - rewrite (mbind_Panicked m f w msg w1 e1 Hmw). by exists b1.
Qed.

Lemma keepsPace_inert {A} (pre : bool -> Prop) (m : M G A) :
  (forall w, Forall inert (events_of (m w))) -> keepsPace pre m (fun _ b => pre b).
Proof.
  intros H w b Hb. exists b. split; [by apply pacedFrom_inert|].
  by destruct (result_of (m w)).
Qed.

Lemma keepsPace_free {A} (pre : bool -> Prop) (m : M G A) :
  (forall w, rankURL ∉ requestsOf (events_of (m w))) -> keepsPace pre m (fun _ _ => True).
Proof.
  intros H w b Hb. destruct (pacedFrom_no_rank b _ (H w)) as [b' Hb'].
  exists b'. split; [done|]. by destruct (result_of (m w)).
Qed.

Lemma keepsPace_rest (pre : bool -> Prop) :
  keepsPace pre (timeSleep (G:=G) 300000) (fun _ b => b = true).
Proof. intros w b Hb. exists true. split; [|done]. simpl. by rewrite orb_true_r. Qed.

Lemma keepsPace_rank env :
  keepsPace (fun b => b = true) (getMarketCapRank (G:=G) env) (fun _ _ => True).
Proof.
  intros w b ->. destruct (getMarketCapRank_shape env w) as (symbols & err & ->).
  exists false. split; [|done]. unfold events_of. simpl. by rewrite ?String.eqb_refl.
Qed.

Lemma inert_botSend env chat msg (w : World G) :
  Forall inert (events_of (botSend env chat msg w)).
Proof. by repeat constructor. Qed.

Lemma inert_logPrintf entry (w : World G) : Forall inert (events_of (logPrintf entry w)).
Proof. by repeat constructor. Qed.

Lemma inert_fmtPrintf entry (w : World G) : Forall inert (events_of (fmtPrintf entry w)).
Proof. by repeat constructor. Qed.

(** A pass of the inner loop requests klines only. *)
Lemma passShape_no_rank symbols (x : Result Ctl * World G * list Event) :
  passShape symbols x -> rankURL ∉ requestsOf (events_of x).
Proof.
  intros ([rest Hpre] & _ & _) Hin.
  assert (Hin' : rankURL ∈ klinesURL <$> symbols).
  { rewrite Hpre. apply elem_of_app. by left. }
  apply list_elem_of_fmap in Hin' as (symbol & Heq & _).
  by apply (klinesURL_not_rankURL symbol).
Qed.

(** The tail of every cycle: a log entry, then five minutes of sleep. *)
Lemma keepsPace_cycle_end {A} (pre : bool -> Prop) (log : M G unit) (next : M G A) :
  (forall w, Forall inert (events_of (log w))) ->
  keepsPace (fun b => b = true) next (fun _ _ => True) ->
  keepsPace pre (log ≫= fun _ => timeSleep 300000 ≫= fun _ => next) (fun _ _ => True).
Proof.
  intros Hlog Hnext.
  eapply keepsPace_bind; [by apply keepsPace_inert|]. intros ?.
  eapply keepsPace_bind; [apply keepsPace_rest|]. intros ?. exact Hnext.
Qed.

End Pace.

Section LoopPace.
Context (env : Env).

Lemma multi_monitorLoop_paced fuel chatID :
  keepsPace (fun b => b = true) (Multi.monitorLoop env fuel chatID) (fun _ _ => True).
Proof.
  induction fuel as [|n IH]; simpl; [by apply keepsPace_ret|].
  eapply keepsPace_bind.
  { apply keepsPace_inert. intros w. rewrite MultiFacts.multi_Load_run.
    by repeat constructor. }
  intros v. eapply keepsPace_bind.
  { instantiate (1 := fun _ b => b = true).
    destruct v; [by apply keepsPace_ret|apply keepsPace_panic]. }
  intros b. destruct (negb b); [by apply keepsPace_ret|].
  eapply keepsPace_bind; [apply keepsPace_rank|]. intros [symbols [e|]].
  - apply keepsPace_cycle_end; [apply inert_logPrintf|exact IH].
  - eapply keepsPace_bind.
    { apply keepsPace_free. intros w. apply (passShape_no_rank symbols).
      apply (pass_shape (Multi.checkSymbol env chatID) (Multi.forSymbols env chatID));
        try done.
      apply multi_checkSymbol_shape. }
    intros [|]; [|by apply keepsPace_ret].
    apply keepsPace_cycle_end; [apply inert_logPrintf|exact IH].
Qed.

Lemma multi_startMonitoring_paced fuel chatID :
  keepsPace (fun b => b = true) (Multi.startMonitoring env fuel chatID) (fun _ _ => True).
Proof.
  unfold Multi.startMonitoring.
  eapply keepsPace_bind; [apply keepsPace_inert; intros w; by repeat constructor|].
  intros ?. eapply keepsPace_bind.
  { apply keepsPace_inert. intros w.
    destruct (saveMonitoringStatus_shape env w) as (w' & data & tail & -> & Htail).
    unfold events_of. simpl.
    destruct Htail as [->|[e ->]]; by repeat constructor. }
  intros ?. eapply keepsPace_bind; [apply keepsPace_inert, inert_botSend|].
  intros ?. apply multi_monitorLoop_paced.
Qed.

Lemma single_monitorLoop_paced fuel :
  keepsPace (fun b => b = true) (Single.monitorLoop env fuel) (fun _ _ => True).
Proof.
  induction fuel as [|n IH]; simpl; [by apply keepsPace_ret|].
  eapply keepsPace_bind.
  { apply keepsPace_inert. intros w. rewrite SingleFacts.single_readMonitoring_run.
    by repeat constructor. }
  intros b. destruct (negb b); [by apply keepsPace_ret|].
  eapply keepsPace_bind; [apply keepsPace_rank|]. intros [symbols [e|]].
  - apply keepsPace_cycle_end; [apply inert_logPrintf|exact IH].
  - eapply keepsPace_bind.
    { apply keepsPace_free. intros w. apply (passShape_no_rank symbols).
      apply (pass_shape (Single.checkSymbol env) (Single.forSymbols env)); try done.
      apply single_checkSymbol_shape. }
    intros [|]; [|by apply keepsPace_ret].
    apply keepsPace_cycle_end; [apply inert_logPrintf|exact IH].
Qed.

Lemma single_startMonitoring_paced fuel :
  keepsPace (fun b => b = true) (Single.startMonitoring env fuel) (fun _ _ => True).
Proof.
  unfold Single.startMonitoring.
  eapply keepsPace_bind; [apply keepsPace_inert; intros w; by repeat constructor|].
  intros ?. eapply keepsPace_bind.
  { apply keepsPace_inert. intros w. rewrite SingleFacts.single_readChatID_run.
    by repeat constructor. }
  intros ?. eapply keepsPace_bind; [apply keepsPace_inert, inert_botSend|].
  intros ?. apply single_monitorLoop_paced.
Qed.

Lemma console_mainLoop_paced fuel :
  keepsPace (fun b => b = true) (Console.mainLoop env fuel) (fun _ _ => True).
Proof.
  induction fuel as [|n IH]; simpl; [by apply keepsPace_ret|].
  eapply keepsPace_bind; [apply keepsPace_rank|]. intros [symbols [e|]].
  - apply keepsPace_cycle_end; [apply inert_fmtPrintf|exact IH].
  - eapply keepsPace_bind.
    { apply keepsPace_free. intros w. apply (passShape_no_rank symbols).
      apply (pass_shape (Console.checkSymbol env) (Console.forSymbols env)); try done.
      apply console_checkSymbol_shape. }
    intros [|]; [|by apply keepsPace_ret].
    apply keepsPace_cycle_end; [apply inert_fmtPrintf|exact IH].
Qed.

Lemma console_main_paced fuel :
  keepsPace (fun b => b = true) (Console.main env fuel) (fun _ _ => True).
Proof.
  unfold Console.main.
  eapply keepsPace_bind; [apply keepsPace_inert, inert_fmtPrintf|].
  intros ?. apply console_mainLoop_paced.
Qed.

End LoopPace.

(** X15: a monitoring loop asks the ranking API at most once per five
    minutes.  In every run of each of the three loops, whatever the
    environment answers and however the run ends, each request to the
    ranking API but the first comes after a sleep of five minutes since
    the previous one: on the trace, the observer [pacedFrom] never reports
    a violation. *)
Theorem X15_ranking_requests_are_paced (env : Env) (fuel : nat) (chatID : Z)
    (wm : World Multi.Globals) (ws : World Single.Globals) (wc : World unit) :
  is_Some (pacedFrom true (events_of (Multi.startMonitoring env fuel chatID wm))) /\
  is_Some (pacedFrom true (events_of (Single.startMonitoring env fuel ws))) /\
  is_Some (pacedFrom true (events_of (Console.main env fuel wc))).
Proof.
  destruct (multi_startMonitoring_paced env fuel chatID wm true eq_refl) as (b1 & H1 & _).
  destruct (single_startMonitoring_paced env fuel ws true eq_refl) as (b2 & H2 & _).
  destruct (console_main_paced env fuel wc true eq_refl) as (b3 & H3 & _).
  split; [by eexists|]. split; by eexists.
Qed.

(** ** HTTP status codes *)

(** X16: the fetchers look at no HTTP status but 400.  [getMarketCapRank]
    never reads the status code: two answers with the same body give the
    same result, whatever their codes.  [getBinanceVolume] compares the
    code with 400 and does nothing else with it: two answers with the same
    body and codes other than 400 (200, 404, 429, 500, ...) give the same
    result, so an error page is decoded as if it were data. *)
Theorem X16_only_status_400_is_read {G} (env1 env2 : Env) (symbol : string)
    (w : World G) :
  ParseFloat env1 = ParseFloat env2 ->
  Unmarshal_coins env1 = Unmarshal_coins env2 ->
  ToUpper env1 = ToUpper env2 ->
  (sameButStatus (http_Get env1 (clock w) rankURL) (http_Get env2 (clock w) rankURL) ->
   getMarketCapRank env1 w = getMarketCapRank env2 w) /\
  (sameButStatus (http_Get env1 (clock w) (klinesURL symbol))
                 (http_Get env2 (clock w) (klinesURL symbol)) ->
   not400 (http_Get env1 (clock w) (klinesURL symbol)) ->
   not400 (http_Get env2 (clock w) (klinesURL symbol)) ->
   getBinanceVolume env1 symbol w = getBinanceVolume env2 symbol w).
Proof.
  intros Hpf Hcoins Hup. split.
  - intros Hsame. unfold getMarketCapRank. do 2 mstep.
    destruct (http_Get env1 (clock w) rankURL) as [e1|[s1 b1]],
             (http_Get env2 (clock w) rankURL) as [e2|[s2 b2]]; simpl in Hsame;
      try done; subst; [done|].
    simpl. by rewrite Hcoins, Hup.
  - intros Hsame H1 H2. unfold getBinanceVolume. do 2 mstep.
    destruct (http_Get env1 (clock w) (klinesURL symbol)) as [e1|[s1 b1]],
             (http_Get env2 (clock w) (klinesURL symbol)) as [e2|[s2 b2]];
      simpl in Hsame, H1, H2; try done; subst; [done|].
    simpl. apply Z.eqb_neq in H1, H2. rewrite H1, H2.
    destruct b2 as [e|body]; [done|].
    destruct (Unmarshal_klines body) as [e|klines]; [done|].
    f_equal. unfold volumeOfKlines. by rewrite Hpf.
Qed.

Lemma X16_only_status_400_is_read_witness :
  getMarketCapRank envRatio6 (W0 tt) = getMarketCapRank envStatus500 (W0 tt) /\
  getBinanceVolume envRatio6 "BTCUSDT" (W0 tt) = getBinanceVolume envStatus500 "BTCUSDT" (W0 tt).
Proof.
  destruct (X16_only_status_400_is_read envRatio6 envStatus500 "BTCUSDT" (W0 tt)
              eq_refl eq_refl eq_refl) as [H1 H2].
  split; [by apply H1|]. apply H2; [reflexivity|by simpl..].
Defined.

(** ** A command and the other sessions *)

Section OtherSessions.
Context (env : Env) (c c' : Z) (v : option bool).
Hypothesis Hother : c' <> c.

Lemma triple_Load_other :
  triple (flagIs env c' v) (commandEvent c) (Multi.Load env c)
    (fun _ => True) (fun _ => False).
Proof.
  intros w HI. rewrite MultiFacts.multi_Load_run.
  unfold world_of, events_of, result_of. simpl.
  split; [|split; [by repeat constructor|done]].
  intros Hq. unfold Multi.seen. rewrite (Hq (clock w)). by apply HI.
Qed.

Lemma triple_stopMonitoring_other :
  triple (flagIs env c' v) (commandEvent c) (Multi.stopMonitoring env c)
    (fun _ => True) (fun _ => False).
Proof.
  unfold Multi.stopMonitoring.
  eapply triple_bind.
  { instantiate (1 := fun _ => True). intros w HI.
    split; [|split; [by repeat constructor|done]].
    intros Hq. simpl. rewrite lookup_insert_ne by done. by apply HI. }
  intros _ _. eapply triple_bind.
  { instantiate (1 := fun _ => True). intros w HI.
    unfold Multi.saveMonitoringStatus, Multi.Range, Multi.WriteFile, Multi.sync,
      logPrintf, mbind, M_bind, bind, now, getG, putG, emit, mret, M_ret, ret,
      world_of, events_of, result_of.
    simpl. destruct (WriteFile_err env (S (clock w))) as [e|]; simpl;
      (split; [|split; [by repeat constructor|done]]);
      intros Hq; rewrite (Hq (clock w)); by apply HI. }
  intros _ _. eapply triple_bind; [by apply triple_botSend|].
  intros _ _. by apply triple_ret.
Qed.

Lemma triple_handleUpdate_other update msg :
  UpdMessage update = Some msg -> ChatID msg = c ->
  triple (flagIs env c' v) (commandEvent c) (Multi.handleUpdate env update)
    (fun _ => True) (fun _ => False).
Proof.
  intros Hmsg Hc. unfold Multi.handleUpdate. rewrite Hmsg, Hc.
  destruct (negb (IsCommand msg)); [by apply triple_ret|].
  repeat (match goal with |- context [String.eqb ?a ?b] => destruct (String.eqb a b) end);
    try (by apply triple_ret).
  - eapply triple_bind; [by apply triple_botSend|]. intros _ _. by apply triple_ret.
  - eapply triple_bind; [apply triple_Load_other|]. intros f _.
    destruct (negb (Multi.isMonitoring f)).
    + by apply triple_emit.
    + eapply triple_bind; [by apply triple_botSend|]. intros _ _. by apply triple_ret.
  - eapply triple_bind; [apply triple_Load_other|]. intros f _.
    destruct (Multi.isMonitoring f).
    + apply triple_stopMonitoring_other.
    + eapply triple_bind; [by apply triple_botSend|]. intros _ _. by apply triple_ret.
  - eapply triple_bind; [apply triple_Load_other|]. intros f _.
    eapply triple_bind; [by apply triple_botSend|]. intros _ _. by apply triple_ret.
Qed.

End OtherSessions.

(** X17: in the multi-session bot a command concerns the chat it came from
    and no other.  Handling a message from chat [c] loads, stores, starts
    and answers for [c] only (and the only flag value the handler itself
    ever stores is "stopped"); the flag of every other session is after the
    command what it was before, unless another goroutine changed it. *)
Theorem X17_command_leaves_other_sessions (env : Env) (update : Update)
    (msg : ChatMessage) (other : Z) (w : World Multi.Globals) :
  UpdMessage update = Some msg ->
  other <> ChatID msg ->
  let x := Multi.handleUpdate env update w in
  result_of x = Done tt /\
  Forall (commandEvent (ChatID msg)) (events_of x) /\
  (storesQuiet env ->
   Multi.monitoringStatus (globals (world_of x)) !! other
     = Multi.monitoringStatus (globals w) !! other).
Proof.
  intros Hmsg Hne x.
  pose proof (triple_handleUpdate_other env (ChatID msg) other
                (Multi.monitoringStatus (globals w) !! other) Hne update msg Hmsg eq_refl)
    as Ht.
  destruct (Ht w (fun _ => eq_refl)) as (H1 & H2 & H3). fold x in H1, H2, H3.
  split; [|split; [exact H2|exact H1]].
  by destruct (result_of x) as [[]|].
Qed.

Lemma X17_command_leaves_other_sessions_witness :
  let x := Multi.handleUpdate envQuiet (command 7 "stop") beforeSave in
  result_of x = Done tt /\
  Forall (commandEvent 7) (events_of x) /\
  (storesQuiet envQuiet ->
   Multi.monitoringStatus (globals (world_of x)) !! (-1001234567890)
     = Multi.monitoringStatus (globals beforeSave) !! (-1001234567890)).
Proof.
  apply (X17_command_leaves_other_sessions envQuiet (command 7 "stop")
           {| ChatID := 7; IsCommand := true; Command := "stop" |}
           (-1001234567890) beforeSave).
  - reflexivity.
  - simpl. lia.
Defined.

(** ** A save that fails *)

Lemma saveMonitoringStatus_fails env (w : World Multi.Globals) e stage :
  map_stores env (clock w) = [] ->
  WriteFile_err env (S (clock w)) = Some e ->
  WriteFile_leaves env (S (clock w)) = stage ->
  exists w',
    Multi.saveMonitoringStatus env w =
      (Done tt, w',
       [EvRange;
        EvWriteFile Multi.statusFile
          (Multi.Marshal_statusMap (Multi.monitoringStatus (globals w)));
        EvLog (LogSaveError e)]) /\
    Multi.monitoringStatus (globals w') = Multi.monitoringStatus (globals w) /\
    Multi.files (globals w') =
      leftBehind stage Multi.statusFile
        (Multi.Marshal_statusMap (Multi.monitoringStatus (globals w)))
        (Multi.files (globals w)).
Proof.
  intros Hq Hw Hl.
  unfold Multi.saveMonitoringStatus, Multi.Range, Multi.WriteFile, Multi.sync,
    logPrintf, mbind, M_bind, bind, now, getG, putG, emit, mret, M_ret, ret.
  simpl. rewrite Hq, Hw, Hl. simpl. eexists. split; [reflexivity|]. done.
Qed.

(** X18: a save that fails is logged and nothing more.  When the status
    file cannot be written, [/stop] for a running session still stores
    "stopped" in the map and still confirms to the chat; the write error
    goes to the log only.  The status file is then as the failed write left
    it: untouched when it could not be opened, so that a restart finds the
    state before the command; truncated, hence no JSON, when the write
    itself failed; complete when the error came at the close. *)
Theorem X18_failed_save_is_only_logged (env : Env) (chat : Z) (e : LibError)
    (stage : option bool) (w : World Multi.Globals) :
  storesQuiet env -> writesFail env e stage ->
  Multi.monitoringStatus (globals w) !! chat = Some true ->
  let x := Multi.handleUpdate env (command chat "stop") w in
  let saved :=
    Multi.Marshal_statusMap (<[chat := false]> (Multi.monitoringStatus (globals w))) in
  events_of x =
    [EvLoad chat (Some true); EvStore chat false; EvRange;
     EvWriteFile Multi.statusFile saved;
     EvLog (LogSaveError e); EvSend chat MsgStopped] /\
  result_of x = Done tt /\
  Multi.monitoringStatus (globals (world_of x))
    = <[chat := false]> (Multi.monitoringStatus (globals w)) /\
  Multi.files (globals (world_of x))
    = leftBehind stage Multi.statusFile saved (Multi.files (globals w)).
Proof.
  intros Hq Hw Hon x saved. subst x saved.
  assert (Hseen : Multi.seen env w = Multi.monitoringStatus (globals w)).
  { unfold Multi.seen. by rewrite (Hq (clock w)). }
  unfold Multi.handleUpdate. simpl.
  erewrite mbind_Done by apply MultiFacts.multi_Load_run.
  rewrite Hseen, Hon. simpl. unfold Multi.stopMonitoring.
  assert (HS : Multi.Store chat false (tick (Multi.synced env w)) =
            (Done tt, world_of (Multi.Store chat false (tick (Multi.synced env w))),
             [EvStore chat false])) by reflexivity.
  erewrite mbind_Done by exact HS.
  destruct (saveMonitoringStatus_fails env
              (world_of (Multi.Store chat false (tick (Multi.synced env w)))) e stage
              (Hq _) (proj1 (Hw _)) (proj2 (Hw _))) as (w' & Hsave & Hm & Hf).
  erewrite mbind_Done by exact Hsave.
  mstep. mtidy. unfold world_of, events_of, result_of, after. simpl.
  simpl in Hm, Hf. rewrite Hseen in Hm, Hf.
  split; [by rewrite Hseen|]. split; [done|]. split; [exact Hm|exact Hf].
Qed.

Lemma X18_failed_save_is_only_logged_witness :
  let x := Multi.handleUpdate envDiskFull (command 7 "stop") multiRunning in
  let saved :=
    Multi.Marshal_statusMap
      (<[7 := false]> (Multi.monitoringStatus (globals multiRunning))) in
  events_of x =
    [EvLoad 7 (Some true); EvStore 7 false; EvRange;
     EvWriteFile Multi.statusFile saved;
     EvLog (LogSaveError (IOError "no space left on device")); EvSend 7 MsgStopped] /\
  result_of x = Done tt /\
  Multi.monitoringStatus (globals (world_of x))
    = <[7 := false]> (Multi.monitoringStatus (globals multiRunning)) /\
  Multi.files (globals (world_of x))
    = leftBehind (Some false) Multi.statusFile saved (Multi.files (globals multiRunning)).
Proof.
  apply (X18_failed_save_is_only_logged envDiskFull 7
           (IOError "no space left on device") (Some false) multiRunning).
  - by intros t.
  - by intros t.
  - reflexivity.
Defined.

(** The observer of the pace does report a ranking request that comes too
    early. *)
Example pacedFrom_reports :
  pacedFrom true [EvHttpGet rankURL; EvSleep 100; EvHttpGet rankURL] = None /\
  pacedFrom true [EvHttpGet rankURL; EvSleep 300000; EvHttpGet rankURL] = Some false.
Proof. split; reflexivity. Qed.

(** ** No false alarm *)

Lemma alertsSound_of_events evs : Forall soundEvent evs -> alertsSound evs.
Proof.
  induction 1 as [|e evs He _ IH]; intros symbol data Hin; simpl in Hin.
  - by apply elem_of_nil in Hin.
  - unfold soundEvent in He. destruct (alertOf e) as [[s d]|].
    + apply elem_of_cons in Hin as [[= -> ->]|Hin]; [exact He|by apply (IH symbol)].
    + by apply (IH symbol).
Qed.

(** X19: no false alarm.  In every run of each of the three loops, for any
    number of cycles and whatever the environment answers, every alert
    that goes out (to Telegram or to the console) carries a sample whose
    ratio is above 5 in binary64, is the quotient of the sample's current
    and previous volume, and whose previous volume is not zero. *)
Theorem X19_no_false_alarm (env : Env) (fuel : nat) (chatID : Z)
    (wm : World Multi.Globals) (ws : World Single.Globals) (wc : World unit) :
  alertsSound (events_of (Multi.startMonitoring env fuel chatID wm)) /\
  alertsSound (events_of (Single.startMonitoring env fuel ws)) /\
  alertsSound (events_of (Console.main env fuel wc)).
Proof.
  assert (HP : (forall msg, klinePanic msg -> True) \/ wellFormedKlines env)
    by (by left).
  destruct (multi_startMonitoring_spec env chatID (fun _ => True) HP fuel wm)
    as (_ & _ & Hm & _).
  destruct (single_startMonitoring_spec env (fun _ => True) HP fuel ws) as [Hs _].
  destruct (console_main_spec env (fun _ => True) HP fuel wc) as [Hc _].
  split; [|split]; apply alertsSound_of_events; try done.
  eapply Forall_impl; [exact Hm|]. by intros e [_ He].
Qed.

(** ** The process *)






Section Process.
Context {G : Type} (env : Env) (body : Update -> M G unit)
  (handle : list Update -> M G unit).
Hypothesis handle_nil : handle [] = mret tt.
Hypothesis handle_cons : forall update rest,
  handle (update :: rest) = body update ≫= fun _ => handle rest.
Hypothesis body_safe : forall update, safe (body update).



End Process.




(** The goroutine that [/monitor] starts panics on a malformed kline: the
    process ends before the next update is handled. *)
Example main_killed_by_goroutine :
  Multi.main envGoroutinePanics [command 7 "monitor"; command 7 "status"] multiFresh =
    (Panicked "index out of range",
     world_of (Multi.main envGoroutinePanics [command 7 "monitor"; command 7 "status"]
                 multiFresh),
     [EvLog LogStarting; EvReadFile Multi.statusFile; EvLoad 7 None; EvGo (Some 7)]) /\
  result_of (Multi.main envGoroutinePanics [command 7 "status"; command 7 "status"]
               multiFresh) = Done tt.
Proof. split; reflexivity. Qed.

(** A number outside [float64] in a field the fetcher never reads makes the
    decoding fail, and the fetcher returns that error. *)
Example undecodable_number :
  getBinanceVolume envHugeNumber "ETHUSDT" (W0 tt) =
    (Done (None, Some (Errorf "failed to unmarshal klines: %v" (Some JSONTypeError))),
     tick (W0 tt), [EvHttpGet (klinesURL "ETHUSDT")]).
Proof. reflexivity. Qed.

(** A write of the status file that fails after the file was opened leaves
    no JSON in it: the restart logs the error and resumes no session. *)
Example cut_write_loses_the_sessions :
  let stopped := world_of (Multi.handleUpdate envDiskFull (command 7 "stop") beforeSave) in
  Multi.files (globals stopped) !! Multi.statusFile = Some None /\
  Multi.loadMonitoringStatus envQuiet
      (W0 {| Multi.monitoringStatus := ∅; Multi.files := Multi.files (globals stopped) |}) =
    (Done tt,
     tick (tick (W0 {| Multi.monitoringStatus := ∅;
                       Multi.files := Multi.files (globals stopped) |})),
     [EvReadFile Multi.statusFile; EvLog (LogUnmarshalError JSONSyntaxError)]).
Proof. split; reflexivity. Qed.
